(** * Launchers for llama.cpp binaries: chat.py, ocr_meta.py, ocr_tx.py, watch_gpu.py

    A shallow embedding of the four launcher scripts and the properties
    their specification states about them.

    Every script follows the same path: module-level configuration read
    from the environment, [argparse] on the command line, validation of the
    input files, construction of the argument vector, [subprocess.run], and
    relay of the child's result.

    Conventions of the embedding.
    - Python [str] is the [string] of its UTF-8 code units (for the texts
      of the environment and of the command line, the bytes the operating
      system holds). [str.strip] removes the white space characters of
      Unicode, [str.lower] and the digits of [int] are the ASCII ones.
    - [bytes] is [string] too: what a child writes is decoded before the
      launcher reads it as text.
    - Python [int] is [Z]; [str] of an [int] is its decimal form.
    - Python [float] and [pathlib.Path] are library types the scripts only
      build from a string and print back: they are kept abstract in the
      class [PyLib], as is the [%]-formatting of a help text.
    - [os.environ] is a finite map from names to strings.
    - [print] appends its text and a newline to a stream; [sys.exit] and
      exceptions are results of a small monad over the two output streams
      and the log of spawned commands. The streams hold the texts given
      to [print]: their encoding on the way out is not modelled.
    - The file system, the decoding of the locale and the behaviour of the
      external program are given by a [World]. *)

From Stdlib Require Import ZArith Ascii String.
From stdpp Require Import base option list strings gmap pretty.

Local Open Scope Z_scope.

(** * Python strings *)

Module Str.

(** One double quote character, for the texts that contain it. *)
Definition dq : string := String (ascii_of_nat 34) EmptyString.

(** The newline that [print] appends. *)
Definition nl : string := String (ascii_of_nat 10) EmptyString.

(** The value of a code unit. *)
Definition byte (c : ascii) : N := N_of_ascii c.

(** A continuation byte of UTF-8. *)
Definition continuation (c : ascii) : bool :=
  (128 <=? byte c)%N && (byte c <? 192)%N.

(** The code point of a character that UTF-8 writes in at most three
    code units (U+0000 to U+FFFF, the surrogates apart); [None] for any
    other string. No white space character needs four. *)
Definition code_point (t : string) : option N :=
  match t with
  | String a EmptyString =>
      if (byte a <? 128)%N then Some (byte a) else None
  | String a (String b EmptyString) =>
      if (194 <=? byte a)%N && (byte a <? 224)%N && continuation b
      then Some ((byte a - 192) * 64 + (byte b - 128))%N
      else None
  | String a (String b (String c EmptyString)) =>
      if (224 <=? byte a)%N && (byte a <? 240)%N && continuation b && continuation c
      then
        let n := ((byte a - 224) * 4096 + (byte b - 128) * 64 + (byte c - 128))%N in
        if (2048 <=? n)%N && negb ((55296 <=? n)%N && (n <=? 57343)%N)
        then Some n else None
      else None
  | _ => None
  end.

(** The white space of [str.isspace] and [str.strip]: TAB to CR, FS to
    US, the space, U+0085, U+00A0, U+1680, U+2000 to U+200A, U+2028,
    U+2029, U+202F, U+205F and U+3000. *)
Definition whitespace (n : N) : bool :=
  ((9 <=? n) && (n <=? 13) || (28 <=? n) && (n <=? 32)
   || (n =? 133) || (n =? 160) || (n =? 5760)
   || (8192 <=? n) && (n <=? 8202)
   || (n =? 8232) || (n =? 8233) || (n =? 8239) || (n =? 8287) || (n =? 12288))%N.

(** The white space [int] skips: of the ASCII characters TAB to CR and
    the space only, and every white space character beyond ASCII. *)
Definition int_whitespace (n : N) : bool :=
  ((9 <=? n) && (n <=? 13) || (n =? 32) || (128 <=? n) && whitespace n)%N.

(** The string is one character, and [f] holds of its code point. *)
Definition character (f : N → bool) (t : string) : bool :=
  match code_point t with Some n => f n | None => false end.

(** The string is one white space character. *)
Definition isspace (t : string) : bool := character whitespace t.
Definition int_isspace (t : string) : bool := character int_whitespace t.

(** Removal of the leading and of the trailing characters that [sp]
    holds of. A character has one, two or three code units. *)
Fixpoint lstrip_of (sp : string → bool) (s : string) : string :=
  match s with
  | EmptyString => EmptyString
  | String a s1 =>
      if sp (String a EmptyString) then lstrip_of sp s1 else
      match s1 with
      | String b s2 =>
          if sp (String a (String b EmptyString)) then lstrip_of sp s2 else
          match s2 with
          | String c s3 =>
              if sp (String a (String b (String c EmptyString)))
              then lstrip_of sp s3 else s
          | EmptyString => s
          end
      | EmptyString => s
      end
  end.

Fixpoint rstrip_of (sp : string → bool) (s : string) : string :=
  match s with
  | EmptyString => EmptyString
  | String a s' =>
      let r := rstrip_of sp s' in
      if sp (String a r) then EmptyString else String a r
  end.

(** [s.lstrip()], [s.rstrip()] and [s.strip()] *)
Definition lstrip (s : string) : string := lstrip_of isspace s.
Definition rstrip (s : string) : string := rstrip_of isspace s.
Definition strip (s : string) : string := rstrip (lstrip s).

(** Every character of the string is white space. *)
Definition all_space (s : string) : bool :=
  match lstrip s with EmptyString => true | _ => false end.

(** The first and the last code unit of a string, if any. *)
Definition first (s : string) : option ascii :=
  match s with EmptyString => None | String c _ => Some c end.

Fixpoint last (s : string) : option ascii :=
  match s with
  | EmptyString => None
  | String c EmptyString => Some c
  | String _ s' => last s'
  end.

(** [s.replace(old, new)] for the two replacements of the universal
    newlines: of CR LF, and of CR, by LF. *)
Fixpoint replace_crlf (s : string) : string :=
  match s with
  | EmptyString => EmptyString
  | String a s' =>
      match s' with
      | String b s'' =>
          if Ascii.eqb a (ascii_of_nat 13) && Ascii.eqb b (ascii_of_nat 10)
          then String b (replace_crlf s'')
          else String a (replace_crlf s')
      | EmptyString => s
      end
  end.

Fixpoint replace_cr (s : string) : string :=
  match s with
  | EmptyString => EmptyString
  | String a s' =>
      String (if Ascii.eqb a (ascii_of_nat 13) then ascii_of_nat 10 else a) (replace_cr s')
  end.

(** [c.lower()] and [s.lower()] on ASCII. *)
Definition lower_char (c : ascii) : ascii :=
  let n := nat_of_ascii c in
  if ((65 <=? n)%nat && (n <=? 90)%nat) then ascii_of_nat (n + 32) else c.

Fixpoint lower (s : string) : string :=
  match s with
  | EmptyString => EmptyString
  | String c s' => String (lower_char c) (lower s')
  end.

(** [sep.join(l)] *)
Fixpoint join (sep : string) (l : list string) : string :=
  match l with
  | [] => EmptyString
  | [x] => x
  | x :: l' => x +:+ sep +:+ join sep l'
  end.

(** [str(n)] for an [int]. *)
Definition of_int (n : Z) : string := pretty n.

(** The digits of [int(s)]: decimal digits, where single underscores may
    separate two digits. [after_digit] tells whether the previous
    character was a digit. *)
Fixpoint digits (acc : Z) (after_digit : bool) (s : string) : option Z :=
  match s with
  | EmptyString => if after_digit then Some acc else None
  | String c s' =>
      match Ascii.is_nat c with
      | Some d => digits (10 * acc + Z.of_nat d) true s'
      | None =>
          if (Ascii.eqb c "_" && after_digit)%bool
          then digits acc false s' else None
      end
  end.

(** [int(s)]: surrounding white space, an optional sign, then the
    digits. [None] stands for [ValueError]. *)
Definition to_int (s : string) : option Z :=
  match rstrip_of int_isspace (lstrip_of int_isspace s) with
  | String "+" r => digits 0 false r
  | String "-" r => Z.opp <$> digits 0 false r
  | r => digits 0 false r
  end.

End Str.

(** * Plain decimal numbers *)

(** The decimal form of an integer as [str] writes it: the digits
    without a leading zero, after a minus sign when the number is
    negative; no white space, sign [+] or underscore. *)
Module plain.

Definition digit (c : ascii) : bool :=
  (48 <=? Str.byte c)%N && (Str.byte c <=? 57)%N.

Definition nonzero_digit (c : ascii) : bool :=
  (49 <=? Str.byte c)%N && (Str.byte c <=? 57)%N.

Fixpoint all_digits (s : string) : bool :=
  match s with
  | EmptyString => true
  | String c r => digit c && all_digits r
  end.

Definition decimal (w : string) : bool :=
  match w with
  | String "0" EmptyString => true
  | String "-" (String d r) => nonzero_digit d && all_digits r
  | String d r => nonzero_digit d && all_digits r
  | EmptyString => false
  end.

End plain.

(** * What [strip] is to achieve *)
(** A string that neither starts nor ends with a white space
    character. *)
Definition trimmed (t : string) : Prop :=
  (∀ w r, Str.isspace w = true → t ≠ w +:+ r)
  ∧ (∀ w r, Str.isspace w = true → t ≠ r +:+ w).

(** [t] is [s] with its leading and trailing white space removed. *)
Definition trim_of (s t : string) : Prop :=
  ∃ lead trail,
    s = lead +:+ t +:+ trail
    ∧ Str.all_space lead = true ∧ Str.all_space trail = true
    ∧ trimmed t.

(** * The Python library types the launchers use but do not look into *)

(** [float(s)] and [str(x)] for [float]; [Path(s)], [p / name] and
    [str(p)] for [pathlib.Path]. [float_of_str] returns [None] where
    [float] raises [ValueError]. [help_error h] is the text of the
    exception that [h % params] raises when argparse expands the help
    text [h] of an argument with the attributes of that argument, and
    [None] when the expansion returns. *)
Class PyLib := {
  pyfloat : Type;
  float_of_str : string → option pyfloat;
  str_of_float : pyfloat → string;
  pypath : Type;
  Path : string → pypath;
  joinpath : pypath → string → pypath;
  str_of_path : pypath → string;
  help_error : string → option string;
}.

(** [os.environ] *)
Abbreviation environ := (gmap string string).

(** [os.environ.get(name, default)] *)
Definition environ_get (env : environ) (name dflt : string) : string :=
  default dflt (env !! name).

(** * argparse *)

Module argparse.
Section with_lib.
Context `{PyLib}.

(** The values an attribute of the parsed namespace can hold. *)
Inductive pyval :=
| VNone
| VInt (n : Z)
| VFloat (x : pyfloat)
| VStr (s : string)
| VPath (p : pypath)
| VBool (b : bool).

(** The [type=] converters the launchers pass. *)
Inductive argtype := type_int | type_float | type_str | type_Path.

(** [type(s)]; [None] when the converter raises, which argparse reports
    as a usage error. *)
Definition convert (ty : argtype) (s : string) : option pyval :=
  match ty with
  | type_int => VInt <$> Str.to_int s
  | type_float => VFloat <$> float_of_str s
  | type_str => Some (VStr s)
  | type_Path => Some (VPath (Path s))
  end.

(** The [action=] of an argument; [help] is the action of the [-h]
    argument every parser has. *)
Inductive action := store (ty : argtype) | store_true | store_false | help.

(** An argument of a parser. [default_value = None] is argparse's SUPPRESS:
    the attribute is not set unless the option is given. [help_text] is
    the [help=] of the argument, if one is given. *)
Record argument := Argument {
  option_strings : list string;
  dest : string;
  act : action;
  default_value : option pyval;
  help_text : option string;
}.

(** [s.lstrip("-")] and [s.replace("-", "_")] *)
Fixpoint lstrip_dash (s : string) : string :=
  match s with
  | String "-" s' => lstrip_dash s'
  | _ => s
  end.

Fixpoint dash_to_underscore (s : string) : string :=
  match s with
  | EmptyString => EmptyString
  | String c s' => String (if Ascii.eqb c "-" then "_"%char else c) (dash_to_underscore s')
  end.

Definition is_long (o : string) : bool :=
  match o with String _ (String "-" _) => true | _ => false end.

(** The attribute name argparse derives when [dest=] is not given: the
    first long option string, or else the first option string, without
    its leading dashes and with the inner dashes replaced. *)
Definition derive_dest (opts : list string) : string :=
  let o := match filter (λ o, is_long o = true) opts with
           | o :: _ => o
           | [] => hd EmptyString opts
           end in
  dash_to_underscore (lstrip_dash o).

(** [parser.add_argument(option_strings..., action=, default=, dest=,
    help=)]. The default that is not given is [False] for [store_true],
    [True] for [store_false] and [None] otherwise. *)
Definition add_argument (opts : list string) (a : action)
    (dflt : option pyval) (dst : option string) (hlp : option string) : argument :=
  {| option_strings := opts;
     dest := from_option id (derive_dest opts) dst;
     act := a;
     default_value := Some (from_option id
                  (match a with
                   | store_true => VBool false
                   | store_false => VBool true
                   | _ => VNone
                   end) dflt);
     help_text := hlp |}.

(** [argparse.ArgumentParser(...)]: a parser that has the help argument,
    whose dest and default are both SUPPRESS. *)
Definition ArgumentParser : list argument :=
  [ {| option_strings := ["-h"; "--help"]; dest := "==SUPPRESS=="; act := help;
       default_value := None;
       help_text := Some "show this help message and exit" |} ].

(** The namespace: attribute name to value. *)
Abbreviation namespace := (gmap string pyval).

(** What [parse_args] ends in: a namespace, [parser.exit(status)]
    (status 0 after printing the help, 2 after a usage error), or an
    exception that the formatting of the help raises, with its text.
    The text argparse writes before it exits is not modelled. *)
Inductive parsed (A : Type) :=
| Parsed (a : A)
| ParserExit (status : Z)
| ParserRaise (message : string).
Global Arguments Parsed {A} a.
Global Arguments ParserExit {A} status.
Global Arguments ParserRaise {A} message.

Definition parsed_bind {A B} (m : parsed A) (f : A → parsed B) : parsed B :=
  match m with
  | Parsed a => f a
  | ParserExit n => ParserExit n
  | ParserRaise e => ParserRaise e
  end.

(** The command line as argparse has split it: an option string (after
    the expansion of abbreviations) with the argument that belongs to
    it, or a word that belongs to no option. A command line argparse
    cannot split (an ambiguous abbreviation) ends the script with status
    2 before any action is taken and is not a value of this type. *)
Inductive cli_arg := Opt (flag : string) (arg : option string) | Positional (word : string).

(** The defaults are set first, argument by argument, and an attribute
    that is already set is left alone. *)
Definition set_default (ns : namespace) (a : argument) : namespace :=
  match default_value a with
  | Some v => match ns !! dest a with Some _ => ns | None => <[dest a := v]> ns end
  | None => ns
  end.

Definition init_namespace (p : list argument) : namespace :=
  foldl set_default ∅ p.

(** The argument an option string selects, with its position. *)
Definition find_action (p : list argument) (flag : string) : option (nat * argument) :=
  list_find (λ a, flag ∈ option_strings a) p.

(** The state of the parsing loop: the namespace, the positions of the
    arguments seen so far, and whether some word was not recognised. *)
Record pstate := PState {
  ns_of : namespace;
  seen : list nat;
  extras : bool;
}.

(** The value an action stores, given the argument of the option. A
    [store] needs one argument, which its type converts; the other
    actions take none; [help] exits once the help is printed. *)
Definition take_action (a : action) (arg : option string) : parsed pyval :=
  match a, arg with
  | store ty, Some s =>
      match convert ty s with
      | Some v => Parsed v
      | None => ParserExit 2
      end
  | store _, None => ParserExit 2
  | store_true, None => Parsed (VBool true)
  | store_false, None => Parsed (VBool false)
  | help, None => ParserExit 0
  | _, Some _ => ParserExit 2
  end.

(** [parser.print_help()], as far as it can fail: the formatter expands
    the help text of every argument that has one, in the order of the
    parser, and the first expansion that raises ends it. *)
Definition print_help (p : list argument) : parsed unit :=
  match omap (λ a, h ← help_text a; help_error h) p with
  | e :: _ => ParserRaise e
  | [] => Parsed tt
  end.

(** The action as the parsing loop calls it: the help action prints the
    help before it exits. *)
Definition call_action (p : list argument) (a : action) (arg : option string)
    : parsed pyval :=
  match a, arg with
  | help, None => parsed_bind (print_help p) (λ _, ParserExit 0)
  | _, _ => take_action a arg
  end.

(** One word of the command line. A word that is not recognised is kept
    aside: it is reported when the loop has ended. *)
Definition consume (p : list argument) (st : pstate) (w : cli_arg) : parsed pstate :=
  match w with
  | Positional _ => Parsed (PState (ns_of st) (seen st) true)
  | Opt flag arg =>
      match find_action p flag with
      | None => Parsed (PState (ns_of st) (seen st) true)
      | Some (i, a) =>
          parsed_bind (call_action p (act a) arg) (λ v,
            Parsed (PState (<[dest a := v]> (ns_of st)) (i :: seen st) (extras st)))
      end
  end.

Fixpoint consume_all (p : list argument) (st : pstate) (cli : list cli_arg) : parsed pstate :=
  match cli with
  | [] => Parsed st
  | w :: cli' => parsed_bind (consume p st w) (λ st', consume_all p st' cli')
  end.

(** After the loop, an argument that was not seen and whose default is
    a string that is still the attribute's value has the default
    converted by its [type]. [i] is the position of the head of [p].
    Python tests that the attribute is the very object of the default;
    in the parsers below a string reaches such an attribute from its
    default only, so that equality of the strings decides the same. *)
Fixpoint convert_defaults (i : nat) (p : list argument) (sn : list nat)
    (ns : namespace) : parsed namespace :=
  match p with
  | [] => Parsed ns
  | a :: p' =>
      if bool_decide (i ∈ sn) then convert_defaults (S i) p' sn ns else
      match act a, default_value a, ns !! dest a with
      | store ty, Some (VStr s), Some (VStr s') =>
          if bool_decide (s = s') then
            match convert ty s with
            | Some v => convert_defaults (S i) p' sn (<[dest a := v]> ns)
            | None => ParserExit 2
            end
          else convert_defaults (S i) p' sn ns
      | _, _, _ => convert_defaults (S i) p' sn ns
      end
  end.

(** [parser.parse_args()] *)
Definition parse_args (p : list argument) (cli : list cli_arg) : parsed namespace :=
  parsed_bind (consume_all p (PState (init_namespace p) [] false) cli) (λ st,
  parsed_bind (convert_defaults 0 p (seen st) (ns_of st)) (λ ns,
  if extras st then ParserExit 2 else Parsed ns)).

End with_lib.
End argparse.

(** * Output streams, exit and exceptions, and the outside world *)

Module io.
Section with_lib.
Context `{PyLib}.

(** What the external program does when it is run with an argument
    vector: the executable is not on the search path, the spawn fails
    for another reason (with the text of the exception), or the child
    runs and ends with a return code, having written [child_out] and
    [child_err]. *)
Inductive child :=
| NoSuchExecutable
| SpawnError (message : string)
| Terminated (returncode : Z) (child_out child_err : string).

(** The directory of the script, which files are regular files, the
    behaviour of the programs the launcher runs, and the decoding of
    the locale. [execute env argv] is what [subprocess.run] meets when
    it spawns [argv] in the environment [env], which the child inherits
    and through whose [PATH] the executable is found. [decode b] is
    [b.decode(encoding, "strict")] for the encoding of the locale: the
    text, or else the text of the [UnicodeDecodeError]. *)
Record World := {
  script_dir : pypath;
  regular_file : pypath → bool;
  execute : environ → list string → child;
  decode : string → string + string;
}.

(** What the launcher itself has written to its standard output and
    standard error, and the argument vectors it has tried to spawn.
    Output a child writes to inherited streams is not part of it. *)
Record streams := Streams {
  stdout : string;
  stderr : string;
  spawned : list (list string);
}.

Definition start : streams := Streams EmptyString EmptyString [].

(** The exceptions the scripts meet. [Exception] is any exception other
    than the named ones, with its text. *)
Inductive exception :=
| ValueError
| FileNotFoundError
| CalledProcessError (returncode : Z) (output err : option string)
| UnicodeDecodeError (message : string)
| Exception (message : string).

(** The text of [str(e)] in the catch-all handlers. The two exceptions
    that have a handler of their own never reach one; of
    [CalledProcessError] the text names the exit status. *)
Definition str_of_exception (e : exception) : string :=
  match e with
  | ValueError => "ValueError"
  | FileNotFoundError => "FileNotFoundError"
  | CalledProcessError rc _ _ => "Command returned non-zero exit status " +:+ Str.of_int rc +:+ "."
  | UnicodeDecodeError m => m
  | Exception m => m
  end.

Inductive result (A : Type) :=
| Return (a : A)
| Raise (e : exception)
| SystemExit (code : Z).
Global Arguments Return {A} a.
Global Arguments Raise {A} e.
Global Arguments SystemExit {A} code.

Definition M (A : Type) : Type := World → streams → result A * streams.

Definition ret {A} (a : A) : M A := λ _ st, (Return a, st).

Definition bind {A B} (m : M A) (f : A → M B) : M B := λ w st,
  match m w st with
  | (Return a, st') => f a w st'
  | (Raise e, st') => (Raise e, st')
  | (SystemExit n, st') => (SystemExit n, st')
  end.

(** [raise e] and [sys.exit(code)] *)
Definition raise {A} (e : exception) : M A := λ _ st, (Raise e, st).
Definition sys_exit {A} (code : Z) : M A := λ _ st, (SystemExit code, st).

(** [try: body  except ... as e: handler e]. [SystemExit] is not an
    [Exception] and passes through. *)
Definition try_except {A} (body : M A) (handler : exception → M A) : M A := λ w st,
  match body w st with
  | (Raise e, st') => handler e w st'
  | r => r
  end.

(** [print(s)] and [print(s, file=sys.stderr)] *)
Definition print (s : string) : M unit := λ _ st,
  (Return tt, Streams (stdout st +:+ s +:+ Str.nl) (stderr st) (spawned st)).
Definition eprint (s : string) : M unit := λ _ st,
  (Return tt, Streams (stdout st) (stderr st +:+ s +:+ Str.nl) (spawned st)).

(** [p.is_file()] *)
Definition is_file (p : pypath) : M bool := λ w st, (Return (regular_file w p), st).

(** [subprocess.CompletedProcess]; the two texts are [None] when the
    output is not captured. *)
Record CompletedProcess := {
  returncode_of : Z;
  stdout_of : option string;
  stderr_of : option string;
}.

(** What [text=True] makes of the bytes of a captured stream: they are
    decoded, and CR LF and CR are then read as LF. *)
Definition translate_newlines (w : World) (data : string) : string + string :=
  match decode w data with
  | inl e => inl e
  | inr text => inr (Str.replace_cr (Str.replace_crlf text))
  end.

(** [subprocess.run(command, check=, capture_output=, text=capture_output)]
    in the environment [env] of the launcher. With [capture_output] the
    two streams of the child are read as text, the standard output
    first, before the return code is looked at; without it the child
    writes to the streams it inherits and the two texts are [None]. *)
Definition subprocess_run (env : environ) (command : list string)
    (check capture_output : bool) : M CompletedProcess := λ w st,
  let st' := Streams (stdout st) (stderr st) (spawned st ++ [command]) in
  match execute w env command with
  | NoSuchExecutable => (Raise FileNotFoundError, st')
  | SpawnError m => (Raise (Exception m), st')
  | Terminated rc o e =>
      if capture_output then
        match translate_newlines w o with
        | inl m => (Raise (UnicodeDecodeError m), st')
        | inr out =>
            match translate_newlines w e with
            | inl m => (Raise (UnicodeDecodeError m), st')
            | inr err =>
                if check && negb (rc =? 0)
                then (Raise (CalledProcessError rc (Some out) (Some err)), st')
                else (Return {| returncode_of := rc;
                                stdout_of := Some out;
                                stderr_of := Some err |}, st')
            end
        end
      else
        if check && negb (rc =? 0)
        then (Raise (CalledProcessError rc None None), st')
        else (Return {| returncode_of := rc;
                        stdout_of := None;
                        stderr_of := None |}, st')
  end.

(** [text.strip()] of a captured output; on [None] Python raises
    [AttributeError]. *)
Definition strip_text (t : option string) : M string :=
  match t with
  | Some s => ret (Str.strip s)
  | None => raise (Exception "'NoneType' object has no attribute 'strip'")
  end.

(** The exit status of the interpreter: 0 when the script runs to its
    end, 1 after an uncaught exception, and the low eight bits of the
    code given to [sys.exit]. *)
Definition exit_status {A} (r : result A) : Z :=
  match r with
  | Return _ => 0
  | Raise _ => 1
  | SystemExit n => n `mod` 256
  end.

End with_lib.
End io.

(** The monad notations are those of stdpp: [x ← m; k] and [m;; k]. *)
Global Instance io_ret `{PyLib} : MRet io.M := @io.ret _.
Global Instance io_bind `{PyLib} : MBind io.M := λ A B f m, io.bind m f.

(** Typed reads of the attributes of a namespace, as the scripts use them
    after [parse_args]. *)
Module attr.
Section with_lib.
Context `{PyLib}.
Import argparse.

Definition path (ns : gmap string pyval) (name : string) : option pypath :=
  match ns !! name with Some (VPath p) => Some p | _ => None end.
Definition int (ns : gmap string pyval) (name : string) : option Z :=
  match ns !! name with Some (VInt n) => Some n | _ => None end.
Definition float (ns : gmap string pyval) (name : string) : option pyfloat :=
  match ns !! name with Some (VFloat x) => Some x | _ => None end.
Definition str (ns : gmap string pyval) (name : string) : option string :=
  match ns !! name with Some (VStr s) => Some s | _ => None end.
Definition bool (ns : gmap string pyval) (name : string) : option bool :=
  match ns !! name with Some (VBool b) => Some b | _ => None end.

End with_lib.
End attr.

(** [os.environ.get(name, default).lower() in ("1", "true", "yes", "on")] *)
Definition environ_flag (env : environ) (name dflt : string) : bool :=
  bool_decide (Str.lower (environ_get env name dflt) ∈ ["1"; "true"; "yes"; "on"]).

(** * chat.py *)

Module chat.
Section with_lib.
Context `{PyLib}.
Import argparse io.

(** The module-level configuration. *)
Record config := {
  DATA_DIR : string;
  DEFAULT_MODEL_PATH : string;
  DEFAULT_PORT : Z;
  DEFAULT_NGL : Z;
  DEFAULT_CTX : Z;
  DEFAULT_BATCH_SIZE : Z;
  DEFAULT_UBATCH_SIZE : Z;
  DEFAULT_CACHE_TYPE_K : string;
  DEFAULT_CACHE_TYPE_V : string;
  DEFAULT_FLASH_ATTN : bool;
  DEFAULT_MLOCK : bool;
  LLAMA_SERVER_EXECUTABLE : string;
}.

(** The assignments at the top of the module; [None] when an [int]
    raises [ValueError]. [SCRIPT_DIR] is the directory of the script. *)
Definition load (SCRIPT_DIR : pypath) (env : environ) : option config :=
  let DATA_DIR := environ_get env "DATA_DIR" (str_of_path (joinpath SCRIPT_DIR "data")) in
  let DEFAULT_MODEL_PATH :=
    environ_get env "MODEL_PATH"
      (str_of_path (joinpath (Path DATA_DIR) "gemma-3-4b-it-Q5_K_M.gguf")) in
  DEFAULT_PORT ← Str.to_int (environ_get env "SERVER_PORT" "4000");
  DEFAULT_NGL ← Str.to_int (environ_get env "N_GPU_LAYERS" "48");
  DEFAULT_CTX ← Str.to_int (environ_get env "CONTEXT_SIZE" "8192");
  DEFAULT_BATCH_SIZE ← Str.to_int (environ_get env "BATCH_SIZE" "512");
  DEFAULT_UBATCH_SIZE ← Str.to_int (environ_get env "UBATCH_SIZE" "128");
  Some {|
    DATA_DIR := DATA_DIR;
    DEFAULT_MODEL_PATH := DEFAULT_MODEL_PATH;
    DEFAULT_PORT := DEFAULT_PORT;
    DEFAULT_NGL := DEFAULT_NGL;
    DEFAULT_CTX := DEFAULT_CTX;
    DEFAULT_BATCH_SIZE := DEFAULT_BATCH_SIZE;
    DEFAULT_UBATCH_SIZE := DEFAULT_UBATCH_SIZE;
    DEFAULT_CACHE_TYPE_K := environ_get env "CACHE_TYPE_K" "q5_1";
    DEFAULT_CACHE_TYPE_V := environ_get env "CACHE_TYPE_V" "q5_1";
    DEFAULT_FLASH_ATTN := environ_flag env "FLASH_ATTN" "1";
    DEFAULT_MLOCK := environ_flag env "MLOCK" "1";
    LLAMA_SERVER_EXECUTABLE := environ_get env "LLAMA_SERVER_EXECUTABLE" "llama-server";
  |}.

(** [f"{b}"] for a [bool]. *)
Definition str_of_bool (b : bool) : string := if b then "True" else "False".

(** The parser [main] builds. The help texts are f-strings that hold
    the module-level defaults. *)
Definition parser (c : config) : list argument :=
  ArgumentParser ++ [
    add_argument ["-m"; "--model"] (store type_Path) (Some (VStr (DEFAULT_MODEL_PATH c))) None
      (Some ("Path to the GGUF model file (default: " +:+ DEFAULT_MODEL_PATH c +:+ ")"));
    add_argument ["--port"] (store type_int) (Some (VInt (DEFAULT_PORT c))) None
      (Some ("Port to listen on (default: " +:+ Str.of_int (DEFAULT_PORT c) +:+ ")"));
    add_argument ["-ngl"; "--n-gpu-layers"] (store type_int) (Some (VInt (DEFAULT_NGL c))) None
      (Some ("Number of layers to offload to GPU (default: " +:+ Str.of_int (DEFAULT_NGL c) +:+ ")"));
    add_argument ["-c"; "--context-size"] (store type_int) (Some (VInt (DEFAULT_CTX c))) None
      (Some ("Context size (default: " +:+ Str.of_int (DEFAULT_CTX c) +:+ ")"));
    add_argument ["-b"; "--batch-size"] (store type_int) (Some (VInt (DEFAULT_BATCH_SIZE c))) None
      (Some ("Batch size for prompt processing (default: "
             +:+ Str.of_int (DEFAULT_BATCH_SIZE c) +:+ ")"));
    add_argument ["-ub"; "--ubatch-size"] (store type_int) (Some (VInt (DEFAULT_UBATCH_SIZE c))) None
      (Some ("Physical maximum batch size (default: "
             +:+ Str.of_int (DEFAULT_UBATCH_SIZE c) +:+ ")"));
    add_argument ["-ctk"; "--cache-type-k"] (store type_str) (Some (VStr (DEFAULT_CACHE_TYPE_K c))) None
      (Some ("Cache type for K tensor (default: " +:+ DEFAULT_CACHE_TYPE_K c +:+ ")"));
    add_argument ["-ctv"; "--cache-type-v"] (store type_str) (Some (VStr (DEFAULT_CACHE_TYPE_V c))) None
      (Some ("Cache type for V tensor (default: " +:+ DEFAULT_CACHE_TYPE_V c +:+ ")"));
    add_argument ["-fa"; "--flash-attn"] store_true (Some (VBool (DEFAULT_FLASH_ATTN c))) None
      (Some ("Enable flash attention (default: " +:+ str_of_bool (DEFAULT_FLASH_ATTN c) +:+ ")"));
    add_argument ["--no-flash-attn"] store_false None (Some "flash_attn")
      (Some "Disable flash attention");
    add_argument ["--mlock"] store_true (Some (VBool (DEFAULT_MLOCK c))) None
      (Some ("Use mlock to prevent paging (default: " +:+ str_of_bool (DEFAULT_MLOCK c) +:+ ")"));
    add_argument ["--no-mlock"] store_false None (Some "mlock")
      (Some "Disable mlock")
  ].

(** [args], with the types the parser gives its attributes. *)
Record args := {
  model : pypath;
  port : Z;
  n_gpu_layers : Z;
  context_size : Z;
  batch_size : Z;
  ubatch_size : Z;
  cache_type_k : string;
  cache_type_v : string;
  flash_attn : bool;
  mlock : bool;
}.

Definition args_of (ns : gmap string pyval) : option args :=
  model ← attr.path ns "model";
  port ← attr.int ns "port";
  n_gpu_layers ← attr.int ns "n_gpu_layers";
  context_size ← attr.int ns "context_size";
  batch_size ← attr.int ns "batch_size";
  ubatch_size ← attr.int ns "ubatch_size";
  cache_type_k ← attr.str ns "cache_type_k";
  cache_type_v ← attr.str ns "cache_type_v";
  flash_attn ← attr.bool ns "flash_attn";
  mlock ← attr.bool ns "mlock";
  Some {| model := model; port := port; n_gpu_layers := n_gpu_layers;
          context_size := context_size; batch_size := batch_size;
          ubatch_size := ubatch_size; cache_type_k := cache_type_k;
          cache_type_v := cache_type_v; flash_attn := flash_attn; mlock := mlock |}.

(** The list [command] as [main] builds it: the literal, then the two
    conditional appends. *)
Definition command (c : config) (a : args) : list string :=
  let command := [
    LLAMA_SERVER_EXECUTABLE c;
    "-m";
    str_of_path (model a);
    "--port";
    Str.of_int (port a);
    "-ngl";
    Str.of_int (n_gpu_layers a);
    "-c";
    Str.of_int (context_size a);
    "-b";
    Str.of_int (batch_size a);
    "-ub";
    Str.of_int (ubatch_size a);
    "-ctk";
    cache_type_k a;
    "-ctv";
    cache_type_v a
  ] in
  let command := if flash_attn a then command ++ ["-fa"] else command in
  let command := if mlock a then command ++ ["--mlock"] else command in
  command.

(** [main] from the validation of the model path on. [Path(args.model)]
    is [args.model], which is a path already. *)
Definition launch (env : environ) (c : config) (a : args) : M unit :=
  found ← is_file (model a);
  (if negb found then
     eprint ("Error: Model file not found at " +:+ str_of_path (model a));;
     sys_exit 1
   else mret tt);;
  let command := command c a in
  print ("Starting server: " +:+ Str.join " " command);;
  try_except
    (process ← subprocess_run env command false false;
     print (Str.nl +:+ "Server exited with code: " +:+ Str.of_int (returncode_of process));;
     sys_exit (returncode_of process))
    (λ e,
      match e with
      | FileNotFoundError =>
          eprint ("Error: '" +:+ LLAMA_SERVER_EXECUTABLE c +:+ "' command not found.");;
          eprint "Please ensure llama.cpp is built and its binaries are in your PATH.";;
          sys_exit 1
      | e =>
          eprint ("An error occurred: " +:+ str_of_exception e);;
          sys_exit 1
      end).

(** [main()]: the parser, [parse_args], then the rest. A parser exit
    ends the script with that status, and an exception of the help
    formatter leaves it uncaught. An attribute that is missing or of
    another type would raise where it is read. *)
Definition main (env : environ) (c : config) (cli : list cli_arg) : M unit :=
  match parse_args (parser c) cli with
  | ParserExit n => sys_exit n
  | ParserRaise e => raise (Exception e)
  | Parsed ns =>
      match args_of ns with
      | Some a => launch env c a
      | None => raise (Exception "AttributeError")
      end
  end.

(** The script in the environment [env]: the module-level assignments,
    then [main()]. *)
Definition script (env : environ) (cli : list cli_arg) : M unit := λ w st,
  match load (script_dir w) env with
  | None => (Raise ValueError, st)
  | Some c => main env c cli w st
  end.

End with_lib.
End chat.

(** * watch_gpu.py *)

Module watch_gpu.
Section with_lib.
Context `{PyLib}.
Import io.

Definition main (env : environ) : M unit :=
  let command := ["watch"; "-n"; "1"; "nvidia-smi"] in
  print ("Running: " +:+ Str.join " " command);;
  try_except
    (process ← subprocess_run env command false false;
     print (Str.nl +:+ "Watch exited with code: " +:+ Str.of_int (returncode_of process));;
     sys_exit (returncode_of process))
    (λ e,
      match e with
      | FileNotFoundError =>
          eprint "Error: 'watch' or 'nvidia-smi' command not found.";;
          eprint "Please ensure 'watch' and NVIDIA drivers/tools are installed and in your PATH.";;
          sys_exit 1
      | e =>
          eprint ("An error occurred: " +:+ str_of_exception e);;
          sys_exit 1
      end).

(** The script in the environment [env]. *)
Definition script (env : environ) : M unit := main env.

End with_lib.
End watch_gpu.

(** * ocr_meta.py and ocr_tx.py

    The two scripts are the same text up to the name and the built-in text
    of the prompt and the built-in value of [N_PREDICT]; a [variant] holds
    what differs. *)

Module ocr.

(** The built-in text of [METADATA_PROMPT] in ocr_meta.py. *)
Definition METADATA_PROMPT_text : string :=
  "Extract metadata from the bank statement image into a single JSON object. Output *only* the JSON object, nothing else.

Required JSON keys and extraction rules:
*   `bank_name`: (string) Name/logo of the bank.
*   `account_holder_name`: (string) Full name of the primary account holder only. Exclude titles (Mr., Miss) or address details if present on the same line.
*   `account_holder_address`: (string or null) Full address. Use `null` if not found.
*   `account_number`: (string) Account identifier (often labeled " +:+ Str.dq +:+ "ACCOUNT NO" +:+ Str.dq +:+ ").
*   `account_type`: (string) Account type description (e.g., " +:+ Str.dq +:+ "SAVINGS ACCOUNT GENERAL" +:+ Str.dq +:+ ").
*   `currency`: (string) Currency code (e.g., " +:+ Str.dq +:+ "LKR" +:+ Str.dq +:+ ").
*   `statement_date`: (string) The " +:+ Str.dq +:+ "as at" +:+ Str.dq +:+ " or statement generation date, **formatted strictly as YYYY-MM-DD**. Infer the year if necessary based on context.
*   `total_debits`: (string) Total debit amount from the summary/total row. Extract as text.
*   `total_credits`: (string) Total credit amount from the summary/total row. Extract as text.
*   `final_balance`: (string) Final account balance (often labeled " +:+ Str.dq +:+ "BALANCE AS AT DATE" +:+ Str.dq +:+ "). Extract as text.

Ensure the output is a single, valid JSON object starting with `{` and ending with `}`.".

(** The built-in text of [TRANSACTIONS_PROMPT] in ocr_tx.py. *)
Definition TRANSACTIONS_PROMPT_text : string :=
  "Extract transaction rows from the bank statement image. Output *only* a single JSON array of arrays, nothing else.

Identify the main transaction table data rows (between the header row and the 'TOTAL' row).

For each data row, create an inner array containing exactly 6 string elements. These elements **must** correspond to the table columns in this order:
*   [0]: Date (Extract text exactly as seen, e.g., " +:+ Str.dq +:+ "01.02.25" +:+ Str.dq +:+ " or " +:+ Str.dq +:+ "28/03" +:+ Str.dq +:+ ").
*   [1]: Reference Number (Use " +:+ Str.dq +:+ Str.dq +:+ " if blank/not applicable).
*   [2]: Particulars/Description.
*   [3]: Debits Amount (Use " +:+ Str.dq +:+ Str.dq +:+ " if blank. Extract as text).
*   [4]: Credits Amount (Use " +:+ Str.dq +:+ Str.dq +:+ " if blank. Extract as text).
*   [5]: Running Balance (Extract as text).

CRITICAL: The output must be only the JSON array, starting with `[` and ending with `]`. Each inner array must have exactly 6 string elements in the specified order. Do not include header or total rows.".

Record variant := {
  PROMPT_NAME : string;
  PROMPT_text : string;
  N_PREDICT_text : string;
}.

Definition ocr_meta : variant :=
  {| PROMPT_NAME := "METADATA_PROMPT";
     PROMPT_text := METADATA_PROMPT_text;
     N_PREDICT_text := "1024" |}.

Definition ocr_tx : variant :=
  {| PROMPT_NAME := "TRANSACTIONS_PROMPT";
     PROMPT_text := TRANSACTIONS_PROMPT_text;
     N_PREDICT_text := "2048" |}.

Section with_lib.
Context `{PyLib}.
Import argparse io.

(** The module-level configuration; [PROMPT] is [METADATA_PROMPT] or
    [TRANSACTIONS_PROMPT]. *)
Record config := {
  DATA_DIR : string;
  DEFAULT_MODEL_PATH : string;
  DEFAULT_MMPROJ_PATH : string;
  DEFAULT_IMAGE_PATH : string;
  DEFAULT_NGL : Z;
  DEFAULT_THREADS : Z;
  DEFAULT_CTX : Z;
  DEFAULT_N_PREDICT : Z;
  DEFAULT_TEMP : pyfloat;
  DEFAULT_CACHE_TYPE_K : string;
  DEFAULT_CACHE_TYPE_V : string;
  DEFAULT_FLASH_ATTN : bool;
  DEFAULT_MLOCK : bool;
  LLAMA_CLI_EXECUTABLE : string;
  PROMPT : string;
}.

(** The assignments at the top of the module; [None] when an [int] or
    the [float] raises [ValueError]. *)
Definition load (v : variant) (SCRIPT_DIR : pypath) (env : environ) : option config :=
  let DATA_DIR := environ_get env "DATA_DIR" (str_of_path (joinpath SCRIPT_DIR "data")) in
  let DEFAULT_MODEL_PATH :=
    environ_get env "MODEL_PATH"
      (str_of_path (joinpath (Path DATA_DIR) "gemma-3-4b-it-Q5_K_M.gguf")) in
  let DEFAULT_MMPROJ_PATH :=
    environ_get env "MMPROJ_PATH"
      (str_of_path (joinpath (Path DATA_DIR) "mmproj-BF16.gguf")) in
  let DEFAULT_IMAGE_PATH :=
    environ_get env "IMAGE_PATH" (str_of_path (joinpath (Path DATA_DIR) "temp.png")) in
  DEFAULT_NGL ← Str.to_int (environ_get env "N_GPU_LAYERS" "34");
  DEFAULT_THREADS ← Str.to_int (environ_get env "THREADS" "3");
  DEFAULT_CTX ← Str.to_int (environ_get env "CONTEXT_SIZE" "16384");
  DEFAULT_N_PREDICT ← Str.to_int (environ_get env "N_PREDICT" (N_PREDICT_text v));
  DEFAULT_TEMP ← float_of_str (environ_get env "TEMPERATURE" "0.3");
  Some {|
    DATA_DIR := DATA_DIR;
    DEFAULT_MODEL_PATH := DEFAULT_MODEL_PATH;
    DEFAULT_MMPROJ_PATH := DEFAULT_MMPROJ_PATH;
    DEFAULT_IMAGE_PATH := DEFAULT_IMAGE_PATH;
    DEFAULT_NGL := DEFAULT_NGL;
    DEFAULT_THREADS := DEFAULT_THREADS;
    DEFAULT_CTX := DEFAULT_CTX;
    DEFAULT_N_PREDICT := DEFAULT_N_PREDICT;
    DEFAULT_TEMP := DEFAULT_TEMP;
    DEFAULT_CACHE_TYPE_K := environ_get env "CACHE_TYPE_K" "q4_1";
    DEFAULT_CACHE_TYPE_V := environ_get env "CACHE_TYPE_V" "q4_1";
    DEFAULT_FLASH_ATTN := environ_flag env "FLASH_ATTN" "1";
    DEFAULT_MLOCK := environ_flag env "MLOCK" "1";
    LLAMA_CLI_EXECUTABLE := environ_get env "LLAMA_CLI_EXECUTABLE" "llama-gemma3-cli";
    PROMPT := environ_get env (PROMPT_NAME v) (PROMPT_text v);
  |}.

(** The parser [main] builds. It has no argument for flash attention,
    for the memory lock, for the prompt or for the executable. *)
Definition parser (c : config) : list argument :=
  ArgumentParser ++ [
    add_argument ["--ngl"] (store type_int) (Some (VInt (DEFAULT_NGL c))) None None;
    add_argument ["--threads"] (store type_int) (Some (VInt (DEFAULT_THREADS c))) None None;
    add_argument ["-c"; "--ctx"] (store type_int) (Some (VInt (DEFAULT_CTX c))) (Some "context_size") None;
    add_argument ["-n"; "--n-predict"] (store type_int) (Some (VInt (DEFAULT_N_PREDICT c))) (Some "n_predict") None;
    add_argument ["--temp"] (store type_float) (Some (VFloat (DEFAULT_TEMP c))) None None;
    add_argument ["-ctk"; "--cache-type-k"] (store type_str) (Some (VStr (DEFAULT_CACHE_TYPE_K c))) (Some "cache_type_k") None;
    add_argument ["-ctv"; "--cache-type-v"] (store type_str) (Some (VStr (DEFAULT_CACHE_TYPE_V c))) (Some "cache_type_v") None;
    add_argument ["--model"] (store type_Path) (Some (VStr (DEFAULT_MODEL_PATH c))) None None;
    add_argument ["--mmproj"] (store type_Path) (Some (VStr (DEFAULT_MMPROJ_PATH c))) None None;
    add_argument ["--image"] (store type_Path) (Some (VStr (DEFAULT_IMAGE_PATH c))) None None
  ].

(** [args], with the types the parser gives its attributes. *)
Record args := {
  ngl : Z;
  threads : Z;
  context_size : Z;
  n_predict : Z;
  temp : pyfloat;
  cache_type_k : string;
  cache_type_v : string;
  model : pypath;
  mmproj : pypath;
  image : pypath;
}.

Definition args_of (ns : gmap string pyval) : option args :=
  ngl ← attr.int ns "ngl";
  threads ← attr.int ns "threads";
  context_size ← attr.int ns "context_size";
  n_predict ← attr.int ns "n_predict";
  temp ← attr.float ns "temp";
  cache_type_k ← attr.str ns "cache_type_k";
  cache_type_v ← attr.str ns "cache_type_v";
  model ← attr.path ns "model";
  mmproj ← attr.path ns "mmproj";
  image ← attr.path ns "image";
  Some {| ngl := ngl; threads := threads; context_size := context_size;
          n_predict := n_predict; temp := temp; cache_type_k := cache_type_k;
          cache_type_v := cache_type_v; model := model; mmproj := mmproj;
          image := image |}.

(** The list [command] as [main] builds it. The two appends test the
    module-level defaults. *)
Definition command (c : config) (a : args) : list string :=
  let command := [
    LLAMA_CLI_EXECUTABLE c;
    "-m";
    str_of_path (model a);
    "--mmproj";
    str_of_path (mmproj a);
    "--image";
    str_of_path (image a);
    "-p";
    PROMPT c;
    "-ngl";
    Str.of_int (ngl a);
    "--threads";
    Str.of_int (threads a);
    "-c";
    Str.of_int (context_size a);
    "-n";
    Str.of_int (n_predict a);
    "--temp";
    str_of_float (temp a);
    "-ctk";
    cache_type_k a;
    "-ctv";
    cache_type_v a
  ] in
  let command := if DEFAULT_FLASH_ATTN c then command ++ ["-fa"] else command in
  let command := if DEFAULT_MLOCK c then command ++ ["--mlock"] else command in
  command.

(** [main] from the validation of the paths on. *)
Definition launch (env : environ) (c : config) (a : args) : M unit :=
  found ← is_file (model a);
  (if negb found then
     eprint ("Error: Model file not found at " +:+ str_of_path (model a));;
     sys_exit 1
   else mret tt);;
  found ← is_file (mmproj a);
  (if negb found then
     eprint ("Error: MMPROJ file not found at " +:+ str_of_path (mmproj a));;
     sys_exit 1
   else mret tt);;
  found ← is_file (image a);
  (if negb found then
     eprint ("Error: Image file not found at " +:+ str_of_path (image a));;
     sys_exit 1
   else mret tt);;
  let command := command c a in
  try_except
    (process ← subprocess_run env command true true;
     text ← strip_text (stdout_of process);
     print text)
    (λ e,
      match e with
      | FileNotFoundError =>
          eprint ("Error: '" +:+ LLAMA_CLI_EXECUTABLE c +:+ "' command not found.");;
          eprint "Please ensure llama.cpp is built and its binaries are in your PATH.";;
          sys_exit 1
      | CalledProcessError returncode output err =>
          eprint ("Error: Command failed with exit code " +:+ Str.of_int returncode);;
          eprint (Str.nl +:+ "--- stderr ---");;
          text ← strip_text err;
          eprint text;;
          eprint (Str.nl +:+ "--- stdout ---");;
          text ← strip_text output;
          eprint text;;
          sys_exit returncode
      | e =>
          eprint ("An unexpected error occurred: " +:+ str_of_exception e);;
          sys_exit 1
      end).

(** [main()] *)
Definition main (env : environ) (c : config) (cli : list cli_arg) : M unit :=
  match parse_args (parser c) cli with
  | ParserExit n => sys_exit n
  | ParserRaise e => raise (Exception e)
  | Parsed ns =>
      match args_of ns with
      | Some a => launch env c a
      | None => raise (Exception "AttributeError")
      end
  end.

(** The script in the environment [env]: the module-level assignments,
    then [main()]. *)
Definition script (v : variant) (env : environ) (cli : list cli_arg) : M unit := λ w st,
  match load v (script_dir w) env with
  | None => (Raise ValueError, st)
  | Some c => main env c cli w st
  end.

End with_lib.
End ocr.

(** * Launch configurations

    The resolved options of one invocation: the module-level configuration
    and the parsed arguments of a launcher. watch_gpu.py has no option. *)

Section launch_config.
Context `{PyLib}.
Import io.

Inductive LaunchConfig :=
| ChatServer (c : chat.config) (a : chat.args)
| OcrCli (c : ocr.config) (a : ocr.args)
| GpuWatch.

(** What the launcher does with a resolved configuration, in the
    environment [env]. *)
Definition launch (env : environ) (cfg : LaunchConfig) : M unit :=
  match cfg with
  | ChatServer c a => chat.launch env c a
  | OcrCli c a => ocr.launch env c a
  | GpuWatch => watch_gpu.main env
  end.

(** The outcome of the catch-all handler of a capture-mode launcher
    after the spawn of [command]: the text of the exception on standard
    error, and exit status 1. *)
Definition unexpected (command : list string) (m : string) : result unit * streams :=
  (SystemExit 1,
   Streams EmptyString ("An unexpected error occurred: " +:+ m +:+ Str.nl) [command]).

(** The argument vector the launcher builds. *)
Definition argv (cfg : LaunchConfig) : list string :=
  match cfg with
  | ChatServer c a => chat.command c a
  | OcrCli c a => ocr.command c a
  | GpuWatch => ["watch"; "-n"; "1"; "nvidia-smi"]
  end.

(** Capture mode buffers the output of the child; streaming mode lets
    the child inherit the streams of the launcher. *)
Definition capture_mode (cfg : LaunchConfig) : bool :=
  match cfg with OcrCli _ _ => true | _ => false end.

(** The path-valued options that must name a regular file, each with the
    word the error message uses for it, in the order they are checked. *)
Definition required_files (cfg : LaunchConfig) : list (string * pypath) :=
  match cfg with
  | ChatServer _ a => [("Model", chat.model a)]
  | OcrCli _ a => [("Model", ocr.model a); ("MMPROJ", ocr.mmproj a); ("Image", ocr.image a)]
  | GpuWatch => []
  end.

(** A valid configuration: every required file is a regular file. *)
Definition valid (w : World) (cfg : LaunchConfig) : Prop :=
  Forall (λ lp, regular_file w lp.2 = true) (required_files cfg).

(** The executable, and the name the "not found" message gives it. *)
Definition executable (cfg : LaunchConfig) : string :=
  match cfg with
  | ChatServer c _ => chat.LLAMA_SERVER_EXECUTABLE c
  | OcrCli c _ => ocr.LLAMA_CLI_EXECUTABLE c
  | GpuWatch => "watch"
  end.

Definition not_found_name (cfg : LaunchConfig) : string :=
  match cfg with
  | GpuWatch => "watch' or 'nvidia-smi"
  | _ => executable cfg
  end.

Definition guidance (cfg : LaunchConfig) : string :=
  match cfg with
  | GpuWatch => "Please ensure 'watch' and NVIDIA drivers/tools are installed and in your PATH."
  | _ => "Please ensure llama.cpp is built and its binaries are in your PATH."
  end.

(** The options that are rendered as a flag followed by a value, in the
    order of the argument vector, each with the string form of its
    value. *)
Definition valued_options (cfg : LaunchConfig) : list (string * string) :=
  match cfg with
  | ChatServer c a =>
      [ ("-m", str_of_path (chat.model a));
        ("--port", Str.of_int (chat.port a));
        ("-ngl", Str.of_int (chat.n_gpu_layers a));
        ("-c", Str.of_int (chat.context_size a));
        ("-b", Str.of_int (chat.batch_size a));
        ("-ub", Str.of_int (chat.ubatch_size a));
        ("-ctk", chat.cache_type_k a);
        ("-ctv", chat.cache_type_v a) ]
  | OcrCli c a =>
      [ ("-m", str_of_path (ocr.model a));
        ("--mmproj", str_of_path (ocr.mmproj a));
        ("--image", str_of_path (ocr.image a));
        ("-p", ocr.PROMPT c);
        ("-ngl", Str.of_int (ocr.ngl a));
        ("--threads", Str.of_int (ocr.threads a));
        ("-c", Str.of_int (ocr.context_size a));
        ("-n", Str.of_int (ocr.n_predict a));
        ("--temp", str_of_float (ocr.temp a));
        ("-ctk", ocr.cache_type_k a);
        ("-ctv", ocr.cache_type_v a) ]
  | GpuWatch => [ ("-n", "1") ]
  end.

(** The options that have a value, as the configuration holds them:
    the flag of each with the value of the option, in the order of the
    argument vector. watch_gpu.py gives the interval as a text. *)
Definition configured (cfg : LaunchConfig) : list (string * argparse.pyval) :=
  match cfg with
  | ChatServer c a =>
      [ ("-m", argparse.VPath (chat.model a));
        ("--port", argparse.VInt (chat.port a));
        ("-ngl", argparse.VInt (chat.n_gpu_layers a));
        ("-c", argparse.VInt (chat.context_size a));
        ("-b", argparse.VInt (chat.batch_size a));
        ("-ub", argparse.VInt (chat.ubatch_size a));
        ("-ctk", argparse.VStr (chat.cache_type_k a));
        ("-ctv", argparse.VStr (chat.cache_type_v a)) ]
  | OcrCli c a =>
      [ ("-m", argparse.VPath (ocr.model a));
        ("--mmproj", argparse.VPath (ocr.mmproj a));
        ("--image", argparse.VPath (ocr.image a));
        ("-p", argparse.VStr (ocr.PROMPT c));
        ("-ngl", argparse.VInt (ocr.ngl a));
        ("--threads", argparse.VInt (ocr.threads a));
        ("-c", argparse.VInt (ocr.context_size a));
        ("-n", argparse.VInt (ocr.n_predict a));
        ("--temp", argparse.VFloat (ocr.temp a));
        ("-ctk", argparse.VStr (ocr.cache_type_k a));
        ("-ctv", argparse.VStr (ocr.cache_type_v a)) ]
  | GpuWatch => [ ("-n", argparse.VStr "1") ]
  end.

(** [word] is the string form of the value [v]: of an integer the plain
    decimal number that [int] reads back as that integer, of a text the
    text itself, of a path and of a float what [str] makes of it. A
    truth value has none. *)
Definition string_form (v : argparse.pyval) (word : string) : Prop :=
  match v with
  | argparse.VInt n => plain.decimal word = true ∧ Str.to_int word = Some n
  | argparse.VFloat x => word = str_of_float x
  | argparse.VStr s => word = s
  | argparse.VPath p => word = str_of_path p
  | argparse.VNone | argparse.VBool _ => False
  end.

(** Two configurations of one launcher. *)
Definition same_launcher (cfg cfg' : LaunchConfig) : bool :=
  match cfg, cfg' with
  | ChatServer _ _, ChatServer _ _ => true
  | OcrCli _ _, OcrCli _ _ => true
  | GpuWatch, GpuWatch => true
  | _, _ => false
  end.

(** How often a word occurs in an argument vector. *)
Definition occurrences (word : string) (l : list string) : nat :=
  length (filter (λ x, x = word) l).

(** The two toggles of a configuration. *)
Definition flash_attention (cfg : LaunchConfig) : bool :=
  match cfg with
  | ChatServer _ a => chat.flash_attn a
  | OcrCli c _ => ocr.DEFAULT_FLASH_ATTN c
  | GpuWatch => false
  end.

Definition memory_lock (cfg : LaunchConfig) : bool :=
  match cfg with
  | ChatServer _ a => chat.mlock a
  | OcrCli c _ => ocr.DEFAULT_MLOCK c
  | GpuWatch => false
  end.

(** The part of the argument vector after the executable and the valued
    options: the flags of the toggles (for watch_gpu.py, the program
    that [watch] runs). *)
Definition fixed_length (cfg : LaunchConfig) : nat :=
  S (2 * length (valued_options cfg)).

Definition toggle_part (cfg : LaunchConfig) : list string :=
  drop (fixed_length cfg) (argv cfg).


End launch_config.

(** * What the command line and the defaults give to an attribute *)

Section cli_layer.
Context `{PyLib}.
Import argparse.

(** The value a word of the command line stores in the attribute [d]:
    the word names an argument whose dest is [d], and the action of that
    argument yields a value. *)
Definition word_value (p : list argument) (d : string) (w : cli_arg) : option pyval :=
  match w with
  | Positional _ => None
  | Opt flag arg =>
      match find_action p flag with
      | Some (_, a) =>
          if bool_decide (dest a = d) then
            match take_action (act a) arg with
            | Parsed v => Some v
            | _ => None
            end
          else None
      | None => None
      end
  end.

(** The value the command line gives to [d]: that of the last word that
    stores one; [None] when no flag for [d] is given. *)
Definition cli_value (p : list argument) (d : string) (cli : list cli_arg) : option pyval :=
  last (omap (word_value p d) cli).

(** [convert_defaults], followed on the attribute [d] alone: [cur] is
    the value of [d] so far. *)
Fixpoint default_at (d : string) (i : nat) (p : list argument) (sn : list nat)
    (cur : option pyval) : parsed (option pyval) :=
  match p with
  | [] => Parsed cur
  | a :: p' =>
      if bool_decide (dest a = d) then
        match act a, default_value a with
        | store ty, Some (VStr s) =>
            if bool_decide (i ∈ sn) then default_at d (S i) p' sn cur else
            match cur with
            | Some (VStr s') =>
                if bool_decide (s = s') then
                  match convert ty s with
                  | Some v => default_at d (S i) p' sn (Some v)
                  | None => ParserExit 2
                  end
                else default_at d (S i) p' sn cur
            | _ => default_at d (S i) p' sn cur
            end
        | _, _ => default_at d (S i) p' sn cur
        end
      else default_at d (S i) p' sn cur
  end.

(** The value of [d] when the command line gives none. *)
Definition default_of (p : list argument) (d : string) : parsed (option pyval) :=
  default_at d 0 p [] (init_namespace p !! d).

(** An argument whose default is a string that its type converts shares
    its dest with no other argument. *)
Definition string_defaults_unshared (p : list argument) : Prop :=
  ∀ j a ty s, p !! j = Some a → act a = store ty → default_value a = Some (VStr s) →
    ∀ k b, p !! k = Some b → dest b = dest a → k = j.

(** The Python type of a value. *)
Definition is_int (v : pyval) : Prop := ∃ n, v = VInt n.
Definition is_float (v : pyval) : Prop := ∃ x, v = VFloat x.
Definition is_str (v : pyval) : Prop := ∃ s, v = VStr s.
Definition is_path (v : pyval) : Prop := ∃ q, v = VPath q.
Definition is_bool (v : pyval) : Prop := ∃ b, v = VBool b.

End cli_layer.

(** * The sources of an option

    The model the specification gives of the resolution of an option:
    a built-in text, overridden by an environment variable, overridden by
    a flag on the command line. *)

Section option_layers.
Context `{PyLib}.
Import argparse.

(** An option holds a value of some type, or is a toggle. *)
Inductive kind := Typed (ty : argtype) | Toggle.

(** The value a text from the environment or a built-in text stands
    for. *)
Definition of_text (k : kind) (s : string) : option pyval :=
  match k with
  | Typed ty => convert ty s
  | Toggle => Some (VBool (bool_decide (Str.lower s ∈ ["1"; "true"; "yes"; "on"])))
  end.

(** The three sources in increasing precedence: the built-in text, the
    text of the environment variable, the value the command line gives. *)
Definition layered (k : kind) (builtin : string) (from_env : option string)
    (from_cli : option pyval) : option pyval :=
  match from_cli with
  | Some v => Some v
  | None =>
      match from_env with
      | Some s => of_text k s
      | None => of_text k builtin
      end
  end.

(** An option: the attribute or module-level name that holds it, its
    environment variable, its built-in text and its kind. *)
Record option_spec := {
  holder : string;
  variable : string;
  builtin : string;
  kind_of : kind;
}.

(** The launchers that have options. *)
Inductive launcher := chat_py | ocr_py (v : ocr.variant).

(** The module-level configuration of a launcher. *)
Inductive module_config :=
| ChatModule (c : chat.config)
| OcrModule (c : ocr.config).

Definition load_module (l : launcher) (SCRIPT_DIR : pypath) (env : environ)
    : option module_config :=
  match l with
  | chat_py => ChatModule <$> chat.load SCRIPT_DIR env
  | ocr_py v => OcrModule <$> ocr.load v SCRIPT_DIR env
  end.

Definition module_parser (m : module_config) : list argument :=
  match m with
  | ChatModule c => chat.parser c
  | OcrModule c => ocr.parser c
  end.

(** The options that are attributes of [args]: the parser has a flag for
    each. [data_dir] is the resolved data directory, in which the
    built-in paths lie. *)
Definition cli_options (l : launcher) (data_dir : string) : list option_spec :=
  let in_data_dir name := str_of_path (joinpath (Path data_dir) name) in
  match l with
  | chat_py =>
      [ Build_option_spec "model" "MODEL_PATH" (in_data_dir "gemma-3-4b-it-Q5_K_M.gguf") (Typed type_Path);
        Build_option_spec "port" "SERVER_PORT" "4000" (Typed type_int);
        Build_option_spec "n_gpu_layers" "N_GPU_LAYERS" "48" (Typed type_int);
        Build_option_spec "context_size" "CONTEXT_SIZE" "8192" (Typed type_int);
        Build_option_spec "batch_size" "BATCH_SIZE" "512" (Typed type_int);
        Build_option_spec "ubatch_size" "UBATCH_SIZE" "128" (Typed type_int);
        Build_option_spec "cache_type_k" "CACHE_TYPE_K" "q5_1" (Typed type_str);
        Build_option_spec "cache_type_v" "CACHE_TYPE_V" "q5_1" (Typed type_str);
        Build_option_spec "flash_attn" "FLASH_ATTN" "1" Toggle;
        Build_option_spec "mlock" "MLOCK" "1" Toggle ]
  | ocr_py v =>
      [ Build_option_spec "ngl" "N_GPU_LAYERS" "34" (Typed type_int);
        Build_option_spec "threads" "THREADS" "3" (Typed type_int);
        Build_option_spec "context_size" "CONTEXT_SIZE" "16384" (Typed type_int);
        Build_option_spec "n_predict" "N_PREDICT" (ocr.N_PREDICT_text v) (Typed type_int);
        Build_option_spec "temp" "TEMPERATURE" "0.3" (Typed type_float);
        Build_option_spec "cache_type_k" "CACHE_TYPE_K" "q4_1" (Typed type_str);
        Build_option_spec "cache_type_v" "CACHE_TYPE_V" "q4_1" (Typed type_str);
        Build_option_spec "model" "MODEL_PATH" (in_data_dir "gemma-3-4b-it-Q5_K_M.gguf") (Typed type_Path);
        Build_option_spec "mmproj" "MMPROJ_PATH" (in_data_dir "mmproj-BF16.gguf") (Typed type_Path);
        Build_option_spec "image" "IMAGE_PATH" (in_data_dir "temp.png") (Typed type_Path) ]
  end.

(** The options that are module-level names only: the parser has no flag
    for them. *)
Definition env_options (l : launcher) (SCRIPT_DIR : pypath) : list option_spec :=
  let data := Build_option_spec "DATA_DIR" "DATA_DIR"
                (str_of_path (joinpath SCRIPT_DIR "data")) (Typed type_str) in
  match l with
  | chat_py =>
      [ data;
        Build_option_spec "LLAMA_SERVER_EXECUTABLE" "LLAMA_SERVER_EXECUTABLE" "llama-server"
          (Typed type_str) ]
  | ocr_py v =>
      [ data;
        Build_option_spec "DEFAULT_FLASH_ATTN" "FLASH_ATTN" "1" Toggle;
        Build_option_spec "DEFAULT_MLOCK" "MLOCK" "1" Toggle;
        Build_option_spec "LLAMA_CLI_EXECUTABLE" "LLAMA_CLI_EXECUTABLE" "llama-gemma3-cli"
          (Typed type_str);
        Build_option_spec "PROMPT" (ocr.PROMPT_NAME v) (ocr.PROMPT_text v) (Typed type_str) ]
  end.

(** The value of a module-level name. *)
Definition module_value (m : module_config) (name : string) : option pyval :=
  match m with
  | ChatModule c =>
      if bool_decide (name = "DATA_DIR") then Some (VStr (chat.DATA_DIR c))
      else if bool_decide (name = "LLAMA_SERVER_EXECUTABLE")
      then Some (VStr (chat.LLAMA_SERVER_EXECUTABLE c))
      else None
  | OcrModule c =>
      if bool_decide (name = "DATA_DIR") then Some (VStr (ocr.DATA_DIR c))
      else if bool_decide (name = "DEFAULT_FLASH_ATTN")
      then Some (VBool (ocr.DEFAULT_FLASH_ATTN c))
      else if bool_decide (name = "DEFAULT_MLOCK") then Some (VBool (ocr.DEFAULT_MLOCK c))
      else if bool_decide (name = "LLAMA_CLI_EXECUTABLE")
      then Some (VStr (ocr.LLAMA_CLI_EXECUTABLE c))
      else if bool_decide (name = "PROMPT") then Some (VStr (ocr.PROMPT c))
      else None
  end.

End option_layers.

(** * An instance of the library types

    Paths are POSIX pure paths, kept as their string form: [Path(s)] drops
    empty and [.] components and keeps one leading slash (two when the
    string starts with exactly two). Floats are the one-digit decimals
    [d.d], which Python prints back as they are written. The [%] of a
    help text is that of Python for the parameters of an argument whose
    default is a text. The closed examples below run on this instance,
    in worlds whose locale is UTF-8. *)

Module posix.

(** The components of a string between its slashes. *)
Fixpoint components (s : string) : list string :=
  match s with
  | EmptyString => [EmptyString]
  | String c s' =>
      if Ascii.eqb c "/" then EmptyString :: components s'
      else match components s' with
           | x :: r => String c x :: r
           | [] => [String c EmptyString]
           end
  end.

Definition root (s : string) : string :=
  match s with
  | String "/" (String "/" (String "/" _)) => "/"
  | String "/" (String "/" _) => "//"
  | String "/" _ => "/"
  | _ => EmptyString
  end.

Definition kept (x : string) : bool :=
  negb (String.eqb x EmptyString || String.eqb x ".").

Definition normal (s : string) : string :=
  match root s +:+ Str.join "/" (filter (λ x, kept x = true) (components s)) with
  | EmptyString => "."
  | r => r
  end.

(** [p / name]: an absolute [name] replaces [p]. *)
Definition join (p name : string) : string :=
  match name with
  | String "/" _ => normal name
  | _ =>
      match Str.last p with
      | Some "/"%char => normal (p +:+ name)
      | _ => normal (p +:+ "/" +:+ name)
      end
  end.

Definition digit (c : ascii) : bool :=
  match Ascii.is_nat c with Some _ => true | None => false end.

Definition short_decimal (s : string) : option string :=
  match s with
  | String a (String "." (String b EmptyString)) =>
      if digit a && digit b then Some s else None
  | _ => None
  end.

(** ** UTF-8, strict *)

Module utf8.

Definition hex_digit (n : N) : ascii :=
  ascii_of_N (if (n <? 10)%N then 48 + n else 87 + n)%N.

(** [f"0x{b:02x}"] *)
Definition hex_byte (b : N) : string :=
  "0x" +:+ String (hex_digit (b / 16)) (String (hex_digit (b `mod` 16)) EmptyString).

(** What the decoder meets at the head of the bytes: a character of so
    many bytes, or an error with its reason and the number of bytes it
    spans. *)
Inductive step := Char (width : nat) | Invalid (reason : string) (span : nat).

Definition cont (b : N) : bool := (128 <=? b)%N && (b <? 192)%N.

Definition invalid_start : step := Invalid "invalid start byte" 1.
Definition invalid_continuation (span : nat) : step := Invalid "invalid continuation byte" span.
Definition unexpected_end (l : list N) : step := Invalid "unexpected end of data" (length l).

Definition head_step (l : list N) : step :=
  match l with
  | [] => Char 0
  | ch :: t =>
      if (ch <? 128)%N then Char 1
      else if (ch <? 224)%N then
        if (ch <? 194)%N then invalid_start else
        match t with
        | [] => unexpected_end l
        | ch2 :: _ => if cont ch2 then Char 2 else invalid_continuation 1
        end
      else if (ch <? 240)%N then
        match t with
        | [] => unexpected_end l
        | ch2 :: t2 =>
            if negb (cont ch2) || (if (ch2 <? 160)%N then (ch =? 224)%N else (ch =? 237)%N)
            then invalid_continuation 1 else
            match t2 with
            | [] => unexpected_end l
            | ch3 :: _ => if cont ch3 then Char 3 else invalid_continuation 2
            end
        end
      else if (ch <? 245)%N then
        match t with
        | [] => unexpected_end l
        | ch2 :: t2 =>
            if negb (cont ch2) || (if (ch2 <? 144)%N then (ch =? 240)%N else (ch =? 244)%N)
            then invalid_continuation 1 else
            match t2 with
            | [] => unexpected_end l
            | ch3 :: t3 =>
                if negb (cont ch3) then invalid_continuation 2 else
                match t3 with
                | [] => unexpected_end l
                | ch4 :: _ => if cont ch4 then Char 4 else invalid_continuation 3
                end
            end
        end
      else invalid_start
  end.

(** [str(e)] of the [UnicodeDecodeError]. *)
Definition message (l : list N) (pos : nat) (reason : string) (span : nat) : string :=
  match span with
  | 1%nat =>
      "'utf-8' codec can't decode byte " +:+ hex_byte (hd 0%N l)
      +:+ " in position " +:+ pretty pos +:+ ": " +:+ reason
  | _ =>
      "'utf-8' codec can't decode bytes in position " +:+ pretty pos +:+ "-"
      +:+ pretty (pos + span - 1)%nat +:+ ": " +:+ reason
  end.

(** The first error, if any; every step takes at least one byte, so
    that the length of the bytes is fuel enough. *)
Fixpoint first_error (fuel : nat) (pos : nat) (l : list N) : option string :=
  match fuel with
  | O => None
  | S fuel' =>
      match head_step l with
      | Char O => None
      | Char k => first_error fuel' (pos + k) (drop k l)
      | Invalid reason span => Some (message l pos reason span)
      end
  end.

(** [b.decode("utf-8", "strict")]: the text keeps the code units. *)
Definition decode (b : string) : string + string :=
  let l := N_of_ascii <$> String.list_ascii_of_string b in
  match first_error (length l) 0 l with
  | Some e => inl e
  | None => inr b
  end.

End utf8.

(** ** The [%] of a help text *)

Module percent.

(** The types of the values that [%] meets: the dictionary of the
    parameters itself, or the value of one of its keys. *)
Inductive kind := KDict | KNone | KBool | KStr | KList.

Definition type_name (k : kind) : string :=
  match k with
  | KDict => "dict" | KNone => "NoneType" | KBool => "bool" | KStr => "str" | KList => "list"
  end.

(** The keys of the parameters of an argument whose default is a text,
    with the type of their values. *)
Definition key_kind (key : string) : option kind :=
  if bool_decide (key ∈ ["dest"; "default"; "type"; "help"; "prog"]) then Some KStr
  else if bool_decide (key = "option_strings") then Some KList
  else if bool_decide (key = "required") then Some KBool
  else if bool_decide (key ∈ ["nargs"; "const"; "choices"; "metavar"]) then Some KNone
  else None.

(** Where the scan of a conversion specifier stands. *)
Inductive mode :=
| Text
| Percent
| Key (depth : nat) (key : string)
| Flags
| Width
| Dot
| Precision
| Length
| Conversion.

Inductive outcome := Next (m : mode) (avail : option kind) | Error (e : string).

Definition is_digit (c : ascii) : bool :=
  match Ascii.is_nat c with Some _ => true | None => false end.

Definition one_of (c : ascii) (s : string) : bool :=
  bool_decide (c ∈ String.list_ascii_of_string s).

Definition not_enough : outcome := Error "not enough arguments for format string".

(** The conversion itself, on the next argument. *)
Definition convert (avail : option kind) (idx : nat) (c : ascii) : outcome :=
  match avail with
  | None => not_enough
  | Some k =>
      let c1 := String c EmptyString in
      if one_of c "sra" then Next Text None
      else if one_of c "diu" then
        match k with
        | KBool => Next Text None
        | _ => Error ("%" +:+ c1 +:+ " format: a real number is required, not " +:+ type_name k)
        end
      else if one_of c "oxX" then
        match k with
        | KBool => Next Text None
        | _ => Error ("%" +:+ c1 +:+ " format: an integer is required, not " +:+ type_name k)
        end
      else if one_of c "eEfFgG" then
        match k with
        | KBool => Next Text None
        | _ => Error ("must be real number, not " +:+ type_name k)
        end
      else if Ascii.eqb c "c" then
        match k with
        | KBool => Next Text None
        | _ => Error "%c requires int or char"
        end
      else
        Error ("unsupported format character '" +:+ c1 +:+ "' (0x"
               +:+ String (utf8.hex_digit (N_of_ascii c / 16))
                     (String (utf8.hex_digit (N_of_ascii c `mod` 16)) EmptyString)
               +:+ ") at index " +:+ pretty idx)
  end.

(** A [*] takes the next argument, which must be an [int]. *)
Definition star (avail : option kind) (m : mode) : outcome :=
  match avail with
  | None => not_enough
  | Some KBool => Next m None
  | Some _ => Error "* wants int"
  end.

Definition from_length (avail : option kind) (idx : nat) (c : ascii) : outcome :=
  if one_of c "hlL" then Next Conversion avail else convert avail idx c.

Definition from_dot (avail : option kind) (idx : nat) (c : ascii) : outcome :=
  if Ascii.eqb c "." then Next Dot avail else from_length avail idx c.

Definition from_width (avail : option kind) (idx : nat) (c : ascii) : outcome :=
  if Ascii.eqb c "*" then star avail Length
  else if is_digit c then Next Width avail
  else from_dot avail idx c.

Definition from_flags (avail : option kind) (idx : nat) (c : ascii) : outcome :=
  if one_of c "-+ #0" then Next Flags avail else from_width avail idx c.

Definition transition (m : mode) (avail : option kind) (idx : nat) (c : ascii) : outcome :=
  match m with
  | Text => if Ascii.eqb c "%" then Next Percent avail else Next Text avail
  | Percent =>
      if Ascii.eqb c "%" then Next Text avail
      else if Ascii.eqb c "(" then Next (Key 1 EmptyString) avail
      else from_flags avail idx c
  | Key depth key =>
      if Ascii.eqb c ")" then
        match depth with
        | 1%nat =>
            match key_kind key with
            | Some k => Next Flags (Some k)
            | None => Error ("'" +:+ key +:+ "'")
            end
        | _ => Next (Key (pred depth) (key +:+ String c EmptyString)) avail
        end
      else if Ascii.eqb c "(" then Next (Key (S depth) (key +:+ String c EmptyString)) avail
      else Next (Key depth (key +:+ String c EmptyString)) avail
  | Flags => from_flags avail idx c
  | Width => if is_digit c then Next Width avail else from_dot avail idx c
  | Dot =>
      if Ascii.eqb c "*" then star avail Length
      else if is_digit c then Next Precision avail
      else from_length avail idx c
  | Precision => if is_digit c then Next Precision avail else from_length avail idx c
  | Length => from_length avail idx c
  | Conversion => convert avail idx c
  end.

Fixpoint scan (m : mode) (avail : option kind) (idx : nat) (s : string) : option string :=
  match s with
  | EmptyString =>
      match m with
      | Text => None
      | Key _ _ => Some "incomplete format key"
      | _ => Some "incomplete format"
      end
  | String c s' =>
      match transition m avail idx c with
      | Next m' avail' => scan m' avail' (S idx) s'
      | Error e => Some e
      end
  end.

(** The text of the exception [h % params] raises, if any. *)
Definition help_error (h : string) : option string := scan Text (Some KDict) 0 h.

End percent.

#[export] Instance lib : PyLib := {|
  pyfloat := string;
  float_of_str := short_decimal;
  str_of_float := id;
  pypath := string;
  Path := normal;
  joinpath := join;
  str_of_path := id;
  help_error := percent.help_error;
|}.

(** A world in which the files of [files] are the regular files, every
    program behaves as [behaviour] in every environment, and the
    encoding of the locale is UTF-8. *)
Definition world (dir : string) (files : list string) (behaviour : io.child) : io.World :=
  {| io.script_dir := dir;
     io.regular_file := λ p, bool_decide (p ∈ files);
     io.execute := λ _ _, behaviour;
     io.decode := utf8.decode |}.

(** The same world, but the programs are found only through a [PATH]
    that holds [/usr/local/bin]. *)
Definition path_world (dir : string) (files : list string) (behaviour : io.child) : io.World :=
  {| io.script_dir := dir;
     io.regular_file := λ p, bool_decide (p ∈ files);
     io.execute := λ env _,
       if bool_decide (env !! "PATH" = Some "/usr/local/bin") then behaviour
       else io.NoSuchExecutable;
     io.decode := utf8.decode |}.

(** The configuration of each launcher under the empty environment and
    the empty command line, for a script in [/srv/app]. *)
Definition chat_config : chat.config :=
  {| chat.DATA_DIR := "/srv/app/data";
     chat.DEFAULT_MODEL_PATH := "/srv/app/data/gemma-3-4b-it-Q5_K_M.gguf";
     chat.DEFAULT_PORT := 4000;
     chat.DEFAULT_NGL := 48;
     chat.DEFAULT_CTX := 8192;
     chat.DEFAULT_BATCH_SIZE := 512;
     chat.DEFAULT_UBATCH_SIZE := 128;
     chat.DEFAULT_CACHE_TYPE_K := "q5_1";
     chat.DEFAULT_CACHE_TYPE_V := "q5_1";
     chat.DEFAULT_FLASH_ATTN := true;
     chat.DEFAULT_MLOCK := true;
     chat.LLAMA_SERVER_EXECUTABLE := "llama-server" |}.

Definition chat_args : chat.args :=
  {| chat.model := "/srv/app/data/gemma-3-4b-it-Q5_K_M.gguf";
     chat.port := 4000;
     chat.n_gpu_layers := 48;
     chat.context_size := 8192;
     chat.batch_size := 512;
     chat.ubatch_size := 128;
     chat.cache_type_k := "q5_1";
     chat.cache_type_v := "q5_1";
     chat.flash_attn := true;
     chat.mlock := true |}.

Definition ocr_config : ocr.config :=
  {| ocr.DATA_DIR := "/srv/app/data";
     ocr.DEFAULT_MODEL_PATH := "/srv/app/data/gemma-3-4b-it-Q5_K_M.gguf";
     ocr.DEFAULT_MMPROJ_PATH := "/srv/app/data/mmproj-BF16.gguf";
     ocr.DEFAULT_IMAGE_PATH := "/srv/app/data/temp.png";
     ocr.DEFAULT_NGL := 34;
     ocr.DEFAULT_THREADS := 3;
     ocr.DEFAULT_CTX := 16384;
     ocr.DEFAULT_N_PREDICT := 1024;
     ocr.DEFAULT_TEMP := "0.3";
     ocr.DEFAULT_CACHE_TYPE_K := "q4_1";
     ocr.DEFAULT_CACHE_TYPE_V := "q4_1";
     ocr.DEFAULT_FLASH_ATTN := true;
     ocr.DEFAULT_MLOCK := true;
     ocr.LLAMA_CLI_EXECUTABLE := "llama-gemma3-cli";
     ocr.PROMPT := ocr.METADATA_PROMPT_text |}.

Definition ocr_args : ocr.args :=
  {| ocr.ngl := 34;
     ocr.threads := 3;
     ocr.context_size := 16384;
     ocr.n_predict := 1024;
     ocr.temp := "0.3";
     ocr.cache_type_k := "q4_1";
     ocr.cache_type_v := "q4_1";
     ocr.model := "/srv/app/data/gemma-3-4b-it-Q5_K_M.gguf";
     ocr.mmproj := "/srv/app/data/mmproj-BF16.gguf";
     ocr.image := "/srv/app/data/temp.png" |}.

Definition ocr_files : list string :=
  [ "/srv/app/data/gemma-3-4b-it-Q5_K_M.gguf";
    "/srv/app/data/mmproj-BF16.gguf";
    "/srv/app/data/temp.png" ].

End posix.

(** * Closed inputs for the examples *)

Module sample.
Import argparse io.
#[local] Existing Instance posix.lib.

(** The text [{"ok":true}]. *)
Definition ok_json : string := "{" +:+ Str.dq +:+ "ok" +:+ Str.dq +:+ ":true}".

Definition chat_cfg : LaunchConfig (H:=posix.lib) := ChatServer posix.chat_config posix.chat_args.
Definition ocr_cfg : LaunchConfig (H:=posix.lib) := OcrCli posix.ocr_config posix.ocr_args.

(** No file exists. *)
Definition empty_disk : World (H:=posix.lib) :=
  posix.world "/srv/app" [] (Terminated 0 EmptyString EmptyString).

(** Only the model file exists. *)
Definition model_only : World (H:=posix.lib) :=
  posix.world "/srv/app" ["/srv/app/data/gemma-3-4b-it-Q5_K_M.gguf"]
    (Terminated 0 EmptyString EmptyString).

(** The files exist and the child behaves as given. *)
Definition disk (behaviour : child) : World (H:=posix.lib) :=
  posix.world "/srv/app" posix.ocr_files behaviour.

(** The child prints [{"ok":true}] between white space, writes a
    warning to its standard error, and exits with 0. *)
Definition ok_child : child :=
  Terminated 0 ("  " +:+ ok_json +:+ Str.nl) ("warning: slow" +:+ Str.nl).

(** The child exits with 2. *)
Definition failing_child : child :=
  Terminated 2 ("partial" +:+ Str.nl) ("error: out of memory" +:+ Str.nl).

(** The child writes two lines that a carriage return separates, and
    exits with 0. *)
Definition cr_child : child :=
  Terminated 0 ("a" +:+ String (ascii_of_nat 13) "b") EmptyString.

(** A byte that starts no character of UTF-8. *)
Definition bad_byte : string := String (ascii_of_nat 255) EmptyString.

(** The child exits with 0, and what it wrote to its standard output,
    or to its standard error, is no text in the encoding of the
    locale. *)
Definition binary_child : child := Terminated 0 bad_byte EmptyString.
Definition binary_warning_child : child := Terminated 0 ok_json bad_byte.

(** The child exits with 3 and its standard error is no text. *)
Definition binary_failing_child : child := Terminated 3 EmptyString bad_byte.

(** A no-break space, U+00A0, before and after [{"ok":true}]. *)
Definition nbsp : string := String (ascii_of_nat 194) (String (ascii_of_nat 160) EmptyString).
Definition nbsp_child : child := Terminated 0 (nbsp +:+ ok_json +:+ nbsp) EmptyString.

(** An environment and a command line that both name the port. *)
Definition port_env : environ := {[ "SERVER_PORT" := "8080" ]}.
Definition port_cli : list cli_arg := [Opt "--port" (Some "9090")].

Definition port_module : module_config (H:=posix.lib) :=
  ChatModule
    {| chat.DATA_DIR := "/srv/app/data";
       chat.DEFAULT_MODEL_PATH := "/srv/app/data/gemma-3-4b-it-Q5_K_M.gguf";
       chat.DEFAULT_PORT := 8080;
       chat.DEFAULT_NGL := 48;
       chat.DEFAULT_CTX := 8192;
       chat.DEFAULT_BATCH_SIZE := 512;
       chat.DEFAULT_UBATCH_SIZE := 128;
       chat.DEFAULT_CACHE_TYPE_K := "q5_1";
       chat.DEFAULT_CACHE_TYPE_V := "q5_1";
       chat.DEFAULT_FLASH_ATTN := true;
       chat.DEFAULT_MLOCK := true;
       chat.LLAMA_SERVER_EXECUTABLE := "llama-server" |}.

Definition port_namespace : gmap string (pyval (H:=posix.lib)) :=
  match parse_args (module_parser port_module) port_cli with
  | Parsed ns => ns
  | _ => ∅
  end.



End sample.


(** * The scripts as one function of the launcher *)

Section whole_scripts.
Context `{PyLib}.
Import argparse io.

(** The script of a launcher that has options. *)
Definition run_script (l : launcher) (env : environ) (cli : list cli_arg) : M unit :=
  match l with
  | chat_py => chat.script env cli
  | ocr_py v => ocr.script v env cli
  end.

(** [args] of a launcher, read from the namespace, with the module-level
    configuration. *)
Definition config_of (m : module_config) (ns : gmap string pyval) : option LaunchConfig :=
  match m with
  | ChatModule c => ChatServer c <$> chat.args_of ns
  | OcrModule c => OcrCli c <$> ocr.args_of ns
  end.

(** The launch configuration an invocation resolves to: the module
    level loads, the command line parses, and [args] is read. *)
Definition resolve (l : launcher) (SCRIPT_DIR : pypath) (env : environ)
    (cli : list cli_arg) : option LaunchConfig :=
  m ← load_module l SCRIPT_DIR env;
  match parse_args (module_parser m) cli with
  | Parsed ns => config_of m ns
  | _ => None
  end.

(** A word the parser accepts: an option string of one of its arguments,
    with an argument the action of that argument takes. *)
Definition accepted (p : list argument) (w : cli_arg) : bool :=
  match w with
  | Positional _ => false
  | Opt flag arg =>
      match find_action p flag with
      | Some (_, a) =>
          match take_action (act a) arg with
          | Parsed _ => true
          | _ => false
          end
      | None => false
      end
  end.

(** A word that asks for the help. *)
Definition asks_help (p : list argument) (w : cli_arg) : bool :=
  match w with
  | Opt flag None =>
      match find_action p flag with
      | Some (_, a) => match act a with help => true | _ => false end
      | None => false
      end
  | _ => false
  end.

(** The string defaults of a parser all convert. *)
Definition defaults_convert (p : list argument) : Prop :=
  Forall (λ a, ∀ ty s, act a = store ty → default_value a = Some (VStr s) →
                is_Some (convert ty s)) p.

(** The environment variables a launcher reads as numbers at its module
    level, each with its built-in text. *)
Definition int_variables (l : launcher) : list (string * string) :=
  match l with
  | chat_py =>
      [ ("SERVER_PORT", "4000"); ("N_GPU_LAYERS", "48"); ("CONTEXT_SIZE", "8192");
        ("BATCH_SIZE", "512"); ("UBATCH_SIZE", "128") ]
  | ocr_py v =>
      [ ("N_GPU_LAYERS", "34"); ("THREADS", "3"); ("CONTEXT_SIZE", "16384");
        ("N_PREDICT", ocr.N_PREDICT_text v) ]
  end.

Definition float_variables (l : launcher) : list (string * string) :=
  match l with
  | chat_py => []
  | ocr_py _ => [ ("TEMPERATURE", "0.3") ]
  end.

(** Some number of the module level does not read: the text of its
    variable, or else its built-in text, is refused by [int] or by
    [float]. *)
Definition bad_number (l : launcher) (env : environ) : bool :=
  existsb (λ v, match Str.to_int (environ_get env v.1 v.2) with None => true | Some _ => false end)
    (int_variables l)
  || existsb (λ v, match float_of_str (environ_get env v.1 v.2) with None => true | Some _ => false end)
       (float_variables l).

(** No option string belongs to two arguments of the parser (argparse
    refuses to add an argument whose option string is taken). *)
Definition distinct_option_strings (p : list argument) : Prop :=
  NoDup (p ≫= option_strings).

(** The option strings of the arguments that store into the attribute
    [d] with an action that [k] selects. *)
Definition option_strings_of (p : list argument) (d : string) (k : action → bool)
    : list string :=
  filter (λ a, dest a = d ∧ k (act a) = true) p ≫= option_strings.

Definition stores (a : action) : bool :=
  match a with store _ => true | _ => false end.
Definition stores_true (a : action) : bool :=
  match a with store_true => true | _ => false end.
Definition stores_false (a : action) : bool :=
  match a with store_false => true | _ => false end.

(** The text a word gives to an option whose option strings are [fl]. *)
Definition flag_word (fl : list string) (w : cli_arg) : option string :=
  match w with
  | Opt flag (Some s) => if bool_decide (flag ∈ fl) then Some s else None
  | _ => None
  end.

(** The text the command line gives to that option: that of the last
    word that gives one. *)
Definition flag_text (fl : list string) (cli : list cli_arg) : option string :=
  last (omap (flag_word fl) cli).

(** The text that decides an attribute of [args]: that of the command
    line, or else that of the environment variable, or else the built-in
    one. *)
Definition deciding_text (p : list argument) (o : option_spec) (env : environ)
    (cli : list cli_arg) : string :=
  from_option id (environ_get env (variable o) (builtin o))
    (flag_text (option_strings_of p (holder o) stores) cli).

(** What a word says about a toggle that [on] turns on and [off] turns
    off. *)
Definition toggle_word (on off : list string) (w : cli_arg) : option bool :=
  match w with
  | Opt flag None =>
      if bool_decide (flag ∈ on) then Some true
      else if bool_decide (flag ∈ off) then Some false
      else None
  | _ => None
  end.

(** The state of a toggle of the parser: what the last word about it
    says, or else what the environment variable says. *)
Definition deciding_toggle (p : list argument) (d variable : string) (env : environ)
    (cli : list cli_arg) : bool :=
  from_option id (environ_flag env variable "1")
    (last (omap (toggle_word (option_strings_of p d stores_true)
                   (option_strings_of p d stores_false)) cli)).

(** [str(v)] *)
Definition str_of_value (v : pyval) : string :=
  match v with
  | VNone => "None"
  | VInt n => Str.of_int n
  | VFloat x => str_of_float x
  | VStr s => s
  | VPath q => str_of_path q
  | VBool b => if b then "True" else "False"
  end.

(** The position, in the argument vector, of the value of each attribute
    of [args] that is rendered as a flag followed by a value. *)
Definition rendered (l : launcher) : gmap string nat :=
  match l with
  | chat_py =>
      list_to_map
        [ ("model", 2); ("port", 4); ("n_gpu_layers", 6); ("context_size", 8);
          ("batch_size", 10); ("ubatch_size", 12); ("cache_type_k", 14);
          ("cache_type_v", 16) ]%nat
  | ocr_py _ =>
      list_to_map
        [ ("model", 2); ("mmproj", 4); ("image", 6); ("ngl", 10); ("threads", 12);
          ("context_size", 14); ("n_predict", 16); ("temp", 18);
          ("cache_type_k", 20); ("cache_type_v", 22) ]%nat
  end.

(** The environment variables a launcher reads. *)
Definition environment_variables (l : launcher) : list string :=
  match l with
  | chat_py =>
      [ "DATA_DIR"; "MODEL_PATH"; "SERVER_PORT"; "N_GPU_LAYERS"; "CONTEXT_SIZE";
        "BATCH_SIZE"; "UBATCH_SIZE"; "CACHE_TYPE_K"; "CACHE_TYPE_V"; "FLASH_ATTN";
        "MLOCK"; "LLAMA_SERVER_EXECUTABLE" ]
  | ocr_py v =>
      [ "DATA_DIR"; "MODEL_PATH"; "MMPROJ_PATH"; "IMAGE_PATH"; "N_GPU_LAYERS";
        "THREADS"; "CONTEXT_SIZE"; "N_PREDICT"; "TEMPERATURE"; "CACHE_TYPE_K";
        "CACHE_TYPE_V"; "FLASH_ATTN"; "MLOCK"; "LLAMA_CLI_EXECUTABLE";
        ocr.PROMPT_NAME v ]
  end.

End whole_scripts.

Section streaming_messages.
Context `{PyLib}.

(** The words with which a streaming launcher announces its command and
    reports the return code of the child. *)
Definition opening (cfg : LaunchConfig) : string :=
  match cfg with
  | GpuWatch => "Running: "
  | _ => "Starting server: "
  end.

Definition closing (cfg : LaunchConfig) : string :=
  match cfg with
  | GpuWatch => "Watch exited with code: "
  | _ => "Server exited with code: "
  end.

(** The words before the text of an exception that has no handler of
    its own. *)
Definition catch_all (cfg : LaunchConfig) : string :=
  if capture_mode cfg then "An unexpected error occurred: " else "An error occurred: ".

End streaming_messages.

(** * Closed invocations for the examples of the scripts *)

Module invocation.
Import argparse io.
#[local] Existing Instance posix.lib.

(** A spawn the operating system refuses. *)
Definition denied : child := SpawnError "[Errno 13] Permission denied: 'llama-server'".

(** The configuration chat.py resolves from a port in the environment
    and a port on the command line. *)
Definition port_cfg : LaunchConfig (H:=posix.lib) :=
  match resolve chat_py "/srv/app" sample.port_env sample.port_cli with
  | Some cfg => cfg
  | None => GpuWatch
  end.

(** Flash attention turned on, then off. *)
Definition on_off_cli : list cli_arg := [Opt "-fa" None; Opt "--no-flash-attn" None].

Definition on_off_cfg : LaunchConfig (H:=posix.lib) :=
  match resolve chat_py "/srv/app" ∅ on_off_cli with
  | Some cfg => cfg
  | None => GpuWatch
  end.

(** A disk with the model file only, and a child that behaves as
    given. *)
Definition model_disk (behaviour : child) : World (H:=posix.lib) :=
  posix.world "/srv/app" ["/srv/app/data/gemma-3-4b-it-Q5_K_M.gguf"] behaviour.

(** The module level of ocr_meta.py under the empty environment. *)
Definition meta_module : module_config (H:=posix.lib) := OcrModule posix.ocr_config.

(** An option string the OCR launchers do not have. *)
Definition unknown_cli : list cli_arg := [Opt "--no-flash-attn" None].

(** A port that is not a number. *)
Definition bad_port_env : environ := {[ "SERVER_PORT" := "abc" ]}.

(** A data directory given by the environment. *)
Definition data_env : environ := {[ "DATA_DIR" := "/models" ]}.

(** The port, as an option of chat.py. *)
Definition port_option : option_spec :=
  Build_option_spec "port" "SERVER_PORT" "4000" (Typed type_int).

(** The configuration chat.py resolves when the environment gives the
    cache type of the K tensor as [-m]. *)
Definition dash_m_env : environ := {[ "CACHE_TYPE_K" := "-m" ]}.
Definition dash_m_cfg : LaunchConfig (H:=posix.lib) :=
  match resolve chat_py "/srv/app" dash_m_env [] with
  | Some cfg => cfg
  | None => GpuWatch
  end.

(** A model path with a percent sign, and the request for the help. *)
Definition percent_env : environ := {[ "MODEL_PATH" := "/models/50%.gguf" ]}.
Definition help_cli : list cli_arg := [Opt "-h" None].

(** A search path on which the programs are, and a world in which they
    are found through it alone. *)
Definition path_env : environ := {[ "PATH" := "/usr/local/bin" ]}.
Definition path_disk : World (H:=posix.lib) :=
  posix.path_world "/srv/app" posix.ocr_files (Terminated 0 EmptyString EmptyString).

End invocation.

(** * Properties *)

#[local] Arguments String.append !_ _ / : simpl nomatch.

(** ** Evaluation of the string functions and of the instance *)

Example of_int_16384 : Str.of_int 16384 = "16384".
Proof. reflexivity. Qed.

Example of_int_neg : Str.of_int (-15) = "-15".
Proof. reflexivity. Qed.

Example to_int_4000 : Str.to_int "4000" = Some 4000.
Proof. reflexivity. Qed.

Example to_int_sp : Str.to_int " -1_6 " = Some (-16).
Proof. reflexivity. Qed.

Example to_int_bad : Str.to_int "1__6" = None /\ Str.to_int "abc" = None /\ Str.to_int EmptyString = None.
Proof. repeat split; reflexivity. Qed.

(** [int] skips a no-break space, and does not skip the separator
    characters FS to US, which [strip] removes. *)
Example to_int_unicode :
  Str.to_int (sample.nbsp +:+ "7" +:+ sample.nbsp) = Some 7
  ∧ Str.to_int (String (ascii_of_nat 28) "5") = None
  ∧ Str.strip (String (ascii_of_nat 28) "5") = "5".
Proof. repeat split; reflexivity. Qed.

Example strip_ex : Str.strip "  {ok}  " = "{ok}".
Proof. reflexivity. Qed.

Example strip_nbsp :
  Str.strip (sample.nbsp +:+ sample.ok_json +:+ sample.nbsp) = sample.ok_json.
Proof. reflexivity. Qed.

Example universal_newlines :
  Str.replace_cr (Str.replace_crlf
    ("a" +:+ String (ascii_of_nat 13) (String (ascii_of_nat 10) "b")
         +:+ String (ascii_of_nat 13) "c"))
  = "a" +:+ Str.nl +:+ "b" +:+ Str.nl +:+ "c".
Proof. reflexivity. Qed.

Example lower_ex : Str.lower "TrUe" = "true".
Proof. reflexivity. Qed.

Example posix_normal :
  posix.normal "a//b/./c/" = "a/b/c" ∧ posix.normal "./m.gguf" = "m.gguf"
  ∧ posix.normal EmptyString = "." ∧ posix.normal "//x" = "//x"
  ∧ posix.normal "///x" = "/x" ∧ posix.normal "/" = "/".
Proof. repeat split; reflexivity. Qed.

Example posix_join :
  posix.join "/" "data" = "/data" ∧ posix.join "." "data" = "data"
  ∧ posix.join "/srv/app" "data" = "/srv/app/data" ∧ posix.join "a" "/b" = "/b".
Proof. repeat split; reflexivity. Qed.

Example posix_decode :
  posix.utf8.decode sample.ok_json = inr sample.ok_json
  ∧ posix.utf8.decode sample.nbsp = inr sample.nbsp
  ∧ posix.utf8.decode sample.bad_byte =
      inl "'utf-8' codec can't decode byte 0xff in position 0: invalid start byte".
Proof. repeat split; reflexivity. Qed.

Example posix_help_error :
  posix.percent.help_error "Port to listen on (default: 4000)" = None
  ∧ posix.percent.help_error "Path to the GGUF model file (default: /models/50%.gguf)"
    = Some "must be real number, not dict"
  ∧ posix.percent.help_error "Cache type for K tensor (default: 100%)"
    = Some "unsupported format character ')' (0x29) at index 38".
Proof. repeat split; reflexivity. Qed.

Example posix_chat_load :
  chat.load (H:=posix.lib) "/srv/app" ∅ = Some posix.chat_config.
Proof. reflexivity. Qed.

Example posix_chat_args :
  match argparse.parse_args (chat.parser posix.chat_config) [] with
  | argparse.Parsed ns => chat.args_of ns
  | _ => None
  end = Some posix.chat_args.
Proof. reflexivity. Qed.

(** ** Properties of the string functions *)

Lemma app_empty_r (s : string) : s +:+ EmptyString = s.
Proof. induction s as [|c s IH]; [done|]. cbn. by rewrite IH. Qed.

Lemma app_assoc_str (a b c : string) : (a +:+ b) +:+ c = a +:+ b +:+ c.
Proof. induction a as [|x a IH]; [done|]. cbn. by rewrite IH. Qed.

Lemma last_app (r w : string) :
  w ≠ EmptyString → Str.last (r +:+ w) = Str.last w.
Proof.
  intros Hw. induction r as [|c r IH]; [done|]. cbn [String.append Str.last].
  rewrite IH. destruct (r +:+ w) eqn:Hrw; [|done].
  destruct r; [by destruct w|done].
Qed.

Lemma continuation_bounds (c : ascii) :
  Str.continuation c = true → (128 ≤ Str.byte c < 192)%N.
Proof. unfold Str.continuation. intros [?%N.leb_le ?%N.ltb_lt]%andb_true_iff. lia. Qed.

(** *** Characters: one, two or three code units *)

Section characters.
Variable f : N → bool.

#[local] Abbreviation sp := (Str.character f).

Lemma character_shape (t : string) :
  sp t = true →
  (∃ a, t = String a EmptyString ∧ (Str.byte a < 128)%N ∧ f (Str.byte a) = true)
  ∨ (∃ a b, t = String a (String b EmptyString)
       ∧ (194 ≤ Str.byte a < 224)%N ∧ (128 ≤ Str.byte b < 192)%N)
  ∨ (∃ a b c, t = String a (String b (String c EmptyString))
       ∧ (224 ≤ Str.byte a)%N ∧ (128 ≤ Str.byte b < 192)%N ∧ (128 ≤ Str.byte c < 192)%N).
Proof.
  unfold Str.character, Str.code_point.
  destruct t as [|a [|b [|c [|d t]]]]; try done.
  - destruct (Str.byte a <? 128)%N eqn:Ha; [|done]. apply N.ltb_lt in Ha.
    intros Hf. left. by exists a.
  - destruct (194 <=? Str.byte a)%N eqn:Ha1; [|done].
    destruct (Str.byte a <? 224)%N eqn:Ha2; [|done].
    destruct (Str.continuation b) eqn:Hb; [|done]. cbn.
    apply N.leb_le in Ha1. apply N.ltb_lt in Ha2. apply continuation_bounds in Hb.
    intros _. right. left. by exists a, b.
  - destruct (224 <=? Str.byte a)%N eqn:Ha1; [|done].
    destruct (Str.byte a <? 240)%N eqn:Ha2; [|done].
    destruct (Str.continuation b) eqn:Hb; [|done].
    destruct (Str.continuation c) eqn:Hc; [|done]. cbn.
    apply N.leb_le in Ha1. apply continuation_bounds in Hb, Hc.
    intros _. right. right. by exists a, b, c.
Qed.

Lemma character_1 (a : ascii) :
  sp (String a EmptyString) = true → (Str.byte a < 128)%N ∧ f (Str.byte a) = true.
Proof.
  intros [(? & [= <-] & ? & ?)|[(? & ? & [=] & _)|(? & ? & ? & [=] & _)]]%character_shape.
  done.
Qed.

Lemma character_2 (a b : ascii) :
  sp (String a (String b EmptyString)) = true →
  (194 ≤ Str.byte a < 224)%N ∧ (128 ≤ Str.byte b < 192)%N.
Proof.
  intros [(? & [=] & _)|[(? & ? & [= <- <-] & ? & ?)|(? & ? & ? & [=] & _)]]%character_shape.
  done.
Qed.

Lemma character_3 (a b c : ascii) :
  sp (String a (String b (String c EmptyString))) = true →
  (224 ≤ Str.byte a)%N ∧ (128 ≤ Str.byte b < 192)%N ∧ (128 ≤ Str.byte c < 192)%N.
Proof.
  intros [(? & [=] & _)|[(? & ? & [=] & _)|(? & ? & ? & [= <- <- <-] & ? & ? & ?)]]%character_shape.
  done.
Qed.

Lemma character_nonempty (w : string) : sp w = true → w ≠ EmptyString.
Proof. by intros Hw ->. Qed.

(** No character is the start or the end of a longer one. *)
Lemma not_character_1 (a : ascii) :
  (128 ≤ Str.byte a)%N → sp (String a EmptyString) = false.
Proof.
  intros Ha. destruct (sp (String a EmptyString)) eqn:Hsp; [|done].
  apply character_1 in Hsp as [? _]. lia.
Qed.

Lemma not_character_2 (a b : ascii) :
  (Str.byte a < 194 ∨ 224 ≤ Str.byte a)%N → sp (String a (String b EmptyString)) = false.
Proof.
  intros Ha. destruct (sp _) eqn:Hsp; [|done].
  apply character_2 in Hsp as [? _]. lia.
Qed.

Lemma not_character_3 (a b c : ascii) :
  (Str.byte a < 224)%N → sp (String a (String b (String c EmptyString))) = false.
Proof.
  intros Ha. destruct (sp _) eqn:Hsp; [|done].
  apply character_3 in Hsp as [? _]. lia.
Qed.

(** *** [lstrip_of] *)

Lemma lstrip_of_character (w x : string) :
  sp w = true → Str.lstrip_of sp (w +:+ x) = Str.lstrip_of sp x.
Proof.
  intros Hw. destruct (character_shape w Hw)
    as [(a & -> & Ha & _)|[(a & b & -> & Ha & Hb)|(a & b & c & -> & Ha & Hb & Hc)]];
    cbn [String.append Str.lstrip_of].
  - by rewrite Hw.
  - rewrite (not_character_1 a), Hw; [done|lia].
  - rewrite (not_character_1 a), (not_character_2 a b), Hw; [done|lia..].
Qed.

Lemma lstrip_of_split (s : string) :
  ∃ l, s = l +:+ Str.lstrip_of sp s ∧ Str.lstrip_of sp l = EmptyString.
Proof.
  assert (∀ n s, (String.length s ≤ n)%nat →
            ∃ l, s = l +:+ Str.lstrip_of sp s ∧ Str.lstrip_of sp l = EmptyString) as Hall.
  { clear s. induction n as [|n IH]; intros s Hn.
    { destruct s; [by exists EmptyString|cbn in Hn; lia]. }
    destruct s as [|a s1]; [by exists EmptyString|]. cbn in Hn.
    cbn [Str.lstrip_of]. destruct (sp (String a EmptyString)) eqn:Ha.
    { destruct (IH s1) as (l & Hs & Hl); [lia|]. exists (String a l).
      cbn [String.append Str.lstrip_of]. rewrite Ha. by rewrite <- Hs. }
    destruct s1 as [|b s2]; [by exists EmptyString|]. cbn in Hn.
    destruct (sp (String a (String b EmptyString))) eqn:Hab.
    { destruct (IH s2) as (l & Hs & Hl); [lia|]. exists (String a (String b l)).
      cbn [String.append Str.lstrip_of]. rewrite Ha, Hab. by rewrite <- Hs. }
    destruct s2 as [|c s3]; [by exists EmptyString|]. cbn in Hn.
    destruct (sp (String a (String b (String c EmptyString)))) eqn:Habc.
    { destruct (IH s3) as (l & Hs & Hl); [lia|]. exists (String a (String b (String c l))).
      cbn [String.append Str.lstrip_of]. rewrite Ha, Hab, Habc. by rewrite <- Hs. }
    by exists EmptyString. }
  by apply (Hall (String.length s)).
Qed.

(** A string that starts with no character of [f]. *)
Lemma unstarted_tests (s : string) :
  (∀ w r, sp w = true → s ≠ w +:+ r) →
  match s with
  | String a s1 =>
      sp (String a EmptyString) = false
      ∧ match s1 with
        | String b s2 =>
            sp (String a (String b EmptyString)) = false
            ∧ match s2 with
              | String c _ => sp (String a (String b (String c EmptyString))) = false
              | EmptyString => True
              end
        | EmptyString => True
        end
  | EmptyString => True
  end.
Proof.
  intros Hs. destruct s as [|a [|b [|c s3]]]; [done|..].
  - split; [|done]. destruct (sp _) eqn:Hw; [|done]. by destruct (Hs _ EmptyString Hw).
  - split; [|split; [|done]].
    + destruct (sp (String a EmptyString)) eqn:Hw; [|done].
      by destruct (Hs _ (String b EmptyString) Hw).
    + destruct (sp (String a (String b EmptyString))) eqn:Hw; [|done].
      by destruct (Hs _ EmptyString Hw).
  - split; [|split].
    + destruct (sp (String a EmptyString)) eqn:Hw; [|done].
      by destruct (Hs _ (String b (String c s3)) Hw).
    + destruct (sp (String a (String b EmptyString))) eqn:Hw; [|done].
      by destruct (Hs _ (String c s3) Hw).
    + destruct (sp (String a (String b (String c EmptyString)))) eqn:Hw; [|done].
      by destruct (Hs _ s3 Hw).
Qed.

Lemma lstrip_of_id (s : string) :
  (∀ w r, sp w = true → s ≠ w +:+ r) → Str.lstrip_of sp s = s.
Proof.
  intros Hs%unstarted_tests. destruct s as [|a [|b [|c s3]]]; [done|..];
    cbn [Str.lstrip_of].
  - by destruct Hs as [-> _].
  - by destruct Hs as (-> & -> & _).
  - by destruct Hs as (-> & -> & ->).
Qed.

Lemma lstrip_of_unstarted (s w r : string) :
  sp w = true → Str.lstrip_of sp s ≠ w +:+ r.
Proof.
  intros Hw. revert r.
  assert (∀ n s, (String.length s ≤ n)%nat → ∀ r, Str.lstrip_of sp s ≠ w +:+ r) as Hall.
  { clear s. induction n as [|n IH]; intros s Hn r.
    { destruct s; [|cbn in Hn; lia]. cbn. intros Hr.
      apply (character_nonempty w Hw). by destruct w. }
    destruct s as [|a s1].
    { cbn. intros Hr. apply (character_nonempty w Hw). by destruct w. }
    cbn in Hn. cbn [Str.lstrip_of].
    destruct (sp (String a EmptyString)) eqn:Ha; [apply IH; lia|].
    destruct s1 as [|b s2].
    { destruct (character_shape w Hw)
        as [(x & -> & _)|[(x & y & -> & _)|(x & y & z & -> & _)]]; cbn; [|done..].
      intros [= <- _]. congruence. }
    cbn in Hn. destruct (sp (String a (String b EmptyString))) eqn:Hab; [apply IH; lia|].
    destruct s2 as [|c s3].
    { destruct (character_shape w Hw)
        as [(x & -> & _)|[(x & y & -> & _)|(x & y & z & -> & _)]]; cbn; [| |done].
      - intros [= <- _]. congruence.
      - intros [= <- <- _]. congruence. }
    cbn in Hn.
    destruct (sp (String a (String b (String c EmptyString)))) eqn:Habc; [apply IH; lia|].
    destruct (character_shape w Hw)
      as [(x & -> & _)|[(x & y & -> & _)|(x & y & z & -> & _)]]; cbn.
    - intros [= <- _]. congruence.
    - intros [= <- <- _]. congruence.
    - intros [= <- <- <- _]. congruence. }
  by apply (Hall (String.length s)).
Qed.

Lemma lstrip_of_lead (lead rest : string) :
  Str.lstrip_of sp lead = EmptyString →
  Str.lstrip_of sp (lead +:+ rest) = Str.lstrip_of sp rest.
Proof.
  assert (∀ n l, (String.length l ≤ n)%nat → Str.lstrip_of sp l = EmptyString →
            Str.lstrip_of sp (l +:+ rest) = Str.lstrip_of sp rest) as Hall.
  { induction n as [|n IH]; intros l Hn Hl.
    { by destruct l; [|cbn in Hn; lia]. }
    destruct l as [|a l1]; [done|]. cbn in Hn.
    cbn [Str.lstrip_of] in Hl.
    destruct (sp (String a EmptyString)) eqn:Ha.
    { change (String a l1 +:+ rest) with (String a EmptyString +:+ (l1 +:+ rest)).
      rewrite (lstrip_of_character _ _ Ha). apply IH; [lia|done]. }
    destruct l1 as [|b l2]; [done|]. cbn in Hn.
    destruct (sp (String a (String b EmptyString))) eqn:Hab.
    { change (String a (String b l2) +:+ rest)
        with (String a (String b EmptyString) +:+ (l2 +:+ rest)).
      rewrite (lstrip_of_character _ _ Hab). apply IH; [lia|done]. }
    destruct l2 as [|c l3]; [done|]. cbn in Hn.
    destruct (sp (String a (String b (String c EmptyString)))) eqn:Habc; [|done].
    change (String a (String b (String c l3)) +:+ rest)
      with (String a (String b (String c EmptyString)) +:+ (l3 +:+ rest)).
    rewrite (lstrip_of_character _ _ Habc). apply IH; [lia|done]. }
  intros Hlead. by apply (Hall (String.length lead)).
Qed.

Lemma lstrip_of_app (lead rest : string) :
  Str.lstrip_of sp lead = EmptyString →
  (∀ w r, sp w = true → rest ≠ w +:+ r) →
  Str.lstrip_of sp (lead +:+ rest) = rest.
Proof.
  intros Hlead Hrest. rewrite (lstrip_of_lead _ _ Hlead). by apply lstrip_of_id.
Qed.

(** A string of characters of [f] starts with an ASCII code unit or
    with the first code unit of a longer character. *)
Lemma lstrip_of_first (b : ascii) (r : string) :
  Str.lstrip_of sp (String b r) = EmptyString →
  (Str.byte b < 128 ∨ 194 ≤ Str.byte b)%N.
Proof.
  cbn [Str.lstrip_of]. destruct (sp (String b EmptyString)) eqn:Hb.
  { apply character_1 in Hb as [? _]. intros _. by left. }
  destruct r as [|c r2]; [done|].
  destruct (sp (String b (String c EmptyString))) eqn:Hbc.
  { apply character_2 in Hbc as [? _]. intros _. right. lia. }
  destruct r2 as [|d r3]; [done|].
  destruct (sp (String b (String c (String d EmptyString)))) eqn:Hbcd; [|done].
  apply character_3 in Hbcd as [? _]. intros _. right. lia.
Qed.

(** A text other than the empty one that starts with no character of
    [f] does not start with one either when characters of [f] follow
    it. *)
Lemma unstarted_app (t trail : string) :
  t ≠ EmptyString →
  (∀ w r, sp w = true → t ≠ w +:+ r) →
  Str.lstrip_of sp trail = EmptyString →
  ∀ w r, sp w = true → t +:+ trail ≠ w +:+ r.
Proof.
  intros Hne Hstart Htrail w r Hw Heq.
  assert (∀ b x, trail = String b x → (128 ≤ Str.byte b < 192)%N → False) as Hcont.
  { intros b x -> Hb. apply lstrip_of_first in Htrail. lia. }
  destruct (character_shape w Hw)
    as [(a & -> & _)|[(a & b & -> & _ & Hb)|(a & b & c & -> & _ & Hb & Hc)]].
  - destruct t as [|x t]; [done|]. cbn in Heq. injection Heq as -> _.
    by apply (Hstart _ t Hw).
  - destruct t as [|x [|y t]]; [done| |]; cbn in Heq.
    + injection Heq as -> Htr. by apply (Hcont b r).
    + injection Heq as -> -> _. by apply (Hstart _ t Hw).
  - destruct t as [|x [|y [|z t]]]; [done| | |]; cbn in Heq.
    + injection Heq as -> Htr. by apply (Hcont b (String c r)).
    + injection Heq as -> -> Htr. by apply (Hcont c r).
    + injection Heq as -> -> -> _. by apply (Hstart _ t Hw).
Qed.

(** *** [rstrip_of] *)

Lemma rstrip_of_split (s : string) :
  ∃ r, s = Str.rstrip_of sp s +:+ r ∧ Str.lstrip_of sp r = EmptyString.
Proof.
  induction s as [|a s (r & Hs & Hr)]; [by exists EmptyString|].
  cbn [Str.rstrip_of]. destruct (sp (String a (Str.rstrip_of sp s))) eqn:Ha.
  - exists (String a s). split; [done|]. rewrite Hs at 1.
    change (String a (Str.rstrip_of sp s +:+ r))
      with (String a (Str.rstrip_of sp s) +:+ r).
    by rewrite (lstrip_of_character _ _ Ha).
  - exists r. split; [|done]. cbn. by rewrite <- Hs.
Qed.

Lemma rstrip_of_unended (s w r : string) :
  sp w = true → Str.rstrip_of sp s ≠ r +:+ w.
Proof.
  intros Hw. revert r. induction s as [|a s IH]; intros r.
  - cbn. intros Hr. apply (character_nonempty w Hw). by destruct r, w.
  - cbn [Str.rstrip_of]. destruct (sp (String a (Str.rstrip_of sp s))) eqn:Ha.
    + intros Hr. apply (character_nonempty w Hw). by destruct r, w.
    + destruct r as [|x r]; cbn.
      * intros <-. congruence.
      * intros [= _ Hs]. by apply (IH r).
Qed.

(** A string of characters of [f] only is removed whole from either
    end. *)
Lemma rstrip_of_all (t : string) :
  Str.lstrip_of sp t = EmptyString → Str.rstrip_of sp t = EmptyString.
Proof.
  assert (∀ n t, (String.length t ≤ n)%nat → Str.lstrip_of sp t = EmptyString →
            Str.rstrip_of sp t = EmptyString) as Hall.
  { clear t. induction n as [|n IH]; intros t Hn Ht.
    { destruct t; [done|cbn in Hn; lia]. }
    destruct t as [|a t1]; [done|]. cbn in Hn. cbn [Str.lstrip_of] in Ht.
    destruct (sp (String a EmptyString)) eqn:Ha.
    { cbn [Str.rstrip_of]. rewrite (IH t1); [by rewrite Ha|lia|done]. }
    destruct t1 as [|b t2]; [done|]. cbn in Hn.
    destruct (sp (String a (String b EmptyString))) eqn:Hab.
    { destruct (character_2 a b Hab) as [_ Hb].
      cbn [Str.rstrip_of]. rewrite (IH t2); [|lia|done].
      rewrite (not_character_1 b) by lia. by rewrite Hab. }
    destruct t2 as [|c t3]; [done|]. cbn in Hn.
    destruct (sp (String a (String b (String c EmptyString)))) eqn:Habc; [|done].
    destruct (character_3 a b c Habc) as (_ & Hb & Hc).
    cbn [Str.rstrip_of]. rewrite (IH t3); [|lia|done].
    rewrite (not_character_1 c) by lia. rewrite (not_character_2 b c) by lia.
    by rewrite Habc. }
  by apply (Hall (String.length t)).
Qed.

Lemma rstrip_of_app (body trail : string) :
  (∀ w r, sp w = true → body ≠ r +:+ w) →
  Str.lstrip_of sp trail = EmptyString →
  Str.rstrip_of sp (body +:+ trail) = body.
Proof.
  intros Hbody Htrail. induction body as [|a body IH]; [by apply rstrip_of_all|].
  cbn [String.append Str.rstrip_of]. rewrite IH.
  - destruct (sp (String a body)) eqn:Ha; [|done].
    by destruct (Hbody _ EmptyString Ha).
  - intros w r Hw ->. by apply (Hbody w (String a r) Hw).
Qed.

Lemma rstrip_of_id (s : string) :
  (∀ w r, sp w = true → s ≠ r +:+ w) → Str.rstrip_of sp s = s.
Proof.
  intros Hs. rewrite <- (app_empty_r s) at 1. by apply rstrip_of_app.
Qed.

Lemma rstrip_of_unstarted (s : string) :
  (∀ w r, sp w = true → s ≠ w +:+ r) →
  ∀ w r, sp w = true → Str.rstrip_of sp s ≠ w +:+ r.
Proof.
  intros Hs w r Hw Hr. destruct (rstrip_of_split s) as (t & Ht & _).
  apply (Hs w (r +:+ t) Hw). rewrite Ht at 1. by rewrite Hr, app_assoc_str.
Qed.

(** *** Strings whose first or last code unit is ASCII *)

Lemma ascii_first_unstarted (a : ascii) (s w r : string) :
  (Str.byte a < 128)%N → f (Str.byte a) = false →
  sp w = true → String a s ≠ w +:+ r.
Proof.
  intros Ha Hf Hw.
  destruct (character_shape w Hw)
    as [(x & -> & _ & Hx)|[(x & y & -> & Hx & _)|(x & y & z & -> & Hx & _)]]; cbn.
  - intros [= <- _]. congruence.
  - intros [= <- _]. lia.
  - intros [= <- _]. lia.
Qed.

Lemma ascii_last_unended (x : ascii) (s w r : string) :
  Str.last s = Some x → (Str.byte x < 128)%N → f (Str.byte x) = false →
  sp w = true → s ≠ r +:+ w.
Proof.
  intros Hlast Hx Hf Hw ->. rewrite last_app in Hlast by by apply character_nonempty.
  destruct (character_shape w Hw)
    as [(a & -> & _ & Ha)|[(a & b & -> & _ & Hb)|(a & b & c & -> & _ & _ & Hc)]];
    cbn in Hlast; injection Hlast as <-; [congruence|lia..].
Qed.

End characters.

(** *** [strip] *)

Lemma lstrip_eq (s : string) :
  Str.lstrip s = Str.lstrip_of (Str.character Str.whitespace) s.
Proof. reflexivity. Qed.

Lemma rstrip_eq (s : string) :
  Str.rstrip s = Str.rstrip_of (Str.character Str.whitespace) s.
Proof. reflexivity. Qed.

Lemma all_space_lstrip (s : string) :
  Str.all_space s = true ↔ Str.lstrip s = EmptyString.
Proof. unfold Str.all_space. by destruct (Str.lstrip s). Qed.

(** [strip] removes white space at both ends and nothing else. *)
Lemma strip_spec (s : string) : trim_of s (Str.strip s).
Proof.
  destruct (lstrip_of_split Str.whitespace s) as (l & Hl & Hls).
  destruct (rstrip_of_split Str.whitespace (Str.lstrip s)) as (r & Hr & Hrs).
  exists l, r. unfold Str.strip. split; [|split; [|split; [|split]]].
  - rewrite Hl at 1. f_equal. exact Hr.
  - by apply all_space_lstrip.
  - by apply all_space_lstrip.
  - apply (rstrip_of_unstarted Str.whitespace). intros w x.
    apply (lstrip_of_unstarted Str.whitespace).
  - intros w x. apply (rstrip_of_unended Str.whitespace).
Qed.

(** A trimmed text between white space is what [strip] yields. *)
Lemma strip_app (lead t trail : string) :
  Str.all_space lead = true → Str.all_space trail = true → trimmed t →
  Str.strip (lead +:+ t +:+ trail) = t.
Proof.
  intros Hl%all_space_lstrip Ht%all_space_lstrip [Hstart Hend].
  unfold Str.strip. rewrite lstrip_eq, rstrip_eq in *.
  destruct t as [|x t].
  - cbn [String.append]. rewrite (lstrip_of_lead _ lead _ Hl), Ht. done.
  - rewrite (lstrip_of_app _ lead _ Hl).
    + by apply rstrip_of_app.
    + by apply unstarted_app.
Qed.

Lemma strip_trimmed (t : string) : trimmed t → Str.strip t = t.
Proof.
  intros Htrim. rewrite <- (app_empty_r t) at 1.
  by apply (strip_app EmptyString t EmptyString).
Qed.

(** [strip] yields the one trimmed text that the string surrounds with
    white space. *)
Lemma strip_unique (s t : string) : trim_of s t → Str.strip s = t.
Proof.
  intros (lead & trail & -> & Hl & Ht & Htrim). by apply strip_app.
Qed.

(** ** Decimal numbers *)

Lemma digit_char (d : N) :
  (d < 10)%N →
  Ascii.is_nat (pretty_N_char d) = Some (N.to_nat d)
  ∧ (Str.byte (pretty_N_char d) < 128)%N
  ∧ Str.whitespace (Str.byte (pretty_N_char d)) = false
  ∧ Str.int_whitespace (Str.byte (pretty_N_char d)) = false
  ∧ plain.digit (pretty_N_char d) = true
  ∧ ((0 < d)%N → plain.nonzero_digit (pretty_N_char d) = true)
  ∧ pretty_N_char d ≠ "+"%char ∧ pretty_N_char d ≠ "-"%char.
Proof.
  intros Hd.
  assert (d = 0 ∨ d = 1 ∨ d = 2 ∨ d = 3 ∨ d = 4 ∨ d = 5 ∨ d = 6 ∨ d = 7 ∨ d = 8 ∨ d = 9)%N
    as Hcases by lia.
  repeat (destruct Hcases as [->|Hcases]); try subst d; repeat split; done.
Qed.

(** The digits of a positive number start with a digit other than 0. *)
Lemma pretty_N_go_first (x : N) (s : string) :
  (0 < x)%N → ∃ d r, (0 < d < 10)%N ∧ pretty_N_go x s = String (pretty_N_char d) r.
Proof.
  revert s. induction (N.lt_wf_0 x) as [x _ IH]; intros s Hx.
  rewrite pretty_N_go_step by done.
  destruct (decide (x `div` 10 = 0)%N) as [Hq|Hq].
  - rewrite Hq, pretty_N_go_0. exists (x `mod` 10)%N, s. split; [|done].
    pose proof (N.mod_lt x 10). pose proof (N.div_mod x 10). lia.
  - apply IH; [by apply N.div_lt|by apply N.neq_0_lt_0].
Qed.

Lemma pretty_N_go_last (x : N) (s : string) :
  s ≠ EmptyString → Str.last (pretty_N_go x s) = Str.last s.
Proof.
  revert s. induction (N.lt_wf_0 x) as [x _ IH]; intros s Hs.
  destruct (decide (x = 0)%N) as [->|Hx]; [by rewrite pretty_N_go_0|].
  rewrite pretty_N_go_step by lia. rewrite IH; [|apply N.div_lt; lia|done].
  by destruct s.
Qed.

Lemma pretty_N_go_digits (x : N) (s : string) :
  plain.all_digits s = true → plain.all_digits (pretty_N_go x s) = true.
Proof.
  revert s. induction (N.lt_wf_0 x) as [x _ IH]; intros s Hs.
  destruct (decide (x = 0)%N) as [->|Hx]; [by rewrite pretty_N_go_0|].
  rewrite pretty_N_go_step by lia. apply IH; [apply N.div_lt; lia|].
  cbn. rewrite Hs. destruct (digit_char (x `mod` 10)%N) as (_ & _ & _ & _ & -> & _); [|done].
  by apply N.mod_lt.
Qed.

(** Reading the digits of a number back gives the number. *)
Lemma digits_pretty_N_go (x : N) :
  (0 < x)%N →
  ∃ k, ∀ acc b s,
    Str.digits acc b (pretty_N_go x s) = Str.digits (acc * k + Z.of_N x) true s.
Proof.
  induction (N.lt_wf_0 x) as [x _ IH]; intros Hx.
  assert (x `mod` 10 < 10)%N as Hm by (by apply N.mod_lt).
  destruct (digit_char _ Hm) as (Hd & _).
  destruct (decide (x `div` 10 = 0)%N) as [Hq|Hq].
  - exists 10. intros acc b s. rewrite pretty_N_go_step, Hq, pretty_N_go_0 by done.
    cbn. rewrite Hd. f_equal. rewrite N_nat_Z.
    pose proof (N.div_mod x 10). lia.
  - destruct (IH (x `div` 10)%N) as [k Hk]; [by apply N.div_lt|by apply N.neq_0_lt_0|].
    exists (10 * k). intros acc b s. rewrite pretty_N_go_step, Hk by done.
    cbn. rewrite Hd. f_equal. rewrite N_nat_Z.
    pose proof (N.div_mod x 10). lia.
Qed.

Lemma pretty_pos_facts (p : positive) :
  ∃ d r d', (0 < d < 10)%N ∧ (d' < 10)%N
    ∧ pretty p = String (pretty_N_char d) r
    ∧ plain.all_digits r = true
    ∧ Str.last (pretty p) = Some (pretty_N_char d')
    ∧ Str.digits 0 false (pretty p) = Some (Zpos p).
Proof.
  unfold pretty, pretty_positive, pretty, pretty_N.
  rewrite decide_False by done.
  destruct (pretty_N_go_first (N.pos p) EmptyString) as (d & r & Hd & Hr); [lia|].
  exists d, r, (N.pos p `mod` 10)%N. split; [done|]. split; [by apply N.mod_lt|].
  split; [done|]. split; [|split].
  - pose proof (pretty_N_go_digits (N.pos p) EmptyString eq_refl) as Hall.
    rewrite Hr in Hall. cbn in Hall. by apply andb_true_iff in Hall as [_ ?].
  - rewrite pretty_N_go_step by lia. by rewrite pretty_N_go_last.
  - destruct (digits_pretty_N_go (N.pos p)) as [k Hk]; [lia|]. by rewrite Hk.
Qed.

(** The decimal form of an integer starts and ends with no character
    that [strip] or [int] removes. *)
Lemma of_int_unpadded (f : N → bool) (n : Z) :
  (f = Str.whitespace ∨ f = Str.int_whitespace) →
  (∀ w r, Str.character f w = true → Str.of_int n ≠ w +:+ r)
  ∧ (∀ w r, Str.character f w = true → Str.of_int n ≠ r +:+ w).
Proof.
  intros Hf.
  assert (∀ d, (d < 10)%N → f (Str.byte (pretty_N_char d)) = false) as Hdigit.
  { intros d Hd. destruct (digit_char d Hd) as (_ & _ & Hw & Hi & _).
    by destruct Hf as [->| ->]. }
  unfold Str.of_int, pretty, pretty_Z. destruct n as [|p|p].
  - split; intros w r Hw.
    + apply (ascii_first_unstarted f "0"%char); [done|by destruct Hf as [->| ->]|done].
    + apply (ascii_last_unended f "0"%char); [done|done|by destruct Hf as [->| ->]|done].
  - destruct (pretty_pos_facts p) as (d & r & d' & Hd & Hd' & Hr & _ & Hlast & _).
    split; intros w x Hw.
    + rewrite Hr. apply (ascii_first_unstarted f); [|apply Hdigit; lia|done].
      apply digit_char. lia.
    + apply (ascii_last_unended f _ _ _ _ Hlast); [|by apply Hdigit|done].
      by apply digit_char.
  - destruct (pretty_pos_facts p) as (d & r & d' & Hd & Hd' & Hr & _ & Hlast & _).
    split; intros w x Hw.
    + apply (ascii_first_unstarted f "-"%char); [done|by destruct Hf as [->| ->]|done].
    + apply (ascii_last_unended f (pretty_N_char d')); [|by apply digit_char|by apply Hdigit|done].
      cbn [String.append Str.last]. rewrite Hr in Hlast |- *. exact Hlast.
Qed.

(** [int(str(n)) = n] *)
Lemma to_int_of_int (n : Z) : Str.to_int (Str.of_int n) = Some n.
Proof.
  destruct (of_int_unpadded Str.int_whitespace n) as [Hstart Hend]; [by right|].
  unfold Str.to_int.
  assert (Str.lstrip_of Str.int_isspace (Str.of_int n) = Str.of_int n) as ->
    by exact (lstrip_of_id Str.int_whitespace _ Hstart).
  assert (Str.rstrip_of Str.int_isspace (Str.of_int n) = Str.of_int n) as ->
    by exact (rstrip_of_id Str.int_whitespace _ Hend).
  unfold Str.of_int, pretty, pretty_Z. destruct n as [|p|p]; [done| |].
  - destruct (pretty_pos_facts p) as (d & r & d' & Hd & _ & Hr & _ & _ & Hdig).
    destruct (digit_char d) as (_ & _ & _ & _ & _ & _ & Hplus & Hminus); [lia|].
    rewrite <- Hdig. rewrite Hr in *.
    destruct (pretty_N_char d) as [[] [] [] [] [] [] [] []]; done.
  - destruct (pretty_pos_facts p) as (d & r & d' & Hd & _ & Hr & _ & _ & Hdig).
    cbn. by rewrite Hdig.
Qed.

(** The decimal form of an integer is a plain decimal number. *)
Lemma of_int_plain (n : Z) : plain.decimal (Str.of_int n) = true.
Proof.
  unfold Str.of_int, pretty, pretty_Z. destruct n as [|p|p]; [done| |].
  - destruct (pretty_pos_facts p) as (d & r & d' & Hd & _ & Hr & Hall & _).
    destruct (digit_char d) as (_ & _ & _ & _ & _ & Hnz & _ & Hminus); [lia|].
    rewrite Hr. unfold plain.decimal.
    assert (plain.nonzero_digit (pretty_N_char d) && plain.all_digits r = true) as Hok.
    { rewrite Hnz by lia. by rewrite Hall. }
    destruct (pretty_N_char d) as [[] [] [] [] [] [] [] []]; try done.
  - destruct (pretty_pos_facts p) as (d & r & d' & Hd & _ & Hr & Hall & _).
    destruct (digit_char d) as (_ & _ & _ & _ & _ & Hnz & _); [lia|].
    cbn [String.append]. rewrite Hr. unfold plain.decimal.
    rewrite Hnz by lia. by rewrite Hall.
Qed.

Lemma of_int_strip (n : Z) : Str.strip (Str.of_int n) = Str.of_int n.
Proof. apply strip_trimmed. apply (of_int_unpadded Str.whitespace). by left. Qed.

(** * Properties of the launchers *)

Ltac io_unfold :=
  unfold mbind, mret, io_bind, io_ret, io.bind, io.ret, io.try_except,
    io.is_file, io.print, io.eprint, io.sys_exit, io.raise,
    io.subprocess_run, io.strip_text in *.

(** Membership of a given word in a given list, by evaluation. *)
Ltac concrete_elem := apply (bool_decide_unpack _); vm_compute; exact I.

Section properties.
Context `{PyLib}.
Import io.

Lemma valid_chat (w : World) c a :
  valid w (ChatServer c a) ↔ regular_file w (chat.model a) = true.
Proof.
  unfold valid. cbn. rewrite Forall_singleton. done.
Qed.

Lemma valid_ocr (w : World) c a :
  valid w (OcrCli c a) ↔
    regular_file w (ocr.model a) = true
    ∧ regular_file w (ocr.mmproj a) = true
    ∧ regular_file w (ocr.image a) = true.
Proof.
  unfold valid. cbn. rewrite !Forall_cons, Forall_nil. cbn. tauto.
Qed.

(** What a valid configuration makes of [launch]: the checks pass and the
    rest depends on the child alone. *)
Lemma chat_launch_valid (w : World) (env : environ) c a :
  regular_file w (chat.model a) = true →
  chat.launch env c a w start =
    let command := chat.command c a in
    let out := "Starting server: " +:+ Str.join " " command +:+ Str.nl in
    match execute w env command with
    | NoSuchExecutable =>
        (SystemExit 1,
         Streams out
           ("Error: '" +:+ chat.LLAMA_SERVER_EXECUTABLE c +:+ "' command not found." +:+ Str.nl
            +:+ "Please ensure llama.cpp is built and its binaries are in your PATH." +:+ Str.nl)
           [command])
    | SpawnError m =>
        (SystemExit 1, Streams out ("An error occurred: " +:+ m +:+ Str.nl) [command])
    | Terminated rc _ _ =>
        (SystemExit rc,
         Streams (out +:+ Str.nl +:+ "Server exited with code: " +:+ Str.of_int rc +:+ Str.nl)
           EmptyString [command])
    end.
Proof.
  intros Hm. unfold chat.launch. io_unfold. rewrite Hm. cbn.
  destruct (execute w env (chat.command c a)) as [|m|rc o e]; cbn.
  - by rewrite ?app_assoc_str.
  - by rewrite ?app_assoc_str.
  - by rewrite ?app_assoc_str.
Qed.

Lemma ocr_launch_valid (w : World) (env : environ) c a :
  regular_file w (ocr.model a) = true →
  regular_file w (ocr.mmproj a) = true →
  regular_file w (ocr.image a) = true →
  ocr.launch env c a w start =
    let command := ocr.command c a in
    match execute w env command with
    | NoSuchExecutable =>
        (SystemExit 1,
         Streams EmptyString
           ("Error: '" +:+ ocr.LLAMA_CLI_EXECUTABLE c +:+ "' command not found." +:+ Str.nl
            +:+ "Please ensure llama.cpp is built and its binaries are in your PATH." +:+ Str.nl)
           [command])
    | SpawnError m => unexpected command m
    | Terminated rc o e =>
        match translate_newlines w o with
        | inl m => unexpected command m
        | inr out =>
            match translate_newlines w e with
            | inl m => unexpected command m
            | inr err =>
                if rc =? 0 then
                  (Return tt, Streams (Str.strip out +:+ Str.nl) EmptyString [command])
                else
                  (SystemExit rc,
                   Streams EmptyString
                     ("Error: Command failed with exit code " +:+ Str.of_int rc +:+ Str.nl
                      +:+ Str.nl +:+ "--- stderr ---" +:+ Str.nl
                      +:+ Str.strip err +:+ Str.nl
                      +:+ Str.nl +:+ "--- stdout ---" +:+ Str.nl
                      +:+ Str.strip out +:+ Str.nl)
                     [command])
            end
        end
    end.
Proof.
  intros Hm Hp Hi. unfold ocr.launch, unexpected. io_unfold. rewrite Hm, Hp, Hi.
  cbv zeta. cbn [negb start stdout stderr spawned app].
  destruct (execute w env (ocr.command c a)) as [|m|rc o e].
  - cbn. by rewrite ?app_assoc_str.
  - cbn. by rewrite ?app_assoc_str.
  - destruct (translate_newlines w o) as [m|out]; [cbn; by rewrite ?app_assoc_str|].
    destruct (translate_newlines w e) as [m|err]; [cbn; by rewrite ?app_assoc_str|].
    destruct (rc =? 0); cbn; by rewrite ?app_assoc_str.
Qed.

Lemma watch_main_runs (w : World) (env : environ) :
  watch_gpu.main env w start =
    let command := ["watch"; "-n"; "1"; "nvidia-smi"] in
    let out := "Running: watch -n 1 nvidia-smi" +:+ Str.nl in
    match execute w env command with
    | NoSuchExecutable =>
        (SystemExit 1,
         Streams out
           ("Error: 'watch' or 'nvidia-smi' command not found." +:+ Str.nl
            +:+ "Please ensure 'watch' and NVIDIA drivers/tools are installed and in your PATH."
            +:+ Str.nl)
           [command])
    | SpawnError m =>
        (SystemExit 1, Streams out ("An error occurred: " +:+ m +:+ Str.nl) [command])
    | Terminated rc _ _ =>
        (SystemExit rc,
         Streams (out +:+ Str.nl +:+ "Watch exited with code: " +:+ Str.of_int rc +:+ Str.nl)
           EmptyString [command])
    end.
Proof.
  unfold watch_gpu.main. io_unfold. cbn.
  destruct (execute w env _) as [|m|rc o e]; cbn; by rewrite ?app_assoc_str.
Qed.

(** ** C1 *)

(** C1: when some required file (the model file; for the OCR launchers
    also the mmproj file and the image file) is not a regular file, the
    launcher writes to standard error the message that names the first
    such path, exits with status 1 and spawns nothing. *)
Theorem missing_file_stops_launch (w : World) (env : environ) (cfg : LaunchConfig) :
  Exists (λ lp, regular_file w lp.2 = false) (required_files cfg) →
  ∃ before label p after,
    required_files cfg = before ++ (label, p) :: after
    ∧ Forall (λ lp, regular_file w lp.2 = true) before
    ∧ regular_file w p = false
    ∧ launch env cfg w start =
        (SystemExit 1,
         Streams EmptyString
           ("Error: " +:+ label +:+ " file not found at " +:+ str_of_path p +:+ Str.nl)
           [])
    ∧ exit_status (launch env cfg w start).1 = 1.
Proof.
  intros Hex. destruct cfg as [c a|c a|]; cbn in Hex.
  - apply Exists_cons in Hex as [Hm|Hex]; [|by apply Exists_nil in Hex].
    cbn in Hm. exists [], "Model", (chat.model a), [].
    assert (launch env (ChatServer c a) w start =
      (SystemExit 1,
       Streams EmptyString
         ("Error: Model file not found at " +:+ str_of_path (chat.model a) +:+ Str.nl) [])) as E.
    { cbn. unfold chat.launch. io_unfold. rewrite Hm. cbn. by rewrite ?app_assoc_str. }
    rewrite E. by repeat split.
  - destruct (regular_file w (ocr.model a)) eqn:Hm;
      [destruct (regular_file w (ocr.mmproj a)) eqn:Hp;
        [destruct (regular_file w (ocr.image a)) eqn:Hi|]|].
    + repeat (apply Exists_cons in Hex as [Hex|Hex]; [cbn in Hex; congruence|]).
      by apply Exists_nil in Hex.
    + exists [("Model", ocr.model a); ("MMPROJ", ocr.mmproj a)], "Image", (ocr.image a), [].
      assert (launch env (OcrCli c a) w start =
        (SystemExit 1,
         Streams EmptyString
           ("Error: Image file not found at " +:+ str_of_path (ocr.image a) +:+ Str.nl) [])) as E.
      { cbn. unfold ocr.launch. io_unfold. rewrite Hm, Hp, Hi. cbn. by rewrite ?app_assoc_str. }
      rewrite E. repeat split; try done. by repeat constructor.
    + exists [("Model", ocr.model a)], "MMPROJ", (ocr.mmproj a), [("Image", ocr.image a)].
      assert (launch env (OcrCli c a) w start =
        (SystemExit 1,
         Streams EmptyString
           ("Error: MMPROJ file not found at " +:+ str_of_path (ocr.mmproj a) +:+ Str.nl) [])) as E.
      { cbn. unfold ocr.launch. io_unfold. rewrite Hm, Hp. cbn. by rewrite ?app_assoc_str. }
      rewrite E. repeat split; try done. by repeat constructor.
    + exists [], "Model", (ocr.model a),
        [("MMPROJ", ocr.mmproj a); ("Image", ocr.image a)].
      assert (launch env (OcrCli c a) w start =
        (SystemExit 1,
         Streams EmptyString
           ("Error: Model file not found at " +:+ str_of_path (ocr.model a) +:+ Str.nl) [])) as E.
      { cbn. unfold ocr.launch. io_unfold. rewrite Hm. cbn. by rewrite ?app_assoc_str. }
      rewrite E. by repeat split.
  - by apply Exists_nil in Hex.
Qed.

(** ** C2 *)

Lemma toggle_part_eq (cfg : LaunchConfig) :
  toggle_part cfg =
    (if flash_attention cfg then ["-fa"] else [])
    ++ (if memory_lock cfg then ["--mlock"] else [])
    ++ match cfg with GpuWatch => ["nvidia-smi"] | _ => [] end.
Proof.
  destruct cfg as [c a|c a|]; unfold toggle_part; cbn; [| |done].
  - unfold chat.command. by destruct (chat.flash_attn a), (chat.mlock a).
  - unfold ocr.command. by destruct (ocr.DEFAULT_FLASH_ATTN c), (ocr.DEFAULT_MLOCK c).
Qed.

(** The flags of the valued options, in the order of the argument
    vector. *)
Lemma valued_flags (cfg : LaunchConfig) :
  (valued_options cfg).*1 =
    match cfg with
    | ChatServer _ _ => ["-m"; "--port"; "-ngl"; "-c"; "-b"; "-ub"; "-ctk"; "-ctv"]
    | OcrCli _ _ =>
        ["-m"; "--mmproj"; "--image"; "-p"; "-ngl"; "--threads"; "-c"; "-n"; "--temp";
         "-ctk"; "-ctv"]
    | GpuWatch => ["-n"]
    end.
Proof. by destruct cfg. Qed.

(** The shape of the argument vector. *)
Lemma argv_shape (cfg : LaunchConfig) :
  argv cfg =
    executable cfg :: concat ((λ fv, [fv.1; fv.2]) <$> valued_options cfg) ++ toggle_part cfg.
Proof.
  destruct cfg as [c a|c a|]; unfold toggle_part; cbn; [| |done].
  - unfold chat.command. by destruct (chat.flash_attn a), (chat.mlock a).
  - unfold ocr.command. by destruct (ocr.DEFAULT_FLASH_ATTN c), (ocr.DEFAULT_MLOCK c).
Qed.


(** The flag of the [i]-th valued option is at position [1 + 2 i] of
    the argument vector, the word that renders its value right after
    it. *)
Lemma argv_positions (cfg : LaunchConfig) (i : nat) (flag word : string) :
  valued_options cfg !! i = Some (flag, word) →
  argv cfg !! (1 + 2 * i)%nat = Some flag ∧ argv cfg !! (2 + 2 * i)%nat = Some word.
Proof.
  intros Hi. destruct cfg as [c a|c a|]; cbn in Hi |- *.
  - unfold chat.command.
    do 8 (destruct i as [|i]; [injection Hi as <- <-;
      by destruct (chat.flash_attn a), (chat.mlock a)|]); done.
  - unfold ocr.command.
    do 11 (destruct i as [|i]; [injection Hi as <- <-;
      by destruct (ocr.DEFAULT_FLASH_ATTN c), (ocr.DEFAULT_MLOCK c)|]); done.
  - destruct i as [|i]; [by injection Hi as <- <-|done].
Qed.

(** The words that render the values are the string forms of the
    values of the configuration. *)
Lemma configured_flags (cfg : LaunchConfig) :
  (configured cfg).*1 = (valued_options cfg).*1.
Proof. by destruct cfg. Qed.

Lemma configured_length (cfg : LaunchConfig) :
  length (configured cfg) = length (valued_options cfg).
Proof. by destruct cfg. Qed.

Lemma configured_forms (cfg : LaunchConfig) (i : nat) (flag : string) (v : argparse.pyval) :
  configured cfg !! i = Some (flag, v) →
  ∃ word, valued_options cfg !! i = Some (flag, word) ∧ string_form v word.
Proof.
  assert (∀ n, string_form (argparse.VInt n) (Str.of_int n)) as Hint.
  { intros n. split; [apply of_int_plain|apply to_int_of_int]. }
  intros Hi. destruct cfg as [c a|c a|]; cbn in Hi.
  - do 8 (destruct i as [|i];
      [injection Hi as <- <-; eexists; split; [reflexivity|first [apply Hint|done]]|]); done.
  - do 11 (destruct i as [|i];
      [injection Hi as <- <-; eexists; split; [reflexivity|first [apply Hint|done]]|]); done.
  - destruct i as [|i]; [|done]. injection Hi as <- <-. by eexists.
Qed.

(** *** Counting the occurrences of a word *)

Lemma occurrences_cons (x y : string) (l : list string) :
  occurrences x (y :: l) = ((if bool_decide (y = x) then 1 else 0) + occurrences x l)%nat.
Proof.
  unfold occurrences. rewrite filter_cons. by destruct (decide (y = x)) as [->|Hy];
    [rewrite bool_decide_true by done|rewrite bool_decide_false by done].
Qed.

Lemma occurrences_app (x : string) (l1 l2 : list string) :
  occurrences x (l1 ++ l2) = (occurrences x l1 + occurrences x l2)%nat.
Proof. unfold occurrences. by rewrite filter_app, length_app. Qed.

Lemma occurrences_absent (x : string) (l : list string) :
  x ∉ l → occurrences x l = 0%nat.
Proof.
  induction l as [|y l IH]; [done|]. intros Hx. rewrite occurrences_cons.
  apply not_elem_of_cons in Hx as [Hy Hl]. rewrite bool_decide_false by done.
  by rewrite IH.
Qed.

Lemma occurrences_NoDup (x : string) (l : list string) :
  NoDup l → x ∈ l → occurrences x l = 1%nat.
Proof.
  induction 1 as [|y l Hy Hl IH]; [by intros ?%elem_of_nil|].
  rewrite occurrences_cons. intros [->|Hx]%elem_of_cons.
  - rewrite bool_decide_true by done. by rewrite occurrences_absent.
  - rewrite bool_decide_false by (intros ->; done). by rewrite IH.
Qed.

Lemma occurrences_pairs (x : string) (l : list (string * string)) :
  x ∉ l.*2 →
  occurrences x (concat ((λ fv, [fv.1; fv.2]) <$> l)) = occurrences x l.*1.
Proof.
  induction l as [|[f v] l IH]; [done|]. rewrite !fmap_cons.
  cbn [fst snd concat app]. intros [Hv Hl]%not_elem_of_cons.
  rewrite !occurrences_cons. rewrite (bool_decide_false (v = x)) by done.
  by rewrite IH.
Qed.

(** C2, as amended: the argument vector starts with the executable;
    every option that has a value is rendered, in the fixed order of the
    launcher (the model first), as its flag at position [1 + 2 i]
    followed by the string form of its value; after them come the flags
    of the toggles that are on. The flags are pairwise distinct, the
    positions of the flags are the same for every configuration of the
    launcher, and a flag occurs exactly once in the whole argument
    vector unless the executable or the word of a value spells that
    flag. *)
Theorem argv_flags_in_order (cfg : LaunchConfig) :
  argv cfg !! 0%nat = Some (executable cfg)
  ∧ (cfg = GpuWatch
     ∨ ∃ p, head (configured cfg) = Some ("-m", argparse.VPath p)
            ∧ ("Model", p) ∈ required_files cfg)
  ∧ (∀ (i : nat) flag v,
       configured cfg !! i = Some (flag, v) →
       argv cfg !! (1 + 2 * i)%nat = Some flag
       ∧ ∃ word, argv cfg !! (2 + 2 * i)%nat = Some word ∧ string_form v word)
  ∧ drop (1 + 2 * length (configured cfg)) (argv cfg) =
      (if flash_attention cfg then ["-fa"] else [])
      ++ (if memory_lock cfg then ["--mlock"] else [])
      ++ match cfg with GpuWatch => ["nvidia-smi"] | _ => [] end
  ∧ NoDup ((configured cfg).*1 ++ drop (1 + 2 * length (configured cfg)) (argv cfg))
  ∧ (∀ cfg' (i : nat),
       same_launcher cfg cfg' = true → (i < length (configured cfg))%nat →
       argv cfg' !! (1 + 2 * i)%nat = argv cfg !! (1 + 2 * i)%nat)
  ∧ (∀ flag,
       flag ∈ (configured cfg).*1 ++ drop (1 + 2 * length (configured cfg)) (argv cfg) →
       argv cfg !! 0%nat ≠ Some flag →
       (∀ i : nat, (i < length (configured cfg))%nat →
          argv cfg !! (2 + 2 * i)%nat ≠ Some flag) →
       occurrences flag (argv cfg) = 1%nat).
Proof.
  assert (drop (1 + 2 * length (configured cfg)) (argv cfg) = toggle_part cfg) as Hdrop.
  { unfold toggle_part, fixed_length. by rewrite configured_length. }
  assert (NoDup ((configured cfg).*1 ++ toggle_part cfg)) as Hnodup.
  { rewrite configured_flags, toggle_part_eq, valued_flags.
    destruct cfg as [c a|c a|]; cbn;
      [destruct (chat.flash_attn a), (chat.mlock a)
      |destruct (ocr.DEFAULT_FLASH_ATTN c), (ocr.DEFAULT_MLOCK c)|];
      cbn; apply (bool_decide_unpack _); by vm_compute. }
  rewrite Hdrop. split; [by rewrite argv_shape|].
  split; [|split; [|split; [|split; [|split]]]].
  - destruct cfg as [c a|c a|]; [right|right|by left].
    + exists (chat.model a). split; [done|]. cbn. by left.
    + exists (ocr.model a). split; [done|]. cbn. by left.
  - intros i flag v (word & Hi & Hform)%configured_forms.
    destruct (argv_positions cfg i flag word Hi) as [Hflag Hword].
    split; [done|]. by exists word.
  - apply toggle_part_eq.
  - done.
  - intros cfg' i Hsame Hi.
    assert ((valued_options cfg').*1 = (valued_options cfg).*1) as Hflags.
    { rewrite !valued_flags. by destruct cfg, cfg'. }
    rewrite configured_length in Hi.
    destruct (lookup_lt_is_Some_2 _ _ Hi) as [[flag word] Hlook].
    assert ((valued_options cfg').*1 !! i = Some flag) as Hlook'.
    { rewrite Hflags, list_lookup_fmap, Hlook. done. }
    rewrite list_lookup_fmap in Hlook'.
    destruct (valued_options cfg' !! i) as [[flag' word']|] eqn:Hi'; [|done].
    injection Hlook' as ->.
    destruct (argv_positions cfg i flag word Hlook) as [-> _].
    by destruct (argv_positions cfg' i flag word' Hi') as [-> _].
  - intros flag Hflag Hexe Hvalues.
    assert (flag ∉ (valued_options cfg).*2) as Hval.
    { intros Hin. apply list_elem_of_lookup_1 in Hin as [i Hin].
      rewrite list_lookup_fmap in Hin.
      destruct (valued_options cfg !! i) as [[f word]|] eqn:Hi; [|done].
      injection Hin as ->.
      destruct (argv_positions cfg i f flag Hi) as [_ Hword].
      apply (Hvalues i); [|done].
      rewrite configured_length. apply lookup_lt_is_Some_1. by eexists. }
    rewrite argv_shape in Hexe |- *. rewrite occurrences_cons.
    rewrite bool_decide_false by (intros Heq; apply Hexe; cbn; by rewrite Heq).
    rewrite occurrences_app, occurrences_pairs by done.
    rewrite <- occurrences_app, <- configured_flags.
    by apply occurrences_NoDup.
Qed.

(** ** C3 *)


(** ** C4, C5 and C10: capture mode *)

Lemma capture_mode_ocr (cfg : LaunchConfig) :
  capture_mode cfg = true → ∃ c a, cfg = OcrCli c a.
Proof. destruct cfg; try done. eauto. Qed.

Lemma translate_decoded (w : World) (data text : string) :
  decode w data = inr text →
  translate_newlines w data = inr (Str.replace_cr (Str.replace_crlf text)).
Proof. unfold translate_newlines. by intros ->. Qed.

Lemma translate_undecoded (w : World) (data m : string) :
  decode w data = inl m → translate_newlines w data = inl m.
Proof. unfold translate_newlines. by intros ->. Qed.

(** C4, as amended: in capture mode, when the child exits with status 0
    and what it wrote to its two streams is text in the encoding of the
    locale, its standard output being the text [S], the launcher prints
    [S], with every CR LF and every CR read as LF and then without its
    leading and trailing white space (followed by the newline of
    [print]), to its standard output and ends with status 0. *)
Theorem capture_success_prints_trimmed (w : World) (env : environ) (cfg : LaunchConfig)
    (out err S E : string) :
  capture_mode cfg = true →
  valid w cfg →
  execute w env (argv cfg) = Terminated 0 out err →
  decode w out = inr S →
  decode w err = inr E →
  ∃ t, trim_of (Str.replace_cr (Str.replace_crlf S)) t
    ∧ launch env cfg w start = (Return tt, Streams (t +:+ Str.nl) EmptyString [argv cfg])
    ∧ exit_status (launch env cfg w start).1 = 0.
Proof.
  intros [c [a ->]]%capture_mode_ocr Hv Hx Hout Herr.
  apply valid_ocr in Hv as (Hm & Hp & Hi). cbn in Hx.
  exists (Str.strip (Str.replace_cr (Str.replace_crlf S))). split; [apply strip_spec|].
  cbn. rewrite (ocr_launch_valid w env c a Hm Hp Hi). cbv zeta.
  by rewrite Hx, (translate_decoded _ _ _ Hout), (translate_decoded _ _ _ Herr).
Qed.

(** C5, as amended: in capture mode, when the child exits with a status
    [n] other than 0 and what it wrote to its two streams is text in
    the encoding of the locale, the launcher writes the captured
    standard error and the captured standard output of the child, each
    with CR LF and CR read as LF, without its leading and trailing white
    space and under a heading, to its standard error, writes nothing to
    its standard output, and exits with [n]. *)
Theorem capture_failure_relays (w : World) (env : environ) (cfg : LaunchConfig) (n : Z)
    (out err S E : string) :
  capture_mode cfg = true →
  valid w cfg →
  execute w env (argv cfg) = Terminated n out err →
  n ≠ 0 →
  decode w out = inr S →
  decode w err = inr E →
  ∃ e s, trim_of (Str.replace_cr (Str.replace_crlf E)) e
    ∧ trim_of (Str.replace_cr (Str.replace_crlf S)) s
    ∧ launch env cfg w start =
        (SystemExit n,
         Streams EmptyString
           ("Error: Command failed with exit code " +:+ Str.of_int n +:+ Str.nl
            +:+ Str.nl +:+ "--- stderr ---" +:+ Str.nl
            +:+ e +:+ Str.nl
            +:+ Str.nl +:+ "--- stdout ---" +:+ Str.nl
            +:+ s +:+ Str.nl)
           [argv cfg])
    ∧ (0 < n < 256 → exit_status (launch env cfg w start).1 = n).
Proof.
  intros [c [a ->]]%capture_mode_ocr Hv Hx Hn Hout Herr.
  apply valid_ocr in Hv as (Hm & Hp & Hi). cbn in Hx.
  exists (Str.strip (Str.replace_cr (Str.replace_crlf E))),
    (Str.strip (Str.replace_cr (Str.replace_crlf S))).
  do 2 (split; [apply strip_spec|]).
  cbn. rewrite (ocr_launch_valid w env c a Hm Hp Hi). cbv zeta.
  rewrite Hx, (translate_decoded _ _ _ Hout), (translate_decoded _ _ _ Herr).
  destruct (Z.eqb_spec n 0) as [|_]; [done|]. split; [done|].
  intros Hr. cbn. by rewrite Z.mod_small by lia.
Qed.

(** C10, as amended: in capture mode, when the child exits with status
    0 and what it wrote to its two streams is text in the encoding of
    the locale, what it wrote to its standard error reaches neither
    stream of the launcher: the standard error of the launcher stays
    empty, its standard output is the trimmed standard output of the
    child, and the whole outcome is the same whatever text the child
    wrote to its standard error. *)
Theorem capture_success_drops_stderr (w : World) (env : environ) (cfg : LaunchConfig)
    (out err S E : string) :
  capture_mode cfg = true →
  valid w cfg →
  execute w env (argv cfg) = Terminated 0 out err →
  decode w out = inr S →
  decode w err = inr E →
  stderr (launch env cfg w start).2 = EmptyString
  ∧ stdout (launch env cfg w start).2 =
      Str.strip (Str.replace_cr (Str.replace_crlf S)) +:+ Str.nl
  ∧ (∀ (w' : World) (env' : environ) (out' err' E' : string),
       valid w' cfg → execute w' env' (argv cfg) = Terminated 0 out' err' →
       decode w' out' = inr S → decode w' err' = inr E' →
       launch env' cfg w' start = launch env cfg w start).
Proof.
  intros [c [a ->]]%capture_mode_ocr Hv Hx Hout Herr.
  apply valid_ocr in Hv as (Hm & Hp & Hi). cbn in Hx.
  cbn. rewrite (ocr_launch_valid w env c a Hm Hp Hi). cbv zeta.
  rewrite Hx, (translate_decoded _ _ _ Hout), (translate_decoded _ _ _ Herr). cbn.
  repeat split.
  intros w' env' out' err' E' (Hm' & Hp' & Hi')%valid_ocr Hx' Hout' Herr'. cbn in Hx'.
  rewrite (ocr_launch_valid w' env' c a Hm' Hp' Hi'). cbv zeta.
  by rewrite Hx', (translate_decoded _ _ _ Hout'), (translate_decoded _ _ _ Herr').
Qed.

(** In capture mode, when what the child wrote to its standard output,
    or else to its standard error, is no text in the encoding of the
    locale, the launcher reports the decoding error and exits with
    status 1, whatever the exit status of the child. *)
Lemma capture_undecodable (w : World) (env : environ) (cfg : LaunchConfig) (n : Z)
    (out err m : string) :
  capture_mode cfg = true →
  valid w cfg →
  execute w env (argv cfg) = Terminated n out err →
  (decode w out = inl m ∨ (∃ S, decode w out = inr S) ∧ decode w err = inl m) →
  launch env cfg w start = unexpected (argv cfg) m.
Proof.
  intros [c [a ->]]%capture_mode_ocr Hv Hx Hdec.
  apply valid_ocr in Hv as (Hm & Hp & Hi). cbn in Hx.
  cbn. rewrite (ocr_launch_valid w env c a Hm Hp Hi). cbv zeta. rewrite Hx.
  destruct Hdec as [Hout|[[S Hout] Herr]].
  - by rewrite (translate_undecoded _ _ _ Hout).
  - by rewrite (translate_decoded _ _ _ Hout), (translate_undecoded _ _ _ Herr).
Qed.

(** ** C6 *)

(** C6: when the files are in place and the executable is not on the
    search path, the launcher writes the "command not found" message and
    the guidance to standard error and exits with status 1. *)
Theorem missing_executable_exits_1 (w : World) (env : environ) (cfg : LaunchConfig) :
  valid w cfg →
  execute w env (argv cfg) = NoSuchExecutable →
  (launch env cfg w start).1 = SystemExit 1
  ∧ stderr (launch env cfg w start).2 =
      "Error: '" +:+ not_found_name cfg +:+ "' command not found." +:+ Str.nl
      +:+ guidance cfg +:+ Str.nl
  ∧ spawned (launch env cfg w start).2 = [argv cfg]
  ∧ exit_status (launch env cfg w start).1 = 1.
Proof.
  intros Hv Hx. destruct cfg as [c a|c a|]; cbn in Hx |- *.
  - apply valid_chat in Hv. rewrite (chat_launch_valid w env c a Hv). cbn. by rewrite Hx.
  - apply valid_ocr in Hv as (Hm & Hp & Hi).
    rewrite (ocr_launch_valid w env c a Hm Hp Hi). cbn. by rewrite Hx.
  - rewrite watch_main_runs. cbn. by rewrite Hx.
Qed.

(** ** C7 *)

(** C7: in streaming mode the launcher hands the return code of the
    child to [sys.exit]; for every exit status a child can have, the exit
    status of the launcher is that status. *)
Theorem streaming_exit_status (w : World) (env : environ) (cfg : LaunchConfig) (rc : Z)
    (S E : string) :
  capture_mode cfg = false →
  valid w cfg →
  execute w env (argv cfg) = Terminated rc S E →
  (launch env cfg w start).1 = SystemExit rc
  ∧ (0 ≤ rc < 256 → exit_status (launch env cfg w start).1 = rc).
Proof.
  intros Hc Hv Hx. destruct cfg as [c a|c a|]; [| done |]; cbn in Hx |- *.
  - apply valid_chat in Hv. rewrite (chat_launch_valid w env c a Hv). cbn. rewrite Hx.
    split; [done|]. intros Hr. cbn. by rewrite Z.mod_small by lia.
  - rewrite watch_main_runs. cbn. rewrite Hx.
    split; [done|]. intros Hr. cbn. by rewrite Z.mod_small by lia.
Qed.

End properties.
(** * Properties of the parser *)

Section parser_properties.
Context `{PyLib}.
Import argparse.

Lemma cli_value_nil (p : list argument) d : cli_value p d [] = None.
Proof. done. Qed.

Lemma cli_value_cons (p : list argument) d w cli :
  cli_value p d (w :: cli) =
    match cli_value p d cli with
    | Some v => Some v
    | None => word_value p d w
    end.
Proof.
  unfold cli_value. cbn. destruct (word_value p d w) as [v|]; cbn.
  - rewrite last_cons. by destruct (last _).
  - by destruct (last _).
Qed.

(** The help action stores nothing; every other action is called as
    [take_action] describes it. *)
Lemma call_action_Parsed (p : list argument) (a : action) arg v :
  call_action p a arg = Parsed v → take_action a arg = Parsed v.
Proof.
  destruct a, arg; try done. cbn. by destruct (print_help p).
Qed.

Lemma call_action_not_help (p : list argument) (a : action) arg :
  a ≠ help → call_action p a arg = take_action a arg.
Proof. by destruct a, arg. Qed.

(** One word: the namespace changes at the dest of the argument only,
    and the position of the argument is recorded. *)
Lemma consume_Parsed (p : list argument) st w st' :
  consume p st w = Parsed st' →
  (∀ d, ns_of st' !! d = from_option Some (ns_of st !! d) (word_value p d w))
  ∧ ((seen st' = seen st ∧ ∀ d, word_value p d w = None)
     ∨ ∃ i a v, seen st' = i :: seen st ∧ p !! i = Some a
         ∧ ∀ d, word_value p d w = if bool_decide (dest a = d) then Some v else None).
Proof.
  unfold consume, word_value. destruct w as [flag arg|word].
  - destruct (find_action p flag) as [[i a]|] eqn:Hf.
    + destruct (call_action p (act a) arg) as [v|n|e] eqn:Hc; cbn; [|done..].
      apply call_action_Parsed in Hc as Ht. rewrite Ht.
      intros [= <-]. cbn. split.
      * intros d. case_bool_decide as Hd.
        -- subst d. by rewrite lookup_insert_eq.
        -- by rewrite lookup_insert_ne.
      * right. exists i, a, v. split; [done|].
        by apply list_find_Some in Hf as (Hi & _ & _).
    + intros [= <-]. cbn. by split; [|left].
  - intros [= <-]. cbn. by split; [|left].
Qed.

Lemma consume_all_cons (p : list argument) st w cli st' :
  consume_all p st (w :: cli) = Parsed st' →
  ∃ st1, consume p st w = Parsed st1 ∧ consume_all p st1 cli = Parsed st'.
Proof.
  cbn. destruct (consume p st w) as [st1|n|e]; [|done..]. cbn. eauto.
Qed.

(** After the loop, an attribute holds the value the command line gives
    it, or else the value it had before. *)
Lemma consume_all_lookup (p : list argument) cli st st' d :
  consume_all p st cli = Parsed st' →
  ns_of st' !! d = from_option Some (ns_of st !! d) (cli_value p d cli).
Proof.
  revert st. induction cli as [|w cli IH]; intros st.
  - by intros [= <-].
  - intros (st1 & Hw & Hrest)%consume_all_cons.
    rewrite (IH _ Hrest), cli_value_cons.
    destruct (cli_value p d cli); [done|]. cbn.
    by apply consume_Parsed in Hw as [-> _].
Qed.

Lemma consume_all_seen_mono (p : list argument) cli st st' i :
  consume_all p st cli = Parsed st' → i ∈ seen st → i ∈ seen st'.
Proof.
  revert st. induction cli as [|w cli IH]; intros st.
  - by intros [= <-].
  - intros (st1 & Hw & Hrest)%consume_all_cons Hi. apply (IH _ Hrest).
    apply consume_Parsed in Hw as [_ [[-> _]|(j & a & v & -> & _)]]; [done|].
    by apply elem_of_cons; right.
Qed.

(** An argument is seen only if the command line gives a value to its
    dest. *)
Lemma consume_all_seen (p : list argument) cli st st' i :
  consume_all p st cli = Parsed st' → i ∈ seen st' →
  i ∈ seen st ∨ ∃ a, p !! i = Some a ∧ is_Some (cli_value p (dest a) cli).
Proof.
  revert st. induction cli as [|w cli IH]; intros st.
  - intros [= <-]. by left.
  - intros (st1 & Hw & Hrest)%consume_all_cons Hi.
    destruct (IH _ Hrest Hi) as [Hi1|(a & Ha & Hv)].
    + apply consume_Parsed in Hw as [_ [[Hs _]|(j & a & v & Hs & Ha & Hv)]];
        rewrite Hs in Hi1; [by left|].
      apply elem_of_cons in Hi1 as [->|Hi1]; [|by left].
      right. exists a. split; [done|]. rewrite cli_value_cons.
      destruct (cli_value p (dest a) cli); [done|].
      rewrite Hv. by rewrite bool_decide_eq_true_2.
    + right. exists a. split; [done|]. rewrite cli_value_cons.
      by destruct Hv as [v ->].
Qed.

(** When the command line gives a value to [d], an argument with that
    dest is seen. *)
Lemma consume_all_given (p : list argument) cli st st' d :
  consume_all p st cli = Parsed st' → is_Some (cli_value p d cli) →
  ∃ i a, i ∈ seen st' ∧ p !! i = Some a ∧ dest a = d.
Proof.
  revert st. induction cli as [|w cli IH]; intros st.
  - intros _ [v Hv]. done.
  - intros (st1 & Hw & Hrest)%consume_all_cons. rewrite cli_value_cons.
    destruct (cli_value p d cli) as [v'|] eqn:Hv.
    + intros _. by apply (IH _ Hrest).
    + intros [v Hwv].
      apply consume_Parsed in Hw as [_ [[_ Hn]|(j & a & u & Hs & Ha & Hu)]].
      * by rewrite Hn in Hwv.
      * rewrite Hu in Hwv. case_bool_decide as Hd; [|done].
        exists j, a. split; [|done].
        apply (consume_all_seen_mono _ _ _ _ _ Hrest). rewrite Hs. by left.
Qed.

(** The value the command line gives comes from an argument with that
    dest, through its action. *)
Lemma cli_value_Some (p : list argument) cli d v :
  cli_value p d cli = Some v →
  ∃ flag arg i a,
    Opt flag arg ∈ cli ∧ find_action p flag = Some (i, a) ∧ dest a = d
    ∧ take_action (act a) arg = Parsed v.
Proof.
  induction cli as [|w cli IH]; [done|]. rewrite cli_value_cons.
  destruct (cli_value p d cli) as [v'|].
  - intros [= ->]. destruct (IH eq_refl) as (flag & arg & i & a & Hin & Hrest).
    exists flag, arg, i, a. split; [by right|done].
  - intros Hw. destruct w as [flag arg|]; [|done]. cbn in Hw.
    destruct (find_action p flag) as [[i a]|] eqn:Hf; [|done].
    case_bool_decide as Hd; [|done].
    destruct (take_action (act a) arg) as [u| |] eqn:Ht; [|done..].
    injection Hw as ->. exists flag, arg, i, a. split; [by left|done].
Qed.

(** ** The conversion of the defaults *)

Lemma convert_defaults_at (d : string) (p : list argument) i sn ns ns' :
  convert_defaults i p sn ns = Parsed ns' →
  default_at d i p sn (ns !! d) = Parsed (ns' !! d).
Proof.
  revert i ns. induction p as [|a p IH]; intros i ns; cbn.
  - by intros [= <-].
  - destruct (decide (i ∈ sn)) as [Hin|Hin].
    + rewrite !(bool_decide_eq_true_2 (i ∈ sn)) by done.
      intros Hrest. rewrite <- (IH _ _ Hrest).
      destruct (bool_decide (dest a = d)); [|done].
      by destruct (act a), (default_value a) as [[]|].
    + rewrite !(bool_decide_eq_false_2 (i ∈ sn)) by done.
      destruct (decide (dest a = d)) as [Hd|Hd].
      * rewrite (bool_decide_eq_true_2 (dest a = d)) by done. subst d.
        destruct (act a) as [ty| | |]; try (intros Hrest; by rewrite <- (IH _ _ Hrest)).
        destruct (default_value a) as [[| | |s| |]|];
          try (intros Hrest; by rewrite <- (IH _ _ Hrest)).
        destruct (ns !! dest a) as [[| | |s'| |]|] eqn:Hcur;
          try (intros Hrest; by rewrite <- (IH _ _ Hrest), Hcur).
        destruct (bool_decide (s = s')).
        -- destruct (convert ty s) as [v|]; [|done].
           intros Hrest. by rewrite <- (IH _ _ Hrest), lookup_insert_eq.
        -- intros Hrest. by rewrite <- (IH _ _ Hrest), Hcur.
      * rewrite (bool_decide_eq_false_2 (dest a = d)) by done.
        destruct (act a) as [ty| | |]; try (intros Hrest; by rewrite <- (IH _ _ Hrest)).
        destruct (default_value a) as [[| | |s| |]|];
          try (intros Hrest; by rewrite <- (IH _ _ Hrest)).
        destruct (ns !! dest a) as [[| | |s'| |]|] eqn:Hcur;
          try (intros Hrest; by rewrite <- (IH _ _ Hrest)).
        destruct (bool_decide (s = s')).
        -- destruct (convert ty s) as [v|]; [|done].
           intros Hrest. by rewrite <- (IH _ _ Hrest), lookup_insert_ne.
        -- intros Hrest. by rewrite <- (IH _ _ Hrest).
Qed.

(** When no argument with dest [d] was seen, the positions seen do not
    matter. *)
Lemma default_at_unseen (d : string) (p : list argument) i sn cur :
  (∀ j a, p !! j = Some a → dest a = d → (i + j)%nat ∉ sn) →
  default_at d i p sn cur = default_at d i p [] cur.
Proof.
  revert i cur. induction p as [|a p IH]; intros i cur Hun; [done|]. cbn.
  assert (∀ cur', default_at d (S i) p sn cur' = default_at d (S i) p [] cur') as Hrec.
  { intros cur'. apply IH. intros j b Hj Hb.
    replace (S i + j)%nat with (i + S j)%nat by lia. by apply (Hun (S j) b). }
  case_bool_decide as Hd; [|apply Hrec].
  destruct (act a); try apply Hrec.
  destruct (default_value a) as [[]|]; try apply Hrec.
  rewrite bool_decide_eq_false_2.
  2:{ specialize (Hun 0%nat a eq_refl Hd). by rewrite Nat.add_0_r in Hun. }
  rewrite (bool_decide_eq_false_2 (i ∈ [])) by (by intros ?%elem_of_nil).
  destruct cur as [[]|]; try apply Hrec.
  case_bool_decide; [|apply Hrec]. destruct (convert _ _); [apply Hrec|done].
Qed.

(** When every argument with dest [d] that has a string default was
    seen, the value of [d] is left as it is. *)
Lemma default_at_seen (d : string) (p : list argument) i sn cur :
  (∀ j a ty s, p !! j = Some a → dest a = d → act a = store ty →
     default_value a = Some (VStr s) → (i + j)%nat ∈ sn) →
  default_at d i p sn cur = Parsed cur.
Proof.
  revert i. induction p as [|a p IH]; intros i Hs; [done|]. cbn.
  assert (default_at d (S i) p sn cur = Parsed cur) as Hrec.
  { apply IH. intros j b ty s Hj Hb Hact Hdef.
    replace (S i + j)%nat with (i + S j)%nat by lia. by apply (Hs (S j) b ty s). }
  case_bool_decide as Hd; [|apply Hrec].
  destruct (act a) as [ty| | |] eqn:Hact; try apply Hrec.
  destruct (default_value a) as [[| | |s| |]|] eqn:Hdef; try apply Hrec.
  rewrite bool_decide_eq_true_2; [apply Hrec|].
  specialize (Hs 0%nat a ty s eq_refl Hd Hact Hdef). by rewrite Nat.add_0_r in Hs.
Qed.

(** The default of [d] when no argument with that dest has a string
    default to convert: the value the namespace starts with. *)
Lemma default_of_plain (p : list argument) (d : string) :
  (∀ j a ty s, p !! j = Some a → dest a = d → act a = store ty →
     default_value a ≠ Some (VStr s)) →
  default_of p d = Parsed (init_namespace p !! d).
Proof.
  intros Hno. apply default_at_seen.
  intros j a ty s Hj Hd Hact Hdef. by destruct (Hno j a ty s).
Qed.

(** The default of [d] when the one argument with that dest has a string
    default: the string, converted by the type of the argument. *)
Lemma default_at_string (p : list argument) (d : string) i k a ty s v :
  p !! k = Some a →
  (∀ j b, p !! j = Some b → dest b = d → j = k) →
  dest a = d → act a = store ty → default_value a = Some (VStr s) →
  convert ty s = Some v →
  default_at d i p [] (Some (VStr s)) = Parsed (Some v).
Proof.
  intros Hk Huniq Hd Hact Hdef Hconv.
  revert i k Hk Huniq. induction p as [|b p IH]; intros i k Hk Huniq; [done|].
  cbn. destruct k as [|k].
  - injection Hk as ->.
    rewrite (bool_decide_eq_true_2 _ Hd), Hact, Hdef.
    rewrite (bool_decide_eq_false_2 (i ∈ [])) by (by intros ?%elem_of_nil).
    rewrite (bool_decide_eq_true_2 (s = s)) by done. rewrite Hconv.
    apply default_at_seen. intros j c ty' s' Hj Hc _ _.
    by specialize (Huniq (S j) c Hj Hc).
  - rewrite bool_decide_eq_false_2.
    + apply (IH _ k); [done|]. intros j c Hj Hc.
      specialize (Huniq (S j) c Hj Hc). by injection Huniq.
    + intros Hb. by specialize (Huniq 0%nat b eq_refl Hb).
Qed.

Lemma default_of_string (p : list argument) (d : string) k a ty s v :
  string_defaults_unshared p →
  p !! k = Some a → dest a = d → act a = store ty →
  default_value a = Some (VStr s) → convert ty s = Some v →
  init_namespace p !! d = Some (VStr s) →
  default_of p d = Parsed (Some v).
Proof.
  intros Hwf Hk Hd Hact Hdef Hconv Hinit. unfold default_of. rewrite Hinit.
  apply (default_at_string p d 0 k a ty s v); try done.
  intros j b Hj Hb. apply (Hwf k a ty s Hk Hact Hdef j b Hj). by rewrite Hb.
Qed.

(** A property of every value the arguments with dest [d] can store
    holds of the value the command line gives to [d]. *)
Lemma cli_value_typed (p : list argument) (d : string) cli v (T : pyval → Prop) :
  (∀ j a arg u, p !! j = Some a → dest a = d →
     take_action (act a) arg = Parsed u → T u) →
  cli_value p d cli = Some v → T v.
Proof.
  intros HT (flag & arg & i & a & _ & Hf & Hd & Ht)%cli_value_Some.
  apply list_find_Some in Hf as (Hi & _ & _). by apply (HT i a arg v).
Qed.

(** ** [parse_args] *)

Lemma parse_args_Parsed (p : list argument) cli ns :
  parse_args p cli = Parsed ns →
  ∃ st, consume_all p (PState (init_namespace p) [] false) cli = Parsed st
    ∧ convert_defaults 0 p (seen st) (ns_of st) = Parsed ns
    ∧ extras st = false.
Proof.
  unfold parse_args. destruct (consume_all _ _ _) as [st| |]; [|done..]. cbn.
  destruct (convert_defaults _ _ _ _) as [ns'| |] eqn:Hc; [|done..]. cbn.
  destruct (extras st) eqn:He; [done|]. intros [= <-]. by exists st.
Qed.

(** The attribute [d] after [parse_args]: the value the command line
    gives it, or else its default. *)
Lemma parse_args_lookup (p : list argument) cli ns d :
  string_defaults_unshared p →
  parse_args p cli = Parsed ns →
  match cli_value p d cli with
  | Some v => ns !! d = Some v
  | None => default_of p d = Parsed (ns !! d)
  end.
Proof.
  intros Hwf (st & Hloop & Hconv & _)%parse_args_Parsed.
  pose proof (consume_all_lookup _ _ _ _ d Hloop) as Hcur. cbn in Hcur.
  pose proof (convert_defaults_at d _ _ _ _ _ Hconv) as Hfin.
  destruct (cli_value p d cli) as [v|] eqn:Hv; cbn in Hcur.
  - destruct (consume_all_given _ _ _ _ d Hloop) as (i & a & Hi & Ha & Hd);
      [by rewrite Hv|].
    rewrite default_at_seen in Hfin.
    + injection Hfin as <-. done.
    + intros j b ty s Hj Hb Hact Hdef. cbn.
      rewrite <- Hd in Hb.
      by rewrite <- (Hwf j b ty s Hj Hact Hdef i a Ha (eq_sym Hb)).
  - unfold default_of. rewrite <- Hcur, <- Hfin. symmetry.
    apply default_at_unseen. intros j a Hj Hd Hin. cbn in Hin.
    destruct (consume_all_seen _ _ _ _ _ Hloop Hin) as [Hnil|(b & Hb & Hsome)].
    + by apply elem_of_nil in Hnil.
    + rewrite Hj in Hb. injection Hb as <-. rewrite Hd, Hv in Hsome.
      by destruct Hsome.
Qed.

(** The attribute [d] after [parse_args], when its default is [dflt]. *)
Lemma parse_args_resolved (p : list argument) cli ns d dflt :
  string_defaults_unshared p →
  parse_args p cli = Parsed ns →
  default_of p d = Parsed (Some dflt) →
  ns !! d = Some (from_option id dflt (cli_value p d cli)).
Proof.
  intros Hwf Hparse Hdef.
  pose proof (parse_args_lookup p cli ns d Hwf Hparse) as Hd.
  destruct (cli_value p d cli); [done|]. cbn. congruence.
Qed.

(** The same, with the type of the value. *)
Lemma parse_args_typed (p : list argument) cli ns d dflt (T : pyval → Prop) :
  string_defaults_unshared p →
  parse_args p cli = Parsed ns →
  default_of p d = Parsed (Some dflt) →
  T dflt →
  (∀ j a arg u, p !! j = Some a → dest a = d →
     take_action (act a) arg = Parsed u → T u) →
  ∃ v, ns !! d = Some v ∧ T v.
Proof.
  intros Hwf Hparse Hdef Hdflt HT.
  rewrite (parse_args_resolved p cli ns d dflt Hwf Hparse Hdef).
  eexists. split; [done|].
  destruct (cli_value p d cli) as [v|] eqn:Hv; [|done].
  by apply (cli_value_typed p d cli v T).
Qed.

End parser_properties.

(** * The parsers of the launchers *)

(** Case analysis on the position [j] of an argument in a parser that is
    given as a list: one goal for each argument. *)
Ltac each_argument j Hj :=
  cbn in Hj;
  repeat (destruct j as [|j]; [injection Hj as <-|cbn in Hj]);
  [..|discriminate Hj].

(** The default of a dest whose arguments have no string default. *)
Ltac plain_default :=
  rewrite default_of_plain;
  [reflexivity
  |let j := fresh "j" in let Hj := fresh "Hj" in
   let Hd := fresh "Hd" in let Hact := fresh "Hact" in
   intros j ? ? ? Hj Hd Hact; each_argument j Hj;
   first [discriminate Hd | discriminate Hact | cbn; discriminate]].

(** The type of the values the command line can give to a dest. *)
Ltac typed_value :=
  let j := fresh "j" in let Hj := fresh "Hj" in
  let Hd := fresh "Hd" in let Ht := fresh "Ht" in
  let arg := fresh "arg" in
  intros j ? arg ? Hj Hd Ht; each_argument j Hj; try discriminate Hd;
  destruct arg as [?|]; cbn in Ht; try discriminate Ht;
  repeat match type of Ht with
         | context [Str.to_int ?s] => destruct (Str.to_int s); cbn in Ht
         | context [float_of_str ?s] => destruct (float_of_str s); cbn in Ht
         end;
  try discriminate Ht; injection Ht as <-; eexists; reflexivity.

Section launcher_parsers.
Context `{PyLib}.
Import argparse.

Lemma chat_parser_unshared (c : chat.config) :
  string_defaults_unshared (chat.parser c).
Proof.
  intros j a ty s Hj Hact Hdef k b Hk Hb.
  each_argument j Hj; cbn in Hact, Hdef; try discriminate;
    (each_argument k Hk; cbn in Hb; first [discriminate Hb | reflexivity]).
Qed.

Lemma ocr_parser_unshared (c : ocr.config) :
  string_defaults_unshared (ocr.parser c).
Proof.
  intros j a ty s Hj Hact Hdef k b Hk Hb.
  each_argument j Hj; cbn in Hact, Hdef; try discriminate;
    (each_argument k Hk; cbn in Hb; first [discriminate Hb | reflexivity]).
Qed.

(** The defaults of the attributes of chat.py. *)
Lemma chat_defaults (c : chat.config) :
  let p := chat.parser c in
  default_of p "model" = Parsed (Some (VPath (Path (chat.DEFAULT_MODEL_PATH c))))
  ∧ default_of p "port" = Parsed (Some (VInt (chat.DEFAULT_PORT c)))
  ∧ default_of p "n_gpu_layers" = Parsed (Some (VInt (chat.DEFAULT_NGL c)))
  ∧ default_of p "context_size" = Parsed (Some (VInt (chat.DEFAULT_CTX c)))
  ∧ default_of p "batch_size" = Parsed (Some (VInt (chat.DEFAULT_BATCH_SIZE c)))
  ∧ default_of p "ubatch_size" = Parsed (Some (VInt (chat.DEFAULT_UBATCH_SIZE c)))
  ∧ default_of p "cache_type_k" = Parsed (Some (VStr (chat.DEFAULT_CACHE_TYPE_K c)))
  ∧ default_of p "cache_type_v" = Parsed (Some (VStr (chat.DEFAULT_CACHE_TYPE_V c)))
  ∧ default_of p "flash_attn" = Parsed (Some (VBool (chat.DEFAULT_FLASH_ATTN c)))
  ∧ default_of p "mlock" = Parsed (Some (VBool (chat.DEFAULT_MLOCK c))).
Proof.
  pose proof (chat_parser_unshared c) as Hwf. intros p.
  split; [by eapply (default_of_string p _ 1)|].
  split; [plain_default|]. split; [plain_default|]. split; [plain_default|].
  split; [plain_default|]. split; [plain_default|].
  split; [by eapply (default_of_string p _ 7)|].
  split; [by eapply (default_of_string p _ 8)|].
  split; plain_default.
Qed.

(** After [parse_args], [args] has every attribute, with its type. *)
Lemma chat_args_of (c : chat.config) cli ns :
  parse_args (chat.parser c) cli = Parsed ns → is_Some (chat.args_of ns).
Proof.
  intros Hparse. pose proof (chat_parser_unshared c) as Hwf.
  destruct (chat_defaults c) as (D1 & D2 & D3 & D4 & D5 & D6 & D7 & D8 & D9 & D10).
  destruct (parse_args_typed _ cli ns _ _ is_path Hwf Hparse D1) as (? & E1 & [? ->]);
    [by eexists|typed_value|].
  destruct (parse_args_typed _ cli ns _ _ is_int Hwf Hparse D2) as (? & E2 & [? ->]);
    [by eexists|typed_value|].
  destruct (parse_args_typed _ cli ns _ _ is_int Hwf Hparse D3) as (? & E3 & [? ->]);
    [by eexists|typed_value|].
  destruct (parse_args_typed _ cli ns _ _ is_int Hwf Hparse D4) as (? & E4 & [? ->]);
    [by eexists|typed_value|].
  destruct (parse_args_typed _ cli ns _ _ is_int Hwf Hparse D5) as (? & E5 & [? ->]);
    [by eexists|typed_value|].
  destruct (parse_args_typed _ cli ns _ _ is_int Hwf Hparse D6) as (? & E6 & [? ->]);
    [by eexists|typed_value|].
  destruct (parse_args_typed _ cli ns _ _ is_str Hwf Hparse D7) as (? & E7 & [? ->]);
    [by eexists|typed_value|].
  destruct (parse_args_typed _ cli ns _ _ is_str Hwf Hparse D8) as (? & E8 & [? ->]);
    [by eexists|typed_value|].
  destruct (parse_args_typed _ cli ns _ _ is_bool Hwf Hparse D9) as (? & E9 & [? ->]);
    [by eexists|typed_value|].
  destruct (parse_args_typed _ cli ns _ _ is_bool Hwf Hparse D10) as (? & E10 & [? ->]);
    [by eexists|typed_value|].
  unfold chat.args_of, attr.path, attr.int, attr.str, attr.bool.
  rewrite E1, E2, E3, E4, E5, E6, E7, E8, E9, E10. by eexists.
Qed.

(** The defaults of the attributes of ocr_meta.py and ocr_tx.py. *)
Lemma ocr_defaults (c : ocr.config) :
  let p := ocr.parser c in
  default_of p "ngl" = Parsed (Some (VInt (ocr.DEFAULT_NGL c)))
  ∧ default_of p "threads" = Parsed (Some (VInt (ocr.DEFAULT_THREADS c)))
  ∧ default_of p "context_size" = Parsed (Some (VInt (ocr.DEFAULT_CTX c)))
  ∧ default_of p "n_predict" = Parsed (Some (VInt (ocr.DEFAULT_N_PREDICT c)))
  ∧ default_of p "temp" = Parsed (Some (VFloat (ocr.DEFAULT_TEMP c)))
  ∧ default_of p "cache_type_k" = Parsed (Some (VStr (ocr.DEFAULT_CACHE_TYPE_K c)))
  ∧ default_of p "cache_type_v" = Parsed (Some (VStr (ocr.DEFAULT_CACHE_TYPE_V c)))
  ∧ default_of p "model" = Parsed (Some (VPath (Path (ocr.DEFAULT_MODEL_PATH c))))
  ∧ default_of p "mmproj" = Parsed (Some (VPath (Path (ocr.DEFAULT_MMPROJ_PATH c))))
  ∧ default_of p "image" = Parsed (Some (VPath (Path (ocr.DEFAULT_IMAGE_PATH c)))).
Proof.
  pose proof (ocr_parser_unshared c) as Hwf. intros p.
  split; [plain_default|]. split; [plain_default|]. split; [plain_default|].
  split; [plain_default|]. split; [plain_default|].
  split; [by eapply (default_of_string p _ 6)|].
  split; [by eapply (default_of_string p _ 7)|].
  split; [by eapply (default_of_string p _ 8)|].
  split; [by eapply (default_of_string p _ 9)|].
  by eapply (default_of_string p _ 10).
Qed.

Lemma ocr_args_of (c : ocr.config) cli ns :
  parse_args (ocr.parser c) cli = Parsed ns → is_Some (ocr.args_of ns).
Proof.
  intros Hparse. pose proof (ocr_parser_unshared c) as Hwf.
  destruct (ocr_defaults c) as (D1 & D2 & D3 & D4 & D5 & D6 & D7 & D8 & D9 & D10).
  destruct (parse_args_typed _ cli ns _ _ is_int Hwf Hparse D1) as (? & E1 & [? ->]);
    [by eexists|typed_value|].
  destruct (parse_args_typed _ cli ns _ _ is_int Hwf Hparse D2) as (? & E2 & [? ->]);
    [by eexists|typed_value|].
  destruct (parse_args_typed _ cli ns _ _ is_int Hwf Hparse D3) as (? & E3 & [? ->]);
    [by eexists|typed_value|].
  destruct (parse_args_typed _ cli ns _ _ is_int Hwf Hparse D4) as (? & E4 & [? ->]);
    [by eexists|typed_value|].
  destruct (parse_args_typed _ cli ns _ _ is_float Hwf Hparse D5) as (? & E5 & [? ->]);
    [by eexists|typed_value|].
  destruct (parse_args_typed _ cli ns _ _ is_str Hwf Hparse D6) as (? & E6 & [? ->]);
    [by eexists|typed_value|].
  destruct (parse_args_typed _ cli ns _ _ is_str Hwf Hparse D7) as (? & E7 & [? ->]);
    [by eexists|typed_value|].
  destruct (parse_args_typed _ cli ns _ _ is_path Hwf Hparse D8) as (? & E8 & [? ->]);
    [by eexists|typed_value|].
  destruct (parse_args_typed _ cli ns _ _ is_path Hwf Hparse D9) as (? & E9 & [? ->]);
    [by eexists|typed_value|].
  destruct (parse_args_typed _ cli ns _ _ is_path Hwf Hparse D10) as (? & E10 & [? ->]);
    [by eexists|typed_value|].
  unfold ocr.args_of, attr.path, attr.int, attr.str, attr.float.
  rewrite E1, E2, E3, E4, E5, E6, E7, E8, E9, E10. by eexists.
Qed.

End launcher_parsers.
(** * The resolution of the options *)

Section resolution.
Context `{PyLib}.
Import argparse io.

Lemma chat_load_Some (dir : pypath) (env : environ) (c : chat.config) :
  chat.load dir env = Some c →
  let data_dir := environ_get env "DATA_DIR" (str_of_path (joinpath dir "data")) in
  chat.DATA_DIR c = data_dir
  ∧ chat.DEFAULT_MODEL_PATH c =
      environ_get env "MODEL_PATH"
        (str_of_path (joinpath (Path data_dir) "gemma-3-4b-it-Q5_K_M.gguf"))
  ∧ Str.to_int (environ_get env "SERVER_PORT" "4000") = Some (chat.DEFAULT_PORT c)
  ∧ Str.to_int (environ_get env "N_GPU_LAYERS" "48") = Some (chat.DEFAULT_NGL c)
  ∧ Str.to_int (environ_get env "CONTEXT_SIZE" "8192") = Some (chat.DEFAULT_CTX c)
  ∧ Str.to_int (environ_get env "BATCH_SIZE" "512") = Some (chat.DEFAULT_BATCH_SIZE c)
  ∧ Str.to_int (environ_get env "UBATCH_SIZE" "128") = Some (chat.DEFAULT_UBATCH_SIZE c)
  ∧ chat.DEFAULT_CACHE_TYPE_K c = environ_get env "CACHE_TYPE_K" "q5_1"
  ∧ chat.DEFAULT_CACHE_TYPE_V c = environ_get env "CACHE_TYPE_V" "q5_1"
  ∧ chat.DEFAULT_FLASH_ATTN c = environ_flag env "FLASH_ATTN" "1"
  ∧ chat.DEFAULT_MLOCK c = environ_flag env "MLOCK" "1"
  ∧ chat.LLAMA_SERVER_EXECUTABLE c = environ_get env "LLAMA_SERVER_EXECUTABLE" "llama-server".
Proof.
  unfold chat.load.
  destruct (Str.to_int (environ_get env "SERVER_PORT" "4000")); [|done].
  destruct (Str.to_int (environ_get env "N_GPU_LAYERS" "48")); [|done].
  destruct (Str.to_int (environ_get env "CONTEXT_SIZE" "8192")); [|done].
  destruct (Str.to_int (environ_get env "BATCH_SIZE" "512")); [|done].
  destruct (Str.to_int (environ_get env "UBATCH_SIZE" "128")); [|done].
  cbn. intros [= <-]. cbn. done.
Qed.

Lemma ocr_load_Some (v : ocr.variant) (dir : pypath) (env : environ) (c : ocr.config) :
  ocr.load v dir env = Some c →
  let data_dir := environ_get env "DATA_DIR" (str_of_path (joinpath dir "data")) in
  ocr.DATA_DIR c = data_dir
  ∧ ocr.DEFAULT_MODEL_PATH c =
      environ_get env "MODEL_PATH"
        (str_of_path (joinpath (Path data_dir) "gemma-3-4b-it-Q5_K_M.gguf"))
  ∧ ocr.DEFAULT_MMPROJ_PATH c =
      environ_get env "MMPROJ_PATH" (str_of_path (joinpath (Path data_dir) "mmproj-BF16.gguf"))
  ∧ ocr.DEFAULT_IMAGE_PATH c =
      environ_get env "IMAGE_PATH" (str_of_path (joinpath (Path data_dir) "temp.png"))
  ∧ Str.to_int (environ_get env "N_GPU_LAYERS" "34") = Some (ocr.DEFAULT_NGL c)
  ∧ Str.to_int (environ_get env "THREADS" "3") = Some (ocr.DEFAULT_THREADS c)
  ∧ Str.to_int (environ_get env "CONTEXT_SIZE" "16384") = Some (ocr.DEFAULT_CTX c)
  ∧ Str.to_int (environ_get env "N_PREDICT" (ocr.N_PREDICT_text v)) = Some (ocr.DEFAULT_N_PREDICT c)
  ∧ float_of_str (environ_get env "TEMPERATURE" "0.3") = Some (ocr.DEFAULT_TEMP c)
  ∧ ocr.DEFAULT_CACHE_TYPE_K c = environ_get env "CACHE_TYPE_K" "q4_1"
  ∧ ocr.DEFAULT_CACHE_TYPE_V c = environ_get env "CACHE_TYPE_V" "q4_1"
  ∧ ocr.DEFAULT_FLASH_ATTN c = environ_flag env "FLASH_ATTN" "1"
  ∧ ocr.DEFAULT_MLOCK c = environ_flag env "MLOCK" "1"
  ∧ ocr.LLAMA_CLI_EXECUTABLE c = environ_get env "LLAMA_CLI_EXECUTABLE" "llama-gemma3-cli"
  ∧ ocr.PROMPT c = environ_get env (ocr.PROMPT_NAME v) (ocr.PROMPT_text v).
Proof.
  unfold ocr.load.
  destruct (Str.to_int (environ_get env "N_GPU_LAYERS" "34")); [|done].
  destruct (Str.to_int (environ_get env "THREADS" "3")); [|done].
  destruct (Str.to_int (environ_get env "CONTEXT_SIZE" "16384")); [|done].
  destruct (Str.to_int (environ_get env "N_PREDICT" _)); [|done].
  destruct (float_of_str (environ_get env "TEMPERATURE" "0.3")); [|done].
  cbn. intros [= <-]. cbn. done.
Qed.

(** The two lower layers: the text of the environment variable, or else
    the built-in text. *)
Lemma layered_no_cli (k : kind) (b : string) (env : environ) (name : string) :
  layered k b (env !! name) None = of_text k (environ_get env name b).
Proof. unfold layered, environ_get. by destruct (env !! name). Qed.

(** ** C8 *)

(** C8, amended: every option the parser has a flag for is resolved by
    three layers, the built-in text, over it the environment variable,
    over both the flag of the command line; the options the parser has no
    flag for (the data directory and the executable; in the OCR launchers
    also the two toggles and the prompt) are resolved by the first two
    layers, whatever the command line. *)
Theorem options_are_layered (l : launcher) (dir : pypath) (env : environ)
    (cli : list cli_arg) (m : module_config) (ns : gmap string pyval) :
  load_module l dir env = Some m →
  parse_args (module_parser m) cli = Parsed ns →
  let data_dir := environ_get env "DATA_DIR" (str_of_path (joinpath dir "data")) in
  (∀ o, o ∈ cli_options l data_dir →
     is_Some (ns !! holder o)
     ∧ ns !! holder o =
         layered (kind_of o) (builtin o) (env !! variable o)
           (cli_value (module_parser m) (holder o) cli))
  ∧ (∀ o, o ∈ env_options l dir →
     is_Some (module_value m (holder o))
     ∧ module_value m (holder o) =
         layered (kind_of o) (builtin o) (env !! variable o) None).
Proof.
  intros Hload Hparse data_dir. destruct l as [|v]; cbn in Hload.
  - destruct (chat.load dir env) as [c|] eqn:Hc; [|done]. injection Hload as <-.
    cbn in Hparse. pose proof (chat_parser_unshared c) as Hwf.
    destruct (chat_defaults c) as (D1 & D2 & D3 & D4 & D5 & D6 & D7 & D8 & D9 & D10).
    destruct (chat_load_Some dir env c Hc)
      as (E0 & E1 & E2 & E3 & E4 & E5 & E6 & E7 & E8 & E9 & E10 & E11).
    fold data_dir in E0, E1.
    split; apply Forall_forall; cbn [cli_options env_options];
      repeat apply Forall_cons_2; try apply Forall_nil_2;
      cbn [holder variable builtin kind_of module_parser].
    + rewrite (parse_args_resolved _ cli ns _ _ Hwf Hparse D1). split; [by eexists|].
      destruct (cli_value _ _ _); [done|]. rewrite layered_no_cli. cbn [of_text convert]. by rewrite E1.
    + rewrite (parse_args_resolved _ cli ns _ _ Hwf Hparse D2). split; [by eexists|].
      destruct (cli_value _ _ _); [done|]. rewrite layered_no_cli. cbn [of_text convert]. by rewrite E2.
    + rewrite (parse_args_resolved _ cli ns _ _ Hwf Hparse D3). split; [by eexists|].
      destruct (cli_value _ _ _); [done|]. rewrite layered_no_cli. cbn [of_text convert]. by rewrite E3.
    + rewrite (parse_args_resolved _ cli ns _ _ Hwf Hparse D4). split; [by eexists|].
      destruct (cli_value _ _ _); [done|]. rewrite layered_no_cli. cbn [of_text convert]. by rewrite E4.
    + rewrite (parse_args_resolved _ cli ns _ _ Hwf Hparse D5). split; [by eexists|].
      destruct (cli_value _ _ _); [done|]. rewrite layered_no_cli. cbn [of_text convert]. by rewrite E5.
    + rewrite (parse_args_resolved _ cli ns _ _ Hwf Hparse D6). split; [by eexists|].
      destruct (cli_value _ _ _); [done|]. rewrite layered_no_cli. cbn [of_text convert]. by rewrite E6.
    + rewrite (parse_args_resolved _ cli ns _ _ Hwf Hparse D7). split; [by eexists|].
      destruct (cli_value _ _ _); [done|]. rewrite layered_no_cli. cbn [of_text convert]. by rewrite E7.
    + rewrite (parse_args_resolved _ cli ns _ _ Hwf Hparse D8). split; [by eexists|].
      destruct (cli_value _ _ _); [done|]. rewrite layered_no_cli. cbn [of_text convert]. by rewrite E8.
    + rewrite (parse_args_resolved _ cli ns _ _ Hwf Hparse D9). split; [by eexists|].
      destruct (cli_value _ _ _); [done|]. rewrite layered_no_cli. cbn [of_text convert]. by rewrite E9.
    + rewrite (parse_args_resolved _ cli ns _ _ Hwf Hparse D10). split; [by eexists|].
      destruct (cli_value _ _ _); [done|]. rewrite layered_no_cli. cbn [of_text convert]. by rewrite E10.
    + rewrite layered_no_cli. cbn [of_text convert module_value]. rewrite E0. by split; [eexists|].
    + rewrite layered_no_cli. cbn [of_text convert module_value]. rewrite E11. by split; [eexists|].
  - destruct (ocr.load v dir env) as [c|] eqn:Hc; [|done]. injection Hload as <-.
    cbn in Hparse. pose proof (ocr_parser_unshared c) as Hwf.
    destruct (ocr_defaults c) as (D1 & D2 & D3 & D4 & D5 & D6 & D7 & D8 & D9 & D10).
    destruct (ocr_load_Some v dir env c Hc)
      as (E0 & E8 & E9 & E10 & E1 & E2 & E3 & E4 & E5 & E6 & E7 & E11 & E12 & E13 & E14).
    fold data_dir in E0, E8, E9, E10.
    split; apply Forall_forall; cbn [cli_options env_options];
      repeat apply Forall_cons_2; try apply Forall_nil_2;
      cbn [holder variable builtin kind_of module_parser].
    + rewrite (parse_args_resolved _ cli ns _ _ Hwf Hparse D1). split; [by eexists|].
      destruct (cli_value _ _ _); [done|]. rewrite layered_no_cli. cbn [of_text convert]. by rewrite E1.
    + rewrite (parse_args_resolved _ cli ns _ _ Hwf Hparse D2). split; [by eexists|].
      destruct (cli_value _ _ _); [done|]. rewrite layered_no_cli. cbn [of_text convert]. by rewrite E2.
    + rewrite (parse_args_resolved _ cli ns _ _ Hwf Hparse D3). split; [by eexists|].
      destruct (cli_value _ _ _); [done|]. rewrite layered_no_cli. cbn [of_text convert]. by rewrite E3.
    + rewrite (parse_args_resolved _ cli ns _ _ Hwf Hparse D4). split; [by eexists|].
      destruct (cli_value _ _ _); [done|]. rewrite layered_no_cli. cbn [of_text convert]. by rewrite E4.
    + rewrite (parse_args_resolved _ cli ns _ _ Hwf Hparse D5). split; [by eexists|].
      destruct (cli_value _ _ _); [done|]. rewrite layered_no_cli. cbn [of_text convert]. by rewrite E5.
    + rewrite (parse_args_resolved _ cli ns _ _ Hwf Hparse D6). split; [by eexists|].
      destruct (cli_value _ _ _); [done|]. rewrite layered_no_cli. cbn [of_text convert]. by rewrite E6.
    + rewrite (parse_args_resolved _ cli ns _ _ Hwf Hparse D7). split; [by eexists|].
      destruct (cli_value _ _ _); [done|]. rewrite layered_no_cli. cbn [of_text convert]. by rewrite E7.
    + rewrite (parse_args_resolved _ cli ns _ _ Hwf Hparse D8). split; [by eexists|].
      destruct (cli_value _ _ _); [done|]. rewrite layered_no_cli. cbn [of_text convert]. by rewrite E8.
    + rewrite (parse_args_resolved _ cli ns _ _ Hwf Hparse D9). split; [by eexists|].
      destruct (cli_value _ _ _); [done|]. rewrite layered_no_cli. cbn [of_text convert]. by rewrite E9.
    + rewrite (parse_args_resolved _ cli ns _ _ Hwf Hparse D10). split; [by eexists|].
      destruct (cli_value _ _ _); [done|]. rewrite layered_no_cli. cbn [of_text convert]. by rewrite E10.
    + rewrite layered_no_cli. cbn [of_text convert module_value]. rewrite E0. by split; [eexists|].
    + rewrite layered_no_cli. cbn [of_text convert module_value]. rewrite E11. by split; [eexists|].
    + rewrite layered_no_cli. cbn [of_text convert module_value]. rewrite E12. by split; [eexists|].
    + rewrite layered_no_cli. cbn [of_text convert module_value]. rewrite E13. by split; [eexists|].
    + rewrite layered_no_cli. cbn [of_text convert module_value]. rewrite E14. by split; [eexists|].
Qed.

End resolution.

(** * The scripts from the environment and the command line *)

Section scripts.
Context `{PyLib}.
Import argparse io.

(** Every argument vector [launch] spawns is the one of the
    configuration. *)
Lemma launch_spawned (w : World) (env : environ) (cfg : LaunchConfig) :
  spawned (launch env cfg w start).2 = []
  ∨ spawned (launch env cfg w start).2 = [argv cfg].
Proof.
  destruct cfg as [c a|c a|]; cbn.
  - destruct (regular_file w (chat.model a)) eqn:Hm.
    + rewrite (chat_launch_valid w env c a Hm). cbn. right. by destruct (execute w env _).
    + left. unfold chat.launch. io_unfold. by rewrite Hm.
  - destruct (regular_file w (ocr.model a)) eqn:Hm;
      [destruct (regular_file w (ocr.mmproj a)) eqn:Hp;
        [destruct (regular_file w (ocr.image a)) eqn:Hi|]|].
    + rewrite (ocr_launch_valid w env c a Hm Hp Hi). cbv zeta. right.
      destruct (execute w env _) as [| |rc o e]; [done..|].
      destruct (translate_newlines w o); [done|].
      destruct (translate_newlines w e); [done|]. by destruct (rc =? 0).
    + left. unfold ocr.launch. io_unfold. by rewrite Hm, Hp, Hi.
    + left. unfold ocr.launch. io_unfold. by rewrite Hm, Hp.
    + left. unfold ocr.launch. io_unfold. by rewrite Hm.
  - rewrite watch_main_runs. cbn. right. by destruct (execute w env _).
Qed.

(** An OCR script that spawns an argument vector has loaded its
    configuration and parsed its command line, and the vector is the one
    of that configuration. *)
Lemma ocr_script_spawned (v : ocr.variant) (env : environ) (cli : list cli_arg)
    (w : World) (x : list string) :
  spawned (ocr.script v env cli w start).2 = [x] →
  ∃ c ns a,
    ocr.load v (script_dir w) env = Some c
    ∧ parse_args (ocr.parser c) cli = Parsed ns
    ∧ ocr.args_of ns = Some a
    ∧ x = ocr.command c a.
Proof.
  unfold ocr.script. destruct (ocr.load v (script_dir w) env) as [c|]; [|done].
  unfold ocr.main. destruct (parse_args (ocr.parser c) cli) as [ns|n|e] eqn:Hns; [|done..].
  destruct (ocr.args_of ns) as [a|] eqn:Ha; [|done].
  intros Hx. exists c, ns, a. repeat split; try done.
  destruct (launch_spawned w env (OcrCli c a)) as [Hs|Hs];
    unfold launch, argv in Hs; congruence.
Qed.

Lemma chat_script_spawned (env : environ) (cli : list cli_arg)
    (w : World) (x : list string) :
  spawned (chat.script env cli w start).2 = [x] →
  ∃ c ns a,
    chat.load (script_dir w) env = Some c
    ∧ parse_args (chat.parser c) cli = Parsed ns
    ∧ chat.args_of ns = Some a
    ∧ x = chat.command c a.
Proof.
  unfold chat.script. destruct (chat.load (script_dir w) env) as [c|]; [|done].
  unfold chat.main. destruct (parse_args (chat.parser c) cli) as [ns|n|e] eqn:Hns; [|done..].
  destruct (chat.args_of ns) as [a|] eqn:Ha; [|done].
  intros Hx. exists c, ns, a. repeat split; try done.
  destruct (launch_spawned w env (ChatServer c a)) as [Hs|Hs];
    unfold launch, argv in Hs; congruence.
Qed.

(** The scripts run [launch] on the configuration they resolve; the
    branch of a missing attribute is never taken. *)
Lemma chat_script_launch (env : environ) (cli : list cli_arg) (w : World) c ns :
  chat.load (script_dir w) env = Some c →
  parse_args (chat.parser c) cli = Parsed ns →
  ∃ a, chat.args_of ns = Some a
    ∧ chat.script env cli w start = launch env (ChatServer c a) w start.
Proof.
  intros Hc Hns. destruct (chat_args_of c cli ns Hns) as [a Ha].
  exists a. split; [done|]. unfold chat.script, chat.main. by rewrite Hc, Hns, Ha.
Qed.

Lemma ocr_script_launch (v : ocr.variant) (env : environ) (cli : list cli_arg)
    (w : World) c ns :
  ocr.load v (script_dir w) env = Some c →
  parse_args (ocr.parser c) cli = Parsed ns →
  ∃ a, ocr.args_of ns = Some a
    ∧ ocr.script v env cli w start = launch env (OcrCli c a) w start.
Proof.
  intros Hc Hns. destruct (ocr_args_of c cli ns Hns) as [a Ha].
  exists a. split; [done|]. unfold ocr.script, ocr.main. by rewrite Hc, Hns, Ha.
Qed.

(** The toggle part of the argument vector of an OCR launcher: the
    words from position 23 on, decided by the module-level defaults. *)
Lemma ocr_toggle_part (c : ocr.config) (a : ocr.args) :
  drop 23 (ocr.command c a) =
    (if ocr.DEFAULT_FLASH_ATTN c then ["-fa"] else [])
    ++ (if ocr.DEFAULT_MLOCK c then ["--mlock"] else []).
Proof.
  unfold ocr.command. by destruct (ocr.DEFAULT_FLASH_ATTN c), (ocr.DEFAULT_MLOCK c).
Qed.

(** ** C9 *)


End scripts.

(** * The claims on closed inputs *)

Section closed_examples.
Import argparse io sample.
Existing Instance posix.lib.

(** The built-in context size of the OCR launchers, 16384, is rendered
    as [-c] followed by [16384]. *)
Example context_size_16384 :
  argv ocr_cfg !! 13%nat = Some "-c" ∧ argv ocr_cfg !! 14%nat = Some "16384".
Proof. split; reflexivity. Qed.

(** In chat.py the flag [--no-flash-attn] does override the default. *)
Example chat_no_flash_attn :
  ∃ x, spawned (chat.script ∅ [Opt "--no-flash-attn" None] (disk ok_child) start).2 = [x]
       ∧ drop 17 x = ["--mlock"].
Proof. eexists. split; reflexivity. Qed.

(** C1 on a disk without files, and on a disk with the model file
    only. *)
Lemma missing_file_stops_launch_witness :
  Exists (λ lp, regular_file model_only lp.2 = false) (required_files ocr_cfg)
  ∧ ∃ before label p after,
      required_files ocr_cfg = before ++ (label, p) :: after
      ∧ Forall (λ lp, regular_file model_only lp.2 = true) before
      ∧ regular_file model_only p = false
      ∧ launch ∅ ocr_cfg model_only start =
          (SystemExit 1,
           Streams EmptyString
             ("Error: " +:+ label +:+ " file not found at " +:+ str_of_path p +:+ Str.nl)
             [])
      ∧ exit_status (launch ∅ ocr_cfg model_only start).1 = 1.
Proof.
  assert (Exists (λ lp, regular_file model_only lp.2 = false) (required_files ocr_cfg)) as Hex.
  { apply Exists_cons_tl, Exists_cons_hd. reflexivity. }
  split; [exact Hex|]. exact (missing_file_stops_launch model_only ∅ ocr_cfg Hex).
Defined.

(** C2, as amended, on the built-in configuration of the OCR
    launchers: the context size 16384 is rendered as [-c] followed by a
    word that is the plain decimal number 16384. *)
Lemma argv_flags_in_order_witness :
  configured ocr_cfg !! 6%nat = Some ("-c", VInt 16384)
  ∧ argv ocr_cfg !! 13%nat = Some "-c"
  ∧ ∃ word, argv ocr_cfg !! 14%nat = Some word ∧ string_form (VInt 16384) word.
Proof.
  split; [reflexivity|].
  destruct (argv_flags_in_order ocr_cfg) as (_ & _ & Hpos & _).
  exact (Hpos 6%nat "-c" (VInt 16384) eq_refl).
Defined.

(** C2 as it is stated fails when the value of an option spells a flag:
    with [CACHE_TYPE_K=-m] the argument vector of chat.py holds the word
    [-m] twice, as the flag of the model and as the value of [-ctk]. *)
Lemma flag_word_occurs_twice :
  resolve chat_py "/srv/app" invocation.dash_m_env [] = Some invocation.dash_m_cfg
  ∧ valid (invocation.model_disk ok_child) invocation.dash_m_cfg
  ∧ "-m" ∈ (configured invocation.dash_m_cfg).*1
  ∧ argv invocation.dash_m_cfg !! 1%nat = Some "-m"
  ∧ argv invocation.dash_m_cfg !! 14%nat = Some "-m"
  ∧ occurrences "-m" (argv invocation.dash_m_cfg) = 2%nat.
Proof.
  split; [reflexivity|].
  split; [apply Forall_cons_2; [reflexivity|apply Forall_nil_2]|].
  split; [concrete_elem|]. repeat split; reflexivity.
Qed.


Lemma valid_disk (behaviour : child) :
  valid (disk behaviour) ocr_cfg ∧ valid (disk behaviour) chat_cfg.
Proof. split; repeat constructor. Qed.

(** C4, as amended, on a child that prints [{"ok":true}] and exits
    with 0. *)
Lemma capture_success_prints_trimmed_witness :
  capture_mode ocr_cfg = true
  ∧ valid (disk ok_child) ocr_cfg
  ∧ execute (disk ok_child) ∅ (argv ocr_cfg) = ok_child
  ∧ decode (disk ok_child) ("  " +:+ ok_json +:+ Str.nl) = inr ("  " +:+ ok_json +:+ Str.nl)
  ∧ decode (disk ok_child) ("warning: slow" +:+ Str.nl) = inr ("warning: slow" +:+ Str.nl)
  ∧ ∃ t, trim_of (Str.replace_cr (Str.replace_crlf ("  " +:+ ok_json +:+ Str.nl))) t
      ∧ launch ∅ ocr_cfg (disk ok_child) start =
          (Return tt, Streams (t +:+ Str.nl) EmptyString [argv ocr_cfg])
      ∧ exit_status (launch ∅ ocr_cfg (disk ok_child) start).1 = 0.
Proof.
  split; [reflexivity|]. split; [apply valid_disk|]. split; [reflexivity|].
  split; [reflexivity|]. split; [reflexivity|].
  apply (capture_success_prints_trimmed (disk ok_child) ∅ ocr_cfg
           ("  " +:+ ok_json +:+ Str.nl) ("warning: slow" +:+ Str.nl)
           ("  " +:+ ok_json +:+ Str.nl) ("warning: slow" +:+ Str.nl));
    [reflexivity|apply valid_disk|reflexivity|reflexivity|reflexivity].
Defined.

(** What the launcher prints then is [{"ok":true}] and a newline, also
    when no-break spaces surround the text. *)
Example capture_success_ok_json :
  stdout (launch ∅ ocr_cfg (disk ok_child) start).2 = ok_json +:+ Str.nl
  ∧ stdout (launch ∅ ocr_cfg (disk nbsp_child) start).2 = ok_json +:+ Str.nl.
Proof. split; reflexivity. Qed.

(** C4 as it is stated fails: a child that exits with 0 having written
    [a], a carriage return and [b] makes the launcher print [a], a line
    feed and [b], which is not what the child wrote without its leading
    and trailing white space; and a child that exits with 0 having
    written a byte that is no text makes the launcher exit with 1. *)
Lemma capture_success_alters_text :
  capture_mode ocr_cfg = true
  ∧ valid (disk cr_child) ocr_cfg
  ∧ execute (disk cr_child) ∅ (argv ocr_cfg) =
      Terminated 0 ("a" +:+ String (ascii_of_nat 13) "b") EmptyString
  ∧ stdout (launch ∅ ocr_cfg (disk cr_child) start).2 = "a" +:+ Str.nl +:+ "b" +:+ Str.nl
  ∧ ¬ (∃ t, trim_of ("a" +:+ String (ascii_of_nat 13) "b") t
         ∧ launch ∅ ocr_cfg (disk cr_child) start =
             (Return tt, Streams (t +:+ Str.nl) EmptyString [argv ocr_cfg]))
  ∧ valid (disk binary_child) ocr_cfg
  ∧ execute (disk binary_child) ∅ (argv ocr_cfg) = Terminated 0 bad_byte EmptyString
  ∧ stdout (launch ∅ ocr_cfg (disk binary_child) start).2 = EmptyString
  ∧ exit_status (launch ∅ ocr_cfg (disk binary_child) start).1 = 1.
Proof.
  split; [reflexivity|]. split; [apply valid_disk|]. split; [reflexivity|].
  split; [reflexivity|]. split.
  - intros (t & (lead & trail & Heq & _) & Hrun).
    assert (launch ∅ ocr_cfg (disk cr_child) start =
              (Return tt,
               Streams ("a" +:+ Str.nl +:+ "b" +:+ Str.nl) EmptyString [argv ocr_cfg])) as Hout
      by (reflexivity).
    rewrite Hout in Hrun. injection Hrun as Ht.
    assert (t = "a" +:+ Str.nl +:+ "b") as ->.
    { destruct t as [|x [|y [|z [|u t]]]]; cbn in Ht; try discriminate Ht.
      - by injection Ht as <- <- <-.
      - injection Ht as _ _ _ _ Ht. by destruct t. }
    destruct lead as [|l1 [|l2 [|l3 [|l4 lead]]]]; cbn in Heq; discriminate Heq.
  - split; [apply valid_disk|]. split; [reflexivity|].
    split; reflexivity.
Qed.

(** C5, as amended, on a child that exits with 2. *)
Lemma capture_failure_relays_witness :
  capture_mode ocr_cfg = true
  ∧ valid (disk failing_child) ocr_cfg
  ∧ execute (disk failing_child) ∅ (argv ocr_cfg) = failing_child
  ∧ (2 ≠ 0)
  ∧ decode (disk failing_child) ("partial" +:+ Str.nl) = inr ("partial" +:+ Str.nl)
  ∧ decode (disk failing_child) ("error: out of memory" +:+ Str.nl)
      = inr ("error: out of memory" +:+ Str.nl)
  ∧ ∃ e s,
      trim_of (Str.replace_cr (Str.replace_crlf ("error: out of memory" +:+ Str.nl))) e
      ∧ trim_of (Str.replace_cr (Str.replace_crlf ("partial" +:+ Str.nl))) s
      ∧ launch ∅ ocr_cfg (disk failing_child) start =
          (SystemExit 2,
           Streams EmptyString
             ("Error: Command failed with exit code " +:+ Str.of_int 2 +:+ Str.nl
              +:+ Str.nl +:+ "--- stderr ---" +:+ Str.nl
              +:+ e +:+ Str.nl
              +:+ Str.nl +:+ "--- stdout ---" +:+ Str.nl
              +:+ s +:+ Str.nl)
             [argv ocr_cfg])
      ∧ (0 < 2 < 256 → exit_status (launch ∅ ocr_cfg (disk failing_child) start).1 = 2).
Proof.
  split; [reflexivity|]. split; [apply valid_disk|]. split; [reflexivity|].
  split; [lia|]. split; [reflexivity|]. split; [reflexivity|].
  apply (capture_failure_relays (disk failing_child) ∅ ocr_cfg 2
           ("partial" +:+ Str.nl) ("error: out of memory" +:+ Str.nl)
           ("partial" +:+ Str.nl) ("error: out of memory" +:+ Str.nl));
    [reflexivity|apply valid_disk|reflexivity|lia|reflexivity|reflexivity].
Defined.

(** C5 as it is stated fails: when the child exits with 3 and what it
    wrote to its standard error is no text in the encoding of the
    locale, the launcher reports the decoding error instead of the
    captured output and exits with 1. *)
Lemma capture_failure_without_relay :
  capture_mode ocr_cfg = true
  ∧ valid (disk binary_failing_child) ocr_cfg
  ∧ execute (disk binary_failing_child) ∅ (argv ocr_cfg) = Terminated 3 EmptyString bad_byte
  ∧ 3 ≠ 0
  ∧ launch ∅ ocr_cfg (disk binary_failing_child) start =
      (SystemExit 1,
       Streams EmptyString
         ("An unexpected error occurred: "
          +:+ "'utf-8' codec can't decode byte 0xff in position 0: invalid start byte"
          +:+ Str.nl)
         [argv ocr_cfg])
  ∧ exit_status (launch ∅ ocr_cfg (disk binary_failing_child) start).1 ≠ 3.
Proof.
  split; [reflexivity|]. split; [apply valid_disk|]. split; [reflexivity|].
  split; [done|]. split; [reflexivity|]. by vm_compute.
Qed.

(** C6 on a search path without the executable. *)
Lemma missing_executable_exits_1_witness :
  valid (disk NoSuchExecutable) chat_cfg
  ∧ execute (disk NoSuchExecutable) ∅ (argv chat_cfg) = NoSuchExecutable
  ∧ (launch ∅ chat_cfg (disk NoSuchExecutable) start).1 = SystemExit 1
  ∧ stderr (launch ∅ chat_cfg (disk NoSuchExecutable) start).2 =
      "Error: '" +:+ not_found_name chat_cfg +:+ "' command not found." +:+ Str.nl
      +:+ guidance chat_cfg +:+ Str.nl
  ∧ spawned (launch ∅ chat_cfg (disk NoSuchExecutable) start).2 = [argv chat_cfg]
  ∧ exit_status (launch ∅ chat_cfg (disk NoSuchExecutable) start).1 = 1.
Proof.
  split; [apply valid_disk|]. split; [reflexivity|].
  apply (missing_executable_exits_1 (disk NoSuchExecutable) ∅ chat_cfg);
    [apply valid_disk|reflexivity].
Defined.

(** C7 on a server that ends with status 3. *)
Lemma streaming_exit_status_witness :
  capture_mode chat_cfg = false
  ∧ valid (disk (Terminated 3 EmptyString EmptyString)) chat_cfg
  ∧ execute (disk (Terminated 3 EmptyString EmptyString)) ∅ (argv chat_cfg)
      = Terminated 3 EmptyString EmptyString
  ∧ (launch ∅ chat_cfg (disk (Terminated 3 EmptyString EmptyString)) start).1 = SystemExit 3
  ∧ (0 ≤ 3 < 256 →
     exit_status (launch ∅ chat_cfg (disk (Terminated 3 EmptyString EmptyString)) start).1 = 3).
Proof.
  split; [reflexivity|]. split; [apply valid_disk|]. split; [reflexivity|].
  apply (streaming_exit_status (disk (Terminated 3 EmptyString EmptyString)) ∅ chat_cfg 3
           EmptyString EmptyString);
    [reflexivity|apply valid_disk|reflexivity].
Defined.

(** C10, as amended, on the child of C4. *)
Lemma capture_success_drops_stderr_witness :
  capture_mode ocr_cfg = true
  ∧ valid (disk ok_child) ocr_cfg
  ∧ execute (disk ok_child) ∅ (argv ocr_cfg) = ok_child
  ∧ decode (disk ok_child) ("  " +:+ ok_json +:+ Str.nl) = inr ("  " +:+ ok_json +:+ Str.nl)
  ∧ decode (disk ok_child) ("warning: slow" +:+ Str.nl) = inr ("warning: slow" +:+ Str.nl)
  ∧ stderr (launch ∅ ocr_cfg (disk ok_child) start).2 = EmptyString
  ∧ stdout (launch ∅ ocr_cfg (disk ok_child) start).2
      = Str.strip (Str.replace_cr (Str.replace_crlf ("  " +:+ ok_json +:+ Str.nl))) +:+ Str.nl
  ∧ (∀ (w' : World) (env' : environ) (out' err' E' : string),
       valid w' ocr_cfg →
       execute w' env' (argv ocr_cfg) = Terminated 0 out' err' →
       decode w' out' = inr ("  " +:+ ok_json +:+ Str.nl) →
       decode w' err' = inr E' →
       launch env' ocr_cfg w' start = launch ∅ ocr_cfg (disk ok_child) start).
Proof.
  split; [reflexivity|]. split; [apply valid_disk|]. split; [reflexivity|].
  split; [reflexivity|]. split; [reflexivity|].
  apply (capture_success_drops_stderr (disk ok_child) ∅ ocr_cfg
           ("  " +:+ ok_json +:+ Str.nl) ("warning: slow" +:+ Str.nl)
           ("  " +:+ ok_json +:+ Str.nl) ("warning: slow" +:+ Str.nl));
    [reflexivity|apply valid_disk|reflexivity|reflexivity|reflexivity].
Defined.

(** C10 as it is stated fails: when the child exits with 0 and what it
    wrote to its standard error is no text in the encoding of the
    locale, the launcher writes an error message to its standard error,
    prints nothing of the captured standard output and exits with 1. *)
Lemma capture_success_reports_stderr :
  capture_mode ocr_cfg = true
  ∧ valid (disk binary_warning_child) ocr_cfg
  ∧ execute (disk binary_warning_child) ∅ (argv ocr_cfg) = Terminated 0 ok_json bad_byte
  ∧ decode (disk binary_warning_child) ok_json = inr ok_json
  ∧ stderr (launch ∅ ocr_cfg (disk binary_warning_child) start).2 =
      "An unexpected error occurred: "
      +:+ "'utf-8' codec can't decode byte 0xff in position 0: invalid start byte"
      +:+ Str.nl
  ∧ stderr (launch ∅ ocr_cfg (disk binary_warning_child) start).2 ≠ EmptyString
  ∧ stdout (launch ∅ ocr_cfg (disk binary_warning_child) start).2 = EmptyString
  ∧ exit_status (launch ∅ ocr_cfg (disk binary_warning_child) start).1 = 1.
Proof.
  split; [reflexivity|]. split; [apply valid_disk|]. split; [reflexivity|].
  split; [reflexivity|]. split; [reflexivity|].
  split; [by vm_compute|]. split; reflexivity.
Qed.

(** C8, amended, on a port given by the environment and by the command
    line. *)
Lemma options_are_layered_witness :
  load_module chat_py "/srv/app" port_env = Some port_module
  ∧ parse_args (module_parser port_module) port_cli = Parsed port_namespace
  ∧ (∀ o, o ∈ cli_options chat_py "/srv/app/data" →
       is_Some (port_namespace !! holder o)
       ∧ port_namespace !! holder o =
           layered (kind_of o) (builtin o) (port_env !! variable o)
             (cli_value (module_parser port_module) (holder o) port_cli))
  ∧ (∀ o, o ∈ env_options chat_py "/srv/app" →
       is_Some (module_value port_module (holder o))
       ∧ module_value port_module (holder o) =
           layered (kind_of o) (builtin o) (port_env !! variable o) None).
Proof.
  assert (load_module chat_py "/srv/app" port_env = Some port_module) as Hload
    by reflexivity.
  assert (parse_args (module_parser port_module) port_cli = Parsed port_namespace) as Hparse
    by reflexivity.
  split; [exact Hload|]. split; [exact Hparse|].
  exact (options_are_layered chat_py "/srv/app" port_env port_cli port_module
           port_namespace Hload Hparse).
Defined.

(** The value the command line gives to an attribute: the last flag for
    it decides. *)
Example cli_value_port :
  cli_value (chat.parser posix.chat_config) "port"
    [Opt "--port" (Some "9090"); Opt "-c" (Some "1")] = Some (VInt 9090)
  ∧ cli_value (chat.parser posix.chat_config) "flash_attn"
      [Opt "-fa" None; Opt "--no-flash-attn" None] = Some (VBool false)
  ∧ cli_value (chat.parser posix.chat_config) "mlock" [Opt "-fa" None] = None.
Proof. repeat split; reflexivity. Qed.

(** An environment variable that is not a number stops the script at
    its module level, also when the command line gives the option. *)
Example port_not_a_number :
  chat.script {[ "SERVER_PORT" := "abc" ]} port_cli (disk ok_child) start
    = (Raise ValueError, start).
Proof. reflexivity. Qed.

(** The port is the one of the command line. *)
Example port_from_command_line : port_namespace !! "port" = Some (VInt 9090).
Proof. reflexivity. Qed.

(** C8 as it is stated fails on the flash-attention option of
    ocr_meta.py: in the empty environment the option is on; the flag
    that turns it off in chat.py is a usage error here, and no command
    line at all makes the launcher spawn a command without [-fa]. *)
Lemma ocr_flash_attn_ignores_command_line :
  exit_status
    (ocr.script ocr.ocr_meta ∅ [Opt "--no-flash-attn" None] (disk ok_child) start).1 = 2
  ∧ spawned
      (ocr.script ocr.ocr_meta ∅ [Opt "--no-flash-attn" None] (disk ok_child) start).2 = []
  ∧ ∀ cli x,
      spawned (ocr.script ocr.ocr_meta ∅ cli (disk ok_child) start).2 = [x] →
      "-fa" ∈ drop 23 x.
Proof.
  split; [reflexivity|]. split; [reflexivity|].
  intros cli x (c & ns & a & Hc & _ & _ & ->)%ocr_script_spawned.
  assert (ocr.load ocr.ocr_meta "/srv/app" ∅ = Some posix.ocr_config) as Hload
    by (reflexivity).
  cbn in Hc. rewrite Hload in Hc. injection Hc as <-.
  rewrite ocr_toggle_part. concrete_elem.
Qed.


End closed_examples.
(** * Further properties of the parser *)

Section parser_acceptance.
Context `{PyLib}.
Import argparse io.

Lemma take_action_call (p : list argument) (a : action) arg v :
  take_action a arg = Parsed v → call_action p a arg = Parsed v.
Proof. by destruct a, arg. Qed.

(** The help is printed, or else an expansion of a help text of the
    parser raises. *)
Lemma print_help_cases (p : list argument) :
  print_help p = Parsed tt
  ∨ ∃ a h e, a ∈ p ∧ help_text a = Some h ∧ help_error h = Some e
        ∧ print_help p = ParserRaise e.
Proof.
  unfold print_help.
  destruct (omap (λ a, h ← help_text a; help_error h) p) as [|e l] eqn:Hl; [by left|].
  right. assert (e ∈ omap (λ a, h ← help_text a; help_error h) p) as Hin
    by (rewrite Hl; by left).
  apply list_elem_of_omap in Hin as (a & Ha & He).
  destruct (help_text a) as [h|] eqn:Hh; [|done]. cbn in He.
  by exists a, h, e.
Qed.

Lemma consume_accepted (p : list argument) st w :
  accepted p w = true →
  ∃ st', consume p st w = Parsed st' ∧ extras st' = extras st.
Proof.
  destruct w as [flag arg|word]; [|done]. cbn.
  destruct (find_action p flag) as [[i a]|]; [|done].
  destruct (take_action (act a) arg) as [v|n|e] eqn:Ht; [|done..].
  rewrite (take_action_call p _ _ _ Ht). cbn. eauto.
Qed.

Lemma consume_not_accepted (p : list argument) st w st' :
  accepted p w = false → consume p st w = Parsed st' → extras st' = true.
Proof.
  destruct w as [flag arg|word]; cbn.
  - destruct (find_action p flag) as [[i a]|]; [|by intros _ [= <-]].
    destruct (call_action p (act a) arg) as [v|n|e] eqn:Hc; [|done..].
    by rewrite (call_action_Parsed _ _ _ _ Hc).
  - by intros _ [= <-].
Qed.

Lemma consume_extras_mono (p : list argument) st w st' :
  consume p st w = Parsed st' → extras st = true → extras st' = true.
Proof.
  destruct w as [flag arg|word]; cbn.
  - destruct (find_action p flag) as [[i a]|]; [|by intros [= <-]].
    destruct (call_action p (act a) arg); [|done..]. by intros [= <-].
  - by intros [= <-].
Qed.

Lemma consume_all_extras_mono (p : list argument) cli st st' :
  consume_all p st cli = Parsed st' → extras st = true → extras st' = true.
Proof.
  revert st. induction cli as [|w cli IH]; intros st.
  - by intros [= <-].
  - intros (st1 & Hw & Hrest)%consume_all_cons He.
    apply (IH _ Hrest). by apply (consume_extras_mono _ _ _ _ Hw).
Qed.

Lemma consume_all_accepted (p : list argument) cli st :
  Forall (λ w, accepted p w = true) cli →
  ∃ st', consume_all p st cli = Parsed st' ∧ extras st' = extras st.
Proof.
  intros Hall. revert st. induction Hall as [|w cli Hw _ IH]; intros st.
  - by exists st.
  - destruct (consume_accepted p st w Hw) as (st1 & E1 & X1).
    destruct (IH st1) as (st' & E' & X'). exists st'. cbn. rewrite E1. cbn.
    split; [done|congruence].
Qed.

Lemma consume_all_clean (p : list argument) cli st st' :
  consume_all p st cli = Parsed st' → extras st' = false →
  Forall (λ w, accepted p w = true) cli.
Proof.
  revert st. induction cli as [|w cli IH]; intros st; [by constructor|].
  intros (st1 & Hw & Hrest)%consume_all_cons He. constructor; [|by eapply IH].
  destruct (accepted p w) eqn:Ha; [done|].
  pose proof (consume_not_accepted _ _ _ _ Ha Hw) as H1.
  pose proof (consume_all_extras_mono _ _ _ _ Hrest H1). congruence.
Qed.

(** The loop stops with status 2, or with status 0 at a word that asks
    for the help. *)
Lemma consume_all_exit (p : list argument) cli st n :
  consume_all p st cli = ParserExit n →
  n = 2 ∨ (n = 0 ∧ Exists (λ w, asks_help p w = true) cli).
Proof.
  revert st. induction cli as [|w cli IH]; intros st; [done|]. cbn.
  destruct (consume p st w) as [st1|k|e] eqn:Hw; cbn; [| |done].
  - intros Hrest. destruct (IH _ Hrest) as [->|[-> Hex]]; [by left|].
    right. split; [done|]. by apply Exists_cons_tl.
  - intros [= ->]. destruct w as [flag arg|word]; [|done]. cbn in Hw.
    destruct (find_action p flag) as [[i a]|] eqn:Hf; [|done].
    destruct (act a) as [ty| | |] eqn:Hact, arg as [s|]; cbn in Hw;
      try (destruct (convert ty s); cbn in Hw);
      try discriminate Hw; try (injection Hw as <-; by left).
    destruct (print_help_cases p) as [Hp|(b & h & e' & _ & _ & _ & Hp)];
      rewrite Hp in Hw; cbn in Hw; [|done]. injection Hw as <-.
    right. split; [done|]. apply Exists_cons_hd. cbn. by rewrite Hf, Hact.
Qed.

(** The loop raises only at a word that asks for the help, with the
    exception of the expansion of a help text of the parser. *)
Lemma consume_all_raise (p : list argument) cli st e :
  consume_all p st cli = ParserRaise e →
  Exists (λ w, asks_help p w = true) cli
  ∧ ∃ a h, a ∈ p ∧ help_text a = Some h ∧ help_error h = Some e.
Proof.
  revert st. induction cli as [|w cli IH]; intros st; [done|]. cbn.
  destruct (consume p st w) as [st1|k|e'] eqn:Hw; cbn; [|done|].
  - intros Hrest. destruct (IH _ Hrest) as [Hex Hhelp].
    split; [by apply Exists_cons_tl|done].
  - intros [= ->]. destruct w as [flag arg|word]; [|done]. cbn in Hw.
    destruct (find_action p flag) as [[i a]|] eqn:Hf; [|done].
    destruct (act a) as [ty| | |] eqn:Hact, arg as [s|]; cbn in Hw;
      try (destruct (convert ty s); cbn in Hw); try discriminate Hw.
    destruct (print_help_cases p) as [Hp|(b & h & e' & Hb & Hh & He & Hp)];
      rewrite Hp in Hw; cbn in Hw; [done|]. injection Hw as ->.
    split; [|by exists b, h]. apply Exists_cons_hd. cbn. by rewrite Hf, Hact.
Qed.

Lemma convert_defaults_exit (p : list argument) i sn ns n :
  convert_defaults i p sn ns = ParserExit n → n = 2.
Proof.
  revert i ns. induction p as [|a p IH]; intros i ns; [done|]. cbn.
  destruct (bool_decide (i ∈ sn)); [apply IH|].
  destruct (act a); try apply IH.
  destruct (default_value a) as [[]|]; try apply IH.
  destruct (ns !! dest a) as [[]|]; try apply IH.
  destruct (bool_decide _); [|apply IH].
  destruct (convert _ _); [apply IH|]. by intros [= <-].
Qed.

Lemma convert_defaults_no_raise (p : list argument) i sn ns e :
  convert_defaults i p sn ns ≠ ParserRaise e.
Proof.
  revert i ns. induction p as [|a p IH]; intros i ns; [done|]. cbn.
  destruct (bool_decide (i ∈ sn)); [apply IH|].
  destruct (act a); try apply IH.
  destruct (default_value a) as [[]|]; try apply IH.
  destruct (ns !! dest a) as [[]|]; try apply IH.
  destruct (bool_decide _); [|apply IH].
  destruct (convert _ _); [apply IH|done].
Qed.

Lemma convert_defaults_total (p : list argument) i sn ns :
  defaults_convert p → ∃ ns', convert_defaults i p sn ns = Parsed ns'.
Proof.
  intros Hall. revert i ns. induction Hall as [|a p Ha _ IH]; intros i ns; cbn.
  - by exists ns.
  - destruct (bool_decide (i ∈ sn)); [apply IH|].
    destruct (act a) as [ty| | |]; try apply IH.
    destruct (default_value a) as [[| | |s| |]|]; try apply IH.
    destruct (ns !! dest a) as [[]|]; try apply IH.
    destruct (bool_decide _); [|apply IH].
    destruct (Ha ty s eq_refl eq_refl) as [v ->]. apply IH.
Qed.

Lemma chat_defaults_convert (c : chat.config) : defaults_convert (chat.parser c).
Proof.
  unfold defaults_convert. cbn. repeat apply Forall_cons_2; try apply Forall_nil_2;
    intros ty s Hact Hdef; cbn in Hact, Hdef; try discriminate;
    injection Hact as <-; by eexists.
Qed.

Lemma ocr_defaults_convert (c : ocr.config) : defaults_convert (ocr.parser c).
Proof.
  unfold defaults_convert. cbn. repeat apply Forall_cons_2; try apply Forall_nil_2;
    intros ty s Hact Hdef; cbn in Hact, Hdef; try discriminate;
    injection Hact as <-; by eexists.
Qed.

Lemma module_defaults_convert (m : module_config) : defaults_convert (module_parser m).
Proof. destruct m; [apply chat_defaults_convert|apply ocr_defaults_convert]. Qed.

(** [parse_args] of a launcher returns a namespace exactly when the
    parser accepts every word of the command line. *)
Lemma parse_args_accepts (m : module_config) (cli : list cli_arg) :
  (∃ ns, parse_args (module_parser m) cli = Parsed ns)
  ↔ Forall (λ w, accepted (module_parser m) w = true) cli.
Proof.
  split.
  - intros [ns (st & Hloop & _ & He)%parse_args_Parsed].
    by apply (consume_all_clean _ _ _ _ Hloop).
  - intros Hall. unfold parse_args.
    destruct (consume_all_accepted (module_parser m) cli
                (PState (init_namespace (module_parser m)) [] false) Hall)
      as (st & -> & He). cbn.
    destruct (convert_defaults_total (module_parser m) 0 (seen st) (ns_of st)
                (module_defaults_convert m)) as [ns ->]. cbn.
    cbn in He. rewrite He. by exists ns.
Qed.

(** When [parse_args] exits, the status is 2, or it is 0 and some word
    of the command line asks for the help. *)
Lemma parse_args_exit_status (p : list argument) (cli : list cli_arg) (n : Z) :
  parse_args p cli = ParserExit n →
  n = 2 ∨ (n = 0 ∧ Exists (λ w, asks_help p w = true) cli).
Proof.
  unfold parse_args.
  destruct (consume_all _ _ _) as [st|k|e] eqn:Hloop; cbn; [| |done].
  - destruct (convert_defaults _ _ _ _) as [ns|k|e] eqn:Hc; cbn; [| |done].
    + destruct (extras st); [|done]. intros [= <-]. by left.
    + intros [= ->]. left. by eapply convert_defaults_exit.
  - intros [= ->]. by eapply consume_all_exit.
Qed.

(** When [parse_args] raises, some word of the command line asks for
    the help, and the exception is the one the expansion of a help text
    of the parser raises. *)
Lemma parse_args_raise (p : list argument) (cli : list cli_arg) (e : string) :
  parse_args p cli = ParserRaise e →
  Exists (λ w, asks_help p w = true) cli
  ∧ ∃ a h, a ∈ p ∧ help_text a = Some h ∧ help_error h = Some e.
Proof.
  unfold parse_args.
  destruct (consume_all _ _ _) as [st|k|e'] eqn:Hloop; cbn; [|done|].
  - destruct (convert_defaults _ _ _ _) as [ns|k|e'] eqn:Hc; cbn.
    + by destruct (extras st).
    + done.
    + by destruct (convert_defaults_no_raise _ _ _ _ _ Hc).
  - intros [= ->]. by eapply consume_all_raise.
Qed.

(** The parsers of the OCR launchers give no help text apart from the
    one of [-h], whose expansion does not raise, so that they never
    raise. *)
Lemma ocr_parse_args_no_raise (c : ocr.config) (cli : list cli_arg) (e : string) :
  help_error "show this help message and exit" = None →
  parse_args (ocr.parser c) cli ≠ ParserRaise e.
Proof.
  intros Hh (_ & a & h & Ha & Hhelp & He)%parse_args_raise.
  apply list_elem_of_lookup_1 in Ha as [j Hj].
  each_argument j Hj; cbn in Hhelp; try discriminate Hhelp.
  injection Hhelp as <-. congruence.
Qed.

End parser_acceptance.

(** * Further properties of the launchers *)

Section launch_properties.
Context `{PyLib}.
Import argparse io.

(** A configuration that is not valid: the launcher exits with 1 before
    it writes to its standard output or spawns. *)
Lemma launch_invalid (w : World) (env : environ) (cfg : LaunchConfig) :
  ¬ valid w cfg →
  (launch env cfg w start).1 = SystemExit 1
  ∧ stdout (launch env cfg w start).2 = EmptyString
  ∧ spawned (launch env cfg w start).2 = [].
Proof.
  intros Hv. destruct cfg as [c a|c a|]; cbn.
  - destruct (regular_file w (chat.model a)) eqn:Hm; [by destruct Hv; apply valid_chat|].
    unfold chat.launch. io_unfold. by rewrite Hm.
  - destruct (regular_file w (ocr.model a)) eqn:Hm;
      [destruct (regular_file w (ocr.mmproj a)) eqn:Hp;
        [destruct (regular_file w (ocr.image a)) eqn:Hi|]|].
    + by destruct Hv; apply valid_ocr.
    + unfold ocr.launch. io_unfold. by rewrite Hm, Hp, Hi.
    + unfold ocr.launch. io_unfold. by rewrite Hm, Hp.
    + unfold ocr.launch. io_unfold. by rewrite Hm.
  - destruct Hv. by constructor.
Qed.

Lemma valid_dec (w : World) (cfg : LaunchConfig) : valid w cfg ∨ ¬ valid w cfg.
Proof.
  unfold valid. induction (required_files cfg) as [|[l p] fs IH].
  - left. constructor.
  - destruct (regular_file w p) eqn:Hp.
    + destruct IH as [IH|IH]; [left; by constructor|].
      right. intros Hall. apply IH. by inversion Hall.
    + right. intros Hall. inversion Hall as [|? ? Hhd]. cbn in Hhd. congruence.
Qed.

(** What a valid configuration makes of [launch], for every launcher. *)
Lemma launch_valid (w : World) (env : environ) (cfg : LaunchConfig) :
  valid w cfg →
  let announced :=
    if capture_mode cfg then EmptyString
    else opening cfg +:+ Str.join " " (argv cfg) +:+ Str.nl in
  launch env cfg w start =
    match execute w env (argv cfg) with
    | NoSuchExecutable =>
        (SystemExit 1,
         Streams announced
           ("Error: '" +:+ not_found_name cfg +:+ "' command not found." +:+ Str.nl
            +:+ guidance cfg +:+ Str.nl)
           [argv cfg])
    | SpawnError m =>
        (SystemExit 1,
         Streams announced (catch_all cfg +:+ m +:+ Str.nl) [argv cfg])
    | Terminated rc o e =>
        if capture_mode cfg then
          match translate_newlines w o with
          | inl m => unexpected (argv cfg) m
          | inr out =>
              match translate_newlines w e with
              | inl m => unexpected (argv cfg) m
              | inr err =>
                  if rc =? 0 then
                    (Return tt, Streams (Str.strip out +:+ Str.nl) EmptyString [argv cfg])
                  else
                    (SystemExit rc,
                     Streams EmptyString
                       ("Error: Command failed with exit code " +:+ Str.of_int rc +:+ Str.nl
                        +:+ Str.nl +:+ "--- stderr ---" +:+ Str.nl
                        +:+ Str.strip err +:+ Str.nl
                        +:+ Str.nl +:+ "--- stdout ---" +:+ Str.nl
                        +:+ Str.strip out +:+ Str.nl)
                       [argv cfg])
              end
          end
        else
          (SystemExit rc,
           Streams (announced +:+ Str.nl +:+ closing cfg +:+ Str.of_int rc +:+ Str.nl)
             EmptyString [argv cfg])
    end.
Proof.
  intros Hv. destruct cfg as [c a|c a|]; cbn.
  - apply valid_chat in Hv. rewrite (chat_launch_valid w env c a Hv). cbn.
    destruct (execute w env _); by rewrite ?app_assoc_str.
  - apply valid_ocr in Hv as (Hm & Hp & Hi).
    rewrite (ocr_launch_valid w env c a Hm Hp Hi). cbv zeta.
    by destruct (execute w env _).
  - rewrite watch_main_runs. cbn. destruct (execute w env _); by rewrite ?app_assoc_str.
Qed.

Lemma translate_inr (w : World) (data text : string) :
  translate_newlines w data = inr text →
  ∃ S, decode w data = inr S ∧ text = Str.replace_cr (Str.replace_crlf S).
Proof.
  unfold translate_newlines. destruct (decode w data) as [m|S]; [done|].
  intros [= <-]. by exists S.
Qed.

(** X1: when the spawn fails for a reason other than a missing executable,
    the launcher writes the text of the exception after its catch-all
    words to standard error and exits with status 1. *)
Theorem spawn_failure_exits_1 (w : World) (env : environ) (cfg : LaunchConfig)
    (m : string) :
  valid w cfg →
  execute w env (argv cfg) = SpawnError m →
  (launch env cfg w start).1 = SystemExit 1
  ∧ stderr (launch env cfg w start).2 = catch_all cfg +:+ m +:+ Str.nl
  ∧ spawned (launch env cfg w start).2 = [argv cfg]
  ∧ exit_status (launch env cfg w start).1 = 1.
Proof.
  intros Hv Hx. rewrite (launch_valid w env cfg Hv). cbn. by rewrite Hx.
Qed.

(** X2: the launcher runs to the end of [main] exactly in capture mode,
    on a valid configuration, when the child returns 0 and what it wrote
    to its two streams is text in the encoding of the locale. *)
Theorem launch_returns_iff (w : World) (env : environ) (cfg : LaunchConfig) :
  (launch env cfg w start).1 = Return tt
  ↔ capture_mode cfg = true ∧ valid w cfg
    ∧ ∃ out err S E,
        execute w env (argv cfg) = Terminated 0 out err
        ∧ decode w out = inr S ∧ decode w err = inr E.
Proof.
  destruct (valid_dec w cfg) as [Hv|Hv].
  - rewrite (launch_valid w env cfg Hv). cbv zeta.
    destruct (execute w env (argv cfg)) as [|m|rc out err] eqn:Hx.
    + split; [done|]. by intros (_ & _ & ? & ? & ? & ? & ? & _).
    + split; [done|]. by intros (_ & _ & ? & ? & ? & ? & ? & _).
    + destruct (capture_mode cfg) eqn:Hc; [|split; [done|by intros [? _]]].
      destruct (translate_newlines w out) as [m|text] eqn:Hout.
      { split; [done|]. intros (_ & _ & ? & ? & S & E & [= _ <- <-] & Hd & _).
        by rewrite (translate_decoded _ _ _ Hd) in Hout. }
      destruct (translate_newlines w err) as [m|warnings] eqn:Herr.
      { split; [done|]. intros (_ & _ & ? & ? & S & E & [= _ <- <-] & _ & Hd).
        by rewrite (translate_decoded _ _ _ Hd) in Herr. }
      destruct (Z.eqb_spec rc 0) as [->|Hrc].
      * split; [|done]. intros _. split; [done|]. split; [done|].
        apply translate_inr in Hout as (S & HS & _).
        apply translate_inr in Herr as (E & HE & _).
        by exists out, err, S, E.
      * split; [done|]. by intros (_ & _ & ? & ? & ? & ? & [= ? _ _] & _).
  - destruct (launch_invalid w env cfg Hv) as (-> & _).
    split; [done|]. by intros (_ & ? & _).
Qed.



(** X5: in capture mode, white space around the output of the child does
    not reach the output of the launcher: when the text the child wrote,
    with CR LF and CR read as LF, is a trimmed text between white space,
    or only white space, the launcher prints that text, or an empty
    line. *)
Theorem capture_ignores_padding (w : World) (env : environ) (cfg : LaunchConfig)
    (out err S E lead T trail : string) :
  capture_mode cfg = true →
  valid w cfg →
  Str.all_space lead = true → Str.all_space trail = true → trimmed T →
  execute w env (argv cfg) = Terminated 0 out err →
  decode w out = inr S → decode w err = inr E →
  Str.replace_cr (Str.replace_crlf S) = lead +:+ T +:+ trail →
  launch env cfg w start = (Return tt, Streams (T +:+ Str.nl) EmptyString [argv cfg]).
Proof.
  intros Hc Hv Hl Ht Htrim Hx Hout Herr Htext. rewrite (launch_valid w env cfg Hv).
  cbv zeta.
  rewrite Hx, Hc, (translate_decoded _ _ _ Hout), (translate_decoded _ _ _ Herr).
  cbn. rewrite Htext, (strip_unique _ T); [done|]. by exists lead, trail.
Qed.

End launch_properties.

(** * The scripts, from the module level to the exit *)

Section script_properties.
Context `{PyLib}.
Import argparse io.

(** The module level loads unless a number does not read. *)
Lemma load_module_None (l : launcher) (dir : pypath) (env : environ) :
  load_module l dir env = None ↔ bad_number l env = true.
Proof.
  destruct l as [|v]; unfold bad_number; cbn;
    unfold chat.load, ocr.load, environ_get; cbn.
  - repeat match goal with
           | |- context [Str.to_int ?s] => destruct (Str.to_int s)
           end; cbn; by split.
  - repeat match goal with
           | |- context [Str.to_int ?s] => destruct (Str.to_int s)
           | |- context [float_of_str ?s] => destruct (float_of_str s)
           end; cbn; by split.
Qed.

(** The script of a launcher whose module level has loaded. *)
Lemma script_loaded (l : launcher) (env : environ) (cli : list cli_arg) (w : World) m :
  load_module l (script_dir w) env = Some m →
  run_script l env cli w start =
    match parse_args (module_parser m) cli with
    | ParserExit n => (SystemExit n, start)
    | ParserRaise e => (Raise (Exception e), start)
    | Parsed ns =>
        match config_of m ns with
        | Some cfg => launch env cfg w start
        | None => (Raise (Exception "AttributeError"), start)
        end
    end.
Proof.
  destruct l as [|v]; cbn.
  - destruct (chat.load _ env) as [c|] eqn:Hc; [|done]. intros [= <-].
    unfold chat.script, chat.main. rewrite Hc. cbn.
    destruct (parse_args _ cli) as [ns|n|e]; [|done..]. by destruct (chat.args_of ns).
  - destruct (ocr.load v _ env) as [c|] eqn:Hc; [|done]. intros [= <-].
    unfold ocr.script, ocr.main. rewrite Hc. cbn.
    destruct (parse_args _ cli) as [ns|n|e]; [|done..]. by destruct (ocr.args_of ns).
Qed.

Lemma script_unloaded (l : launcher) (env : environ) (cli : list cli_arg) (w : World) :
  load_module l (script_dir w) env = None →
  run_script l env cli w start = (Raise ValueError, start).
Proof.
  destruct l as [|v]; cbn.
  - destruct (chat.load _ env) as [c|] eqn:Hc; [done|]. intros _.
    unfold chat.script. by rewrite Hc.
  - destruct (ocr.load v _ env) as [c|] eqn:Hc; [done|]. intros _.
    unfold ocr.script. by rewrite Hc.
Qed.

(** A namespace [parse_args] returns has every attribute [args] reads. *)
Lemma config_of_parsed (m : module_config) (cli : list cli_arg) ns :
  parse_args (module_parser m) cli = Parsed ns → is_Some (config_of m ns).
Proof.
  destruct m as [c|c]; cbn; intros Hns.
  - destruct (chat_args_of c cli ns Hns) as [a ->]. by eexists.
  - destruct (ocr_args_of c cli ns Hns) as [a ->]. by eexists.
Qed.

Lemma resolve_Some (l : launcher) (dir : pypath) (env : environ) (cli : list cli_arg) cfg :
  resolve l dir env cli = Some cfg →
  ∃ m ns, load_module l dir env = Some m
    ∧ parse_args (module_parser m) cli = Parsed ns
    ∧ config_of m ns = Some cfg.
Proof.
  unfold resolve. destruct (load_module l dir env) as [m|]; [|done]. cbn.
  destruct (parse_args (module_parser m) cli) as [ns| |] eqn:Hns; [|done..].
  intros Hcfg. by exists m, ns.
Qed.

Lemma forallb_accepted (p : list argument) (cli : list cli_arg) :
  forallb (accepted p) cli = true ↔ Forall (λ w, accepted p w = true) cli.
Proof.
  rewrite forallb_forall, Forall_forall. split; intros Hall w Hw; apply Hall.
  - by apply list_elem_of_In.
  - by apply list_elem_of_In.
Qed.

Lemma existsb_asks_help (p : list argument) (cli : list cli_arg) :
  Exists (λ w, asks_help p w = true) cli → existsb (asks_help p) cli = true.
Proof.
  intros (x & Hin & Hx)%Exists_exists. apply existsb_exists.
  exists x. split; [by apply list_elem_of_In|done].
Qed.

(** X6: when the numbers of the module level read and the parser accepts
    every word of the command line, the invocation resolves to a launch
    configuration, and the script does what [launch] does on it. *)
Theorem accepted_command_line_launches (l : launcher) (env : environ)
    (cli : list cli_arg) (w : World) (m : module_config) :
  load_module l (script_dir w) env = Some m →
  forallb (accepted (module_parser m)) cli = true →
  ∃ cfg, resolve l (script_dir w) env cli = Some cfg
    ∧ run_script l env cli w start = launch env cfg w start.
Proof.
  intros Hm Hacc%forallb_accepted.
  apply parse_args_accepts in Hacc as [ns Hns].
  destruct (config_of_parsed m cli ns Hns) as [cfg Hcfg].
  exists cfg. unfold resolve. rewrite (script_loaded l env cli w m Hm), Hm. cbn.
  by rewrite Hns, Hcfg.
Qed.

(** X7: when the parser does not accept some word of the command line,
    the script ends in [parse_args], before any file is looked at and
    with no command spawned: through the exit of the parser with status
    2, or, when the help was asked for, through its exit with status 0
    or with the exception that the expansion of a help text of the
    parser raises, which nothing catches. *)
Theorem rejected_command_line_exits (l : launcher) (env : environ)
    (cli : list cli_arg) (w : World) (m : module_config) :
  load_module l (script_dir w) env = Some m →
  forallb (accepted (module_parser m)) cli = false →
  spawned (run_script l env cli w start).2 = []
  ∧ resolve l (script_dir w) env cli = None
  ∧ ((run_script l env cli w start).1 = SystemExit 2
     ∨ existsb (asks_help (module_parser m)) cli = true
       ∧ ((run_script l env cli w start).1 = SystemExit 0
          ∨ ∃ a h e,
              a ∈ module_parser m ∧ help_text a = Some h ∧ help_error h = Some e
              ∧ (run_script l env cli w start).1 = Raise (Exception e))).
Proof.
  intros Hm Hrej.
  rewrite (script_loaded l env cli w m Hm). unfold resolve. rewrite Hm. cbn.
  destruct (parse_args (module_parser m) cli) as [ns|n|e] eqn:Hns.
  - assert (forallb (accepted (module_parser m)) cli = true) as Hacc.
    { apply forallb_accepted, parse_args_accepts. by exists ns. }
    congruence.
  - split; [done|]. split; [done|].
    destruct (parse_args_exit_status _ _ _ Hns) as [->|[-> Hhelp]]; [by left|right].
    split; [by apply existsb_asks_help|]. by left.
  - split; [done|]. split; [done|].
    destruct (parse_args_raise _ _ _ Hns) as (Hhelp & a & h & Ha & Hh & He).
    right. split; [by apply existsb_asks_help|]. right. by exists a, h, e.
Qed.

(** The OCR launchers give their arguments no help text: when the
    expansion of the help text of [-h] itself returns, a rejected
    command line ends them through the exit of the parser. *)
Lemma ocr_rejected_command_line_exits (v : ocr.variant) (env : environ)
    (cli : list cli_arg) (w : World) (m : module_config) :
  help_error "show this help message and exit" = None →
  load_module (ocr_py v) (script_dir w) env = Some m →
  forallb (accepted (module_parser m)) cli = false →
  (run_script (ocr_py v) env cli w start).1 = SystemExit 2
  ∨ existsb (asks_help (module_parser m)) cli = true
    ∧ (run_script (ocr_py v) env cli w start).1 = SystemExit 0.
Proof.
  intros Hh Hm Hrej.
  destruct (rejected_command_line_exits (ocr_py v) env cli w m Hm Hrej)
    as (_ & _ & [Hexit|[Hhelp [Hexit|(a & h & e & Ha & Hhelp' & He & _)]]]);
    [by left|by right|].
  cbn in Hm. destruct (ocr.load v _ env) as [c|]; [|done]. injection Hm as <-.
  apply list_elem_of_lookup_1 in Ha as [j Hj].
  each_argument j Hj; cbn in Hhelp'; try discriminate Hhelp'.
  injection Hhelp' as <-. congruence.
Qed.

(** X8: a number of the module level that does not read ends the script
    with an uncaught [ValueError], whatever the command line and the
    files: no command is spawned and the exit status is 1. *)
Theorem bad_number_raises_value_error (l : launcher) (env : environ)
    (cli : list cli_arg) (w : World) :
  bad_number l env = true →
  (run_script l env cli w start).1 = Raise ValueError
  ∧ spawned (run_script l env cli w start).2 = []
  ∧ exit_status (run_script l env cli w start).1 = 1.
Proof.
  intros Hbad%(load_module_None l (script_dir w)).
  by rewrite (script_unloaded l env cli w Hbad).
Qed.

(** X10: when [DATA_DIR] is set in the environment, the directory of the
    script plays no part: the invocation resolves to the same launch
    configuration wherever the script lies. *)
Theorem data_dir_overrides_script_dir (l : launcher) (env : environ)
    (cli : list cli_arg) (d : string) (dir1 dir2 : pypath) :
  env !! "DATA_DIR" = Some d →
  resolve l dir1 env cli = resolve l dir2 env cli.
Proof.
  intros Hd. unfold resolve.
  assert (load_module l dir1 env = load_module l dir2 env) as ->; [|done].
  destruct l as [|v]; cbn; unfold chat.load, ocr.load, environ_get; by rewrite Hd.
Qed.

End script_properties.
(** * From the texts of an invocation to the argument vector *)

Section option_values.
Context `{PyLib}.
Import argparse io.

Lemma flag_text_cons (fl : list string) w cli :
  flag_text fl (w :: cli) =
    match flag_text fl cli with
    | Some s => Some s
    | None => flag_word fl w
    end.
Proof.
  unfold flag_text. cbn. destruct (flag_word fl w) as [s|]; cbn.
  - rewrite last_cons. by destruct (last _).
  - by destruct (last _).
Qed.

(** An option string selects the argument it belongs to. *)
Lemma find_action_distinct (p : list argument) i a flag :
  distinct_option_strings p →
  p !! i = Some a → flag ∈ option_strings a →
  find_action p flag = Some (i, a).
Proof.
  unfold distinct_option_strings, find_action. revert i.
  induction p as [|b p IH]; intros i Hnd Hi Hflag; [done|].
  cbn in Hnd. apply NoDup_app in Hnd as (_ & Hdisj & Hnd).
  destruct i as [|i]; cbn in Hi.
  - injection Hi as ->. cbn. by rewrite decide_True.
  - cbn. rewrite decide_False.
    + by rewrite (IH i Hnd Hi Hflag).
    + intros Hb. apply (Hdisj flag Hb). apply list_elem_of_bind.
      exists a. split; [done|]. by eapply list_elem_of_lookup_2.
Qed.

Lemma elem_of_option_strings_of (p : list argument) d k i a flag :
  distinct_option_strings p →
  find_action p flag = Some (i, a) →
  flag ∈ option_strings_of p d k ↔ dest a = d ∧ k (act a) = true.
Proof.
  intros Hnd Hf. unfold option_strings_of. rewrite list_elem_of_bind. split.
  - intros (b & Hflag & [Hb [j Hj]%list_elem_of_lookup_1]%list_elem_of_filter).
    rewrite (find_action_distinct p j b flag Hnd Hj Hflag) in Hf.
    by injection Hf as _ <-.
  - intros Ha. apply list_find_Some in Hf as (Hi & Hflag & _).
    exists a. split; [done|]. apply list_elem_of_filter.
    split; [done|]. by eapply list_elem_of_lookup_2.
Qed.

(** What an accepted word stores into an attribute whose arguments all
    convert with [ty]. *)
Lemma word_value_stored (p : list argument) d ty w :
  distinct_option_strings p →
  (∀ a, a ∈ p → dest a = d → act a = store ty) →
  accepted p w = true →
  word_value p d w = flag_word (option_strings_of p d stores) w ≫= convert ty
  ∧ ∀ s, flag_word (option_strings_of p d stores) w = Some s → is_Some (convert ty s).
Proof.
  intros Hnd Hty Hacc. destruct w as [flag arg|]; [|done]. cbn in Hacc |- *.
  destruct (find_action p flag) as [[i a]|] eqn:Hf; [|done].
  pose proof (elem_of_option_strings_of p d stores i a flag Hnd Hf) as Hin.
  apply list_find_Some in Hf as (Hi%list_elem_of_lookup_2 & _ & _).
  destruct (decide (dest a = d)) as [Hd|Hd].
  - rewrite (bool_decide_eq_true_2 _ Hd). rewrite (Hty a Hi Hd) in Hacc, Hin |- *.
    destruct arg as [s|]; [|done]. cbn in Hacc |- *.
    rewrite (bool_decide_eq_true_2 (flag ∈ _)) by (apply (proj2 Hin); by split).
    cbn. destruct (convert ty s) as [v|] eqn:Hconv; cbn in Hacc |- *; [|done].
    split; [done|]. intros ? [= <-]. rewrite Hconv. by eexists.
  - rewrite (bool_decide_eq_false_2 _ Hd).
    destruct arg as [s|]; [|done].
    rewrite (bool_decide_eq_false_2 (flag ∈ _)); [done|].
    by intros [? _]%Hin.
Qed.

Lemma cli_value_stored (p : list argument) d ty cli :
  distinct_option_strings p →
  (∀ a, a ∈ p → dest a = d → act a = store ty) →
  Forall (λ w, accepted p w = true) cli →
  cli_value p d cli = flag_text (option_strings_of p d stores) cli ≫= convert ty
  ∧ ∀ s, flag_text (option_strings_of p d stores) cli = Some s → is_Some (convert ty s).
Proof.
  intros Hnd Hty. induction 1 as [|w cli Hw _ [IHv IHs]]; [done|].
  rewrite cli_value_cons, flag_text_cons, IHv.
  destruct (word_value_stored p d ty w Hnd Hty Hw) as [Hv Hs].
  destruct (flag_text _ cli) as [s|]; cbn.
  - destruct (IHs s eq_refl) as [v Hconv]. rewrite Hconv. split; [done|].
    intros ? [= <-]. rewrite Hconv. by eexists.
  - done.
Qed.

(** What an accepted word says about an attribute whose arguments are
    all toggles. *)
Lemma word_value_toggle (p : list argument) d w :
  distinct_option_strings p →
  (∀ a, a ∈ p → dest a = d → act a = store_true ∨ act a = store_false) →
  accepted p w = true →
  word_value p d w =
    VBool <$> toggle_word (option_strings_of p d stores_true)
                (option_strings_of p d stores_false) w.
Proof.
  intros Hnd Hty Hacc. destruct w as [flag arg|]; [|done]. cbn in Hacc |- *.
  destruct (find_action p flag) as [[i a]|] eqn:Hf; [|done].
  pose proof (elem_of_option_strings_of p d stores_true i a flag Hnd Hf) as Hon.
  pose proof (elem_of_option_strings_of p d stores_false i a flag Hnd Hf) as Hoff.
  apply list_find_Some in Hf as (Hi%list_elem_of_lookup_2 & _ & _).
  destruct (decide (dest a = d)) as [Hd|Hd].
  - rewrite (bool_decide_eq_true_2 _ Hd).
    destruct (Hty a Hi Hd) as [Ha|Ha]; rewrite Ha in Hacc, Hon, Hoff |- *;
      (destruct arg as [s|]; [done|]); cbn.
    + by rewrite (bool_decide_eq_true_2 (flag ∈ _)) by (apply (proj2 Hon); by split).
    + rewrite (bool_decide_eq_false_2 (flag ∈ option_strings_of p d stores_true));
        [|by intros [_ ?]%Hon].
      by rewrite (bool_decide_eq_true_2 (flag ∈ _)) by (apply (proj2 Hoff); by split).
  - rewrite (bool_decide_eq_false_2 _ Hd).
    destruct arg as [s|]; [done|].
    rewrite (bool_decide_eq_false_2 (flag ∈ option_strings_of p d stores_true));
      [|by intros [? _]%Hon].
    by rewrite (bool_decide_eq_false_2 (flag ∈ _)); [|by intros [? _]%Hoff].
Qed.

Lemma cli_value_toggle (p : list argument) d cli :
  distinct_option_strings p →
  (∀ a, a ∈ p → dest a = d → act a = store_true ∨ act a = store_false) →
  Forall (λ w, accepted p w = true) cli →
  cli_value p d cli =
    VBool <$> last (omap (toggle_word (option_strings_of p d stores_true)
                            (option_strings_of p d stores_false)) cli).
Proof.
  intros Hnd Hty. induction 1 as [|w cli Hw _ IH]; [done|].
  rewrite cli_value_cons, IH, (word_value_toggle p d w Hnd Hty Hw). cbn.
  destruct (toggle_word _ _ w) as [b|]; cbn.
  - rewrite last_cons. by destruct (last _).
  - by destruct (last _).
Qed.

Lemma module_parser_distinct (m : module_config) :
  distinct_option_strings (module_parser m).
Proof. destruct m; apply (bool_decide_unpack _); by vm_compute. Qed.

End option_values.

Section resolved_values.
Context `{PyLib}.
Import argparse io.

Lemma module_parser_unshared (m : module_config) :
  string_defaults_unshared (module_parser m).
Proof. destruct m; [apply chat_parser_unshared|apply ocr_parser_unshared]. Qed.

(** An attribute whose arguments all convert with [ty], after
    [parse_args]: the conversion of the text of the command line, or
    else its default. *)
Lemma typed_row (m : module_config) d ty cli ns dv text :
  parse_args (module_parser m) cli = Parsed ns →
  (∀ a, a ∈ module_parser m → dest a = d → act a = store ty) →
  default_of (module_parser m) d = Parsed (Some dv) →
  convert ty text = Some dv →
  ∃ v,
    convert ty
      (from_option id text (flag_text (option_strings_of (module_parser m) d stores) cli))
      = Some v
    ∧ ns !! d = Some v.
Proof.
  intros Hns Hty Hdef Hconv.
  assert (Forall (λ w, accepted (module_parser m) w = true) cli) as Hacc.
  { apply parse_args_accepts. by exists ns. }
  destruct (cli_value_stored _ d ty cli (module_parser_distinct m) Hty Hacc) as [Hv Hs].
  rewrite (parse_args_resolved _ cli ns d dv (module_parser_unshared m) Hns Hdef), Hv.
  destruct (flag_text _ cli) as [s|]; cbn.
  - destruct (Hs s eq_refl) as [v Hsv]. exists v. by rewrite Hsv.
  - by exists dv.
Qed.

(** The same for an attribute whose arguments are toggles. *)
Lemma toggle_row (m : module_config) d cli ns b :
  parse_args (module_parser m) cli = Parsed ns →
  (∀ a, a ∈ module_parser m → dest a = d → act a = store_true ∨ act a = store_false) →
  default_of (module_parser m) d = Parsed (Some (VBool b)) →
  ns !! d =
    Some (VBool (from_option id b
      (last (omap (toggle_word (option_strings_of (module_parser m) d stores_true)
                     (option_strings_of (module_parser m) d stores_false)) cli)))).
Proof.
  intros Hns Hty Hdef.
  assert (Forall (λ w, accepted (module_parser m) w = true) cli) as Hacc.
  { apply parse_args_accepts. by exists ns. }
  rewrite (parse_args_resolved _ cli ns d _ (module_parser_unshared m) Hns Hdef).
  rewrite (cli_value_toggle _ d cli (module_parser_distinct m) Hty Hacc).
  by destruct (last _).
Qed.

(** The attributes of [args] are the values of the namespace. *)
Lemma chat_args_fields ns (a : chat.args) :
  chat.args_of ns = Some a →
  ns !! "model" = Some (VPath (chat.model a))
  ∧ ns !! "port" = Some (VInt (chat.port a))
  ∧ ns !! "n_gpu_layers" = Some (VInt (chat.n_gpu_layers a))
  ∧ ns !! "context_size" = Some (VInt (chat.context_size a))
  ∧ ns !! "batch_size" = Some (VInt (chat.batch_size a))
  ∧ ns !! "ubatch_size" = Some (VInt (chat.ubatch_size a))
  ∧ ns !! "cache_type_k" = Some (VStr (chat.cache_type_k a))
  ∧ ns !! "cache_type_v" = Some (VStr (chat.cache_type_v a))
  ∧ ns !! "flash_attn" = Some (VBool (chat.flash_attn a))
  ∧ ns !! "mlock" = Some (VBool (chat.mlock a)).
Proof.
  unfold chat.args_of, attr.path, attr.int, attr.str, attr.bool.
  destruct (ns !! "model") as [[]|]; try discriminate; cbn.
  destruct (ns !! "port") as [[]|]; try discriminate; cbn.
  destruct (ns !! "n_gpu_layers") as [[]|]; try discriminate; cbn.
  destruct (ns !! "context_size") as [[]|]; try discriminate; cbn.
  destruct (ns !! "batch_size") as [[]|]; try discriminate; cbn.
  destruct (ns !! "ubatch_size") as [[]|]; try discriminate; cbn.
  destruct (ns !! "cache_type_k") as [[]|]; try discriminate; cbn.
  destruct (ns !! "cache_type_v") as [[]|]; try discriminate; cbn.
  destruct (ns !! "flash_attn") as [[]|]; try discriminate; cbn.
  destruct (ns !! "mlock") as [[]|]; try discriminate; cbn.
  by intros [= <-].
Qed.

Lemma ocr_args_fields ns (a : ocr.args) :
  ocr.args_of ns = Some a →
  ns !! "ngl" = Some (VInt (ocr.ngl a))
  ∧ ns !! "threads" = Some (VInt (ocr.threads a))
  ∧ ns !! "context_size" = Some (VInt (ocr.context_size a))
  ∧ ns !! "n_predict" = Some (VInt (ocr.n_predict a))
  ∧ ns !! "temp" = Some (VFloat (ocr.temp a))
  ∧ ns !! "cache_type_k" = Some (VStr (ocr.cache_type_k a))
  ∧ ns !! "cache_type_v" = Some (VStr (ocr.cache_type_v a))
  ∧ ns !! "model" = Some (VPath (ocr.model a))
  ∧ ns !! "mmproj" = Some (VPath (ocr.mmproj a))
  ∧ ns !! "image" = Some (VPath (ocr.image a)).
Proof.
  unfold ocr.args_of, attr.path, attr.int, attr.str, attr.float.
  destruct (ns !! "ngl") as [[]|]; try discriminate; cbn.
  destruct (ns !! "threads") as [[]|]; try discriminate; cbn.
  destruct (ns !! "context_size") as [[]|]; try discriminate; cbn.
  destruct (ns !! "n_predict") as [[]|]; try discriminate; cbn.
  destruct (ns !! "temp") as [[]|]; try discriminate; cbn.
  destruct (ns !! "cache_type_k") as [[]|]; try discriminate; cbn.
  destruct (ns !! "cache_type_v") as [[]|]; try discriminate; cbn.
  destruct (ns !! "model") as [[]|]; try discriminate; cbn.
  destruct (ns !! "mmproj") as [[]|]; try discriminate; cbn.
  destruct (ns !! "image") as [[]|]; try discriminate; cbn.
  by intros [= <-].
Qed.

End resolved_values.

(** The arguments of a parser that store into a given attribute all have
    the action the goal names. *)
Ltac same_action :=
  let b := fresh "b" in let j := fresh "j" in
  let Hj := fresh "Hj" in let Hd := fresh "Hd" in
  intros b [j Hj]%list_elem_of_lookup_1 Hd;
  each_argument j Hj; try discriminate Hd; auto.

(** One row of the table of options: the value of the namespace through
    [typed_row], then the word of the argument vector. *)
Ltac option_row m Hns D E F :=
  let ty := fresh "ty" in let pos := fresh "pos" in
  let Hk := fresh "Hk" in let Hpos := fresh "Hpos" in
  let v := fresh "v" in let Hv := fresh "Hv" in let Hnsv := fresh "Hnsv" in
  intros ty pos Hk Hpos; cbn in Hk; try discriminate Hk;
  injection Hk as <-; vm_compute in Hpos; injection Hpos as <-;
  match type of D with
  | default_of _ ?d = argparse.Parsed (Some ?dv) =>
      match goal with
      | |- ∃ _, argparse.convert ?t (deciding_text _ ?o ?env ?cli) = _ ∧ _ =>
          destruct (typed_row m d t cli _ dv (environ_get env (variable o) (builtin o))
                      Hns ltac:(same_action) D) as (v & Hv & Hnsv);
          [cbn [argparse.convert variable builtin]; first [by rewrite E | by rewrite <- E]|]
      end
  end;
  exists v; split; [exact Hv|];
  rewrite F in Hnsv; injection Hnsv as <-.

Section options_to_argv.
Context `{PyLib}.
Import argparse io.

(** Every attribute of [args] that is rendered as a flag and a value:
    the text that decides it converts, and the string form of the
    converted value is the word at the position of that attribute in
    the argument vector. *)
Lemma option_row_argv (l : launcher) (dir : pypath) (env : environ)
    (cli : list cli_arg) (m : module_config) (cfg : LaunchConfig)
    (o : option_spec) (ty : argtype) (pos : nat) :
  load_module l dir env = Some m →
  resolve l dir env cli = Some cfg →
  o ∈ cli_options l (environ_get env "DATA_DIR" (str_of_path (joinpath dir "data"))) →
  kind_of o = Typed ty →
  rendered l !! holder o = Some pos →
  ∃ v, convert ty (deciding_text (module_parser m) o env cli) = Some v
    ∧ argv cfg !! pos = Some (str_of_value v).
Proof.
  intros Hm Hres Ho. unfold resolve in Hres. rewrite Hm in Hres. cbn in Hres.
  destruct (parse_args (module_parser m) cli) as [ns| |] eqn:Hns; [|done..].
  revert ty pos. revert o Ho. rewrite <- Forall_forall.
  destruct l as [|vr]; cbn in Hm.
  - destruct (chat.load dir env) as [c|] eqn:Hc; [|done]. injection Hm as <-.
    cbn in Hres. destruct (chat.args_of ns) as [a|] eqn:Ha; [|done].
    injection Hres as <-.
    destruct (chat_defaults c) as (D1 & D2 & D3 & D4 & D5 & D6 & D7 & D8 & D9 & D10).
    destruct (chat_load_Some dir env c Hc)
      as (E0 & E1 & E2 & E3 & E4 & E5 & E6 & E7 & E8 & E9 & E10 & E11).
    destruct (chat_args_fields ns a Ha)
      as (F1 & F2 & F3 & F4 & F5 & F6 & F7 & F8 & F9 & F10).
    cbn [cli_options]. repeat apply Forall_cons_2; [..|apply Forall_nil_2].
    + option_row (ChatModule c) Hns D1 E1 F1.
      cbn. unfold chat.command. by destruct (chat.flash_attn a), (chat.mlock a).
    + option_row (ChatModule c) Hns D2 E2 F2.
      cbn. unfold chat.command. by destruct (chat.flash_attn a), (chat.mlock a).
    + option_row (ChatModule c) Hns D3 E3 F3.
      cbn. unfold chat.command. by destruct (chat.flash_attn a), (chat.mlock a).
    + option_row (ChatModule c) Hns D4 E4 F4.
      cbn. unfold chat.command. by destruct (chat.flash_attn a), (chat.mlock a).
    + option_row (ChatModule c) Hns D5 E5 F5.
      cbn. unfold chat.command. by destruct (chat.flash_attn a), (chat.mlock a).
    + option_row (ChatModule c) Hns D6 E6 F6.
      cbn. unfold chat.command. by destruct (chat.flash_attn a), (chat.mlock a).
    + option_row (ChatModule c) Hns D7 E7 F7.
      cbn. unfold chat.command. by destruct (chat.flash_attn a), (chat.mlock a).
    + option_row (ChatModule c) Hns D8 E8 F8.
      cbn. unfold chat.command. by destruct (chat.flash_attn a), (chat.mlock a).
    + by intros ty pos Hk.
    + by intros ty pos Hk.
  - destruct (ocr.load vr dir env) as [c|] eqn:Hc; [|done]. injection Hm as <-.
    cbn in Hres. destruct (ocr.args_of ns) as [a|] eqn:Ha; [|done].
    injection Hres as <-.
    destruct (ocr_defaults c) as (D1 & D2 & D3 & D4 & D5 & D6 & D7 & D8 & D9 & D10).
    destruct (ocr_load_Some vr dir env c Hc)
      as (E0 & E1 & E2 & E3 & E4 & E5 & E6 & E7 & E8 & E9 & E10 & E11 & E12 & E13 & E14).
    destruct (ocr_args_fields ns a Ha)
      as (F1 & F2 & F3 & F4 & F5 & F6 & F7 & F8 & F9 & F10).
    cbn [cli_options]. repeat apply Forall_cons_2; [..|apply Forall_nil_2].
    + option_row (OcrModule c) Hns D1 E4 F1.
      cbn. unfold ocr.command. by destruct (ocr.DEFAULT_FLASH_ATTN c), (ocr.DEFAULT_MLOCK c).
    + option_row (OcrModule c) Hns D2 E5 F2.
      cbn. unfold ocr.command. by destruct (ocr.DEFAULT_FLASH_ATTN c), (ocr.DEFAULT_MLOCK c).
    + option_row (OcrModule c) Hns D3 E6 F3.
      cbn. unfold ocr.command. by destruct (ocr.DEFAULT_FLASH_ATTN c), (ocr.DEFAULT_MLOCK c).
    + option_row (OcrModule c) Hns D4 E7 F4.
      cbn. unfold ocr.command. by destruct (ocr.DEFAULT_FLASH_ATTN c), (ocr.DEFAULT_MLOCK c).
    + option_row (OcrModule c) Hns D5 E8 F5.
      cbn. unfold ocr.command. by destruct (ocr.DEFAULT_FLASH_ATTN c), (ocr.DEFAULT_MLOCK c).
    + option_row (OcrModule c) Hns D6 E9 F6.
      cbn. unfold ocr.command. by destruct (ocr.DEFAULT_FLASH_ATTN c), (ocr.DEFAULT_MLOCK c).
    + option_row (OcrModule c) Hns D7 E10 F7.
      cbn. unfold ocr.command. by destruct (ocr.DEFAULT_FLASH_ATTN c), (ocr.DEFAULT_MLOCK c).
    + option_row (OcrModule c) Hns D8 E1 F8.
      cbn. unfold ocr.command. by destruct (ocr.DEFAULT_FLASH_ATTN c), (ocr.DEFAULT_MLOCK c).
    + option_row (OcrModule c) Hns D9 E2 F9.
      cbn. unfold ocr.command. by destruct (ocr.DEFAULT_FLASH_ATTN c), (ocr.DEFAULT_MLOCK c).
    + option_row (OcrModule c) Hns D10 E3 F10.
      cbn. unfold ocr.command. by destruct (ocr.DEFAULT_FLASH_ATTN c), (ocr.DEFAULT_MLOCK c).
Qed.

End options_to_argv.

Section end_to_end.
Context `{PyLib}.
Import argparse io.

(** X11: every attribute of [args] that is rendered as a flag and a value is
    decided by one text: that of the last word of the command line that
    gives it, or else that of its environment variable, or else the
    built-in one. That text converts with the type of the attribute, and
    the string form of the converted value is the word at the position
    of the attribute in the argument vector. A text option, and a whole
    number that is written as Python prints it, reach the child as they
    were written. *)
Theorem deciding_text_reaches_argv (l : launcher) (dir : pypath) (env : environ)
    (cli : list cli_arg) (m : module_config) (cfg : LaunchConfig)
    (o : option_spec) (ty : argtype) (pos : nat) :
  load_module l dir env = Some m →
  resolve l dir env cli = Some cfg →
  o ∈ cli_options l (environ_get env "DATA_DIR" (str_of_path (joinpath dir "data"))) →
  kind_of o = Typed ty →
  rendered l !! holder o = Some pos →
  let text := deciding_text (module_parser m) o env cli in
  ∃ v, convert ty text = Some v
    ∧ argv cfg !! pos = Some (str_of_value v)
    ∧ (ty = type_str → str_of_value v = text)
    ∧ (∀ n, ty = type_int → text = Str.of_int n → str_of_value v = text).
Proof.
  intros Hm Hres Ho Hk Hpos text.
  destruct (option_row_argv l dir env cli m cfg o ty pos Hm Hres Ho Hk Hpos)
    as (v & Hv & Hargv).
  exists v. fold text in Hv. split; [done|]. split; [done|]. split.
  - intros ->. cbn in Hv. by injection Hv as <-.
  - intros n -> Hn. rewrite Hn in Hv |- *. cbn in Hv.
    rewrite to_int_of_int in Hv. by injection Hv as <-.
Qed.

(** X12: in chat.py each of the two toggles is decided by the last word of
    the command line that names one of its flags, which turns it on
    ([-fa], [--flash-attn], [--mlock]) or off ([--no-flash-attn],
    [--no-mlock]); with no such word, by its environment variable. *)
Theorem chat_toggles_follow_last_word (dir : pypath) (env : environ)
    (cli : list cli_arg) (c : chat.config) (cfg : LaunchConfig) :
  chat.load dir env = Some c →
  resolve chat_py dir env cli = Some cfg →
  let p := chat.parser c in
  flash_attention cfg = deciding_toggle p "flash_attn" "FLASH_ATTN" env cli
  ∧ memory_lock cfg = deciding_toggle p "mlock" "MLOCK" env cli
  ∧ option_strings_of p "flash_attn" stores_true = ["-fa"; "--flash-attn"]
  ∧ option_strings_of p "flash_attn" stores_false = ["--no-flash-attn"]
  ∧ option_strings_of p "mlock" stores_true = ["--mlock"]
  ∧ option_strings_of p "mlock" stores_false = ["--no-mlock"].
Proof.
  intros Hc Hres p. apply resolve_Some in Hres as (m & ns & Hm & Hns & Hcfg).
  cbn in Hm. rewrite Hc in Hm. injection Hm as <-. cbn in Hns, Hcfg.
  destruct (chat.args_of ns) as [a|] eqn:Ha; [|done]. injection Hcfg as <-.
  destruct (chat_defaults c) as (_ & _ & _ & _ & _ & _ & _ & _ & D9 & D10).
  destruct (chat_load_Some dir env c Hc) as (_ & _ & _ & _ & _ & _ & _ & _ & _ & E9 & E10 & _).
  destruct (chat_args_fields ns a Ha) as (_ & _ & _ & _ & _ & _ & _ & _ & F9 & F10).
  pose proof (toggle_row (ChatModule c) "flash_attn" cli ns _ Hns ltac:(same_action) D9) as T9.
  pose proof (toggle_row (ChatModule c) "mlock" cli ns _ Hns ltac:(same_action) D10) as T10.
  rewrite F9 in T9. rewrite F10 in T10. injection T9 as T9. injection T10 as T10.
  unfold deciding_toggle. rewrite <- E9, <- E10.
  split; [exact T9|]. split; [exact T10|]. repeat split; reflexivity.
Qed.


End end_to_end.


(** * What the launchers do not depend on *)

Section frames.
Context `{PyLib}.
Import argparse io.



(** X15: [launch] looks at the required files of the configuration and at
    nothing else of the disk: two worlds with the same encoding that
    agree on those files and on what the command does give the same
    run. *)
Theorem looks_at_required_files_only (cfg : LaunchConfig) (env : environ)
    (w1 w2 : World) :
  Forall (λ f, regular_file w1 f.2 = regular_file w2 f.2) (required_files cfg) →
  execute w1 env (argv cfg) = execute w2 env (argv cfg) →
  (∀ data, decode w1 data = decode w2 data) →
  launch env cfg w1 start = launch env cfg w2 start.
Proof.
  intros Hfiles Hx Hdec. destruct cfg as [c a|c a|]; cbn [launch].
  - apply Forall_cons_1 in Hfiles as [Hfiles _]. cbn in Hfiles.
    change (execute w1 env (chat.command c a) = execute w2 env (chat.command c a)) in Hx.
    unfold chat.launch. io_unfold. rewrite Hfiles, Hx.
    destruct (regular_file w2 (chat.model a)); cbn; [|done].
    by destruct (execute w2 env (chat.command c a)).
  - apply Forall_cons_1 in Hfiles as [Hm Hfiles].
    apply Forall_cons_1 in Hfiles as [Hp Hfiles].
    apply Forall_cons_1 in Hfiles as [Hfiles _]. cbn in Hm, Hp, Hfiles.
    change (execute w1 env (ocr.command c a) = execute w2 env (ocr.command c a)) in Hx.
    assert (∀ data, translate_newlines w1 data = translate_newlines w2 data) as Htr.
    { intros data. unfold translate_newlines. by rewrite Hdec. }
    unfold ocr.launch. io_unfold. rewrite Hm, Hp, Hfiles, Hx.
    destruct (regular_file w2 (ocr.model a)); cbn; [|done].
    destruct (regular_file w2 (ocr.mmproj a)); cbn; [|done].
    destruct (regular_file w2 (ocr.image a)); cbn; [|done].
    destruct (execute w2 env (ocr.command c a)) as [|msg|rc out err]; [done|done|].
    rewrite !Htr. destruct (translate_newlines w2 out); [done|].
    destruct (translate_newlines w2 err); [done|]. by destruct (rc =? 0).
  - rewrite !watch_main_runs. cbv zeta. cbn in Hx. by rewrite Hx.
Qed.

End frames.

(** * The further properties on closed invocations *)

Section closed_invocations.
Import argparse io sample invocation.
Existing Instance posix.lib.

(** A refused spawn of the server. *)
Lemma spawn_failure_exits_1_witness :
  valid (disk denied) chat_cfg
  ∧ execute (disk denied) ∅ (argv chat_cfg) = denied
  ∧ (launch ∅ chat_cfg (disk denied) start).1 = SystemExit 1
  ∧ stderr (launch ∅ chat_cfg (disk denied) start).2
      = catch_all chat_cfg +:+ "[Errno 13] Permission denied: 'llama-server'" +:+ Str.nl
  ∧ spawned (launch ∅ chat_cfg (disk denied) start).2 = [argv chat_cfg]
  ∧ exit_status (launch ∅ chat_cfg (disk denied) start).1 = 1.
Proof.
  split; [apply valid_disk|]. split; [reflexivity|].
  apply (spawn_failure_exits_1 (disk denied) ∅ chat_cfg);
    [apply valid_disk|reflexivity].
Defined.


Lemma trimmed_ok_json : trimmed ok_json.
Proof.
  split; intros w r Hw.
  - exact (ascii_first_unstarted Str.whitespace "{"%char
             (Str.dq +:+ "ok" +:+ Str.dq +:+ ":true}") w r eq_refl eq_refl Hw).
  - exact (ascii_last_unended Str.whitespace "}"%char ok_json w r eq_refl eq_refl eq_refl Hw).
Qed.

(** The child that prints [{"ok":true}] after two spaces and before a
    newline, and the one that prints it between no-break spaces. *)
Lemma capture_ignores_padding_witness :
  capture_mode ocr_cfg = true
  ∧ valid (disk ok_child) ocr_cfg
  ∧ Str.all_space "  " = true ∧ Str.all_space Str.nl = true ∧ trimmed ok_json
  ∧ execute (disk ok_child) ∅ (argv ocr_cfg)
      = Terminated 0 ("  " +:+ ok_json +:+ Str.nl) ("warning: slow" +:+ Str.nl)
  ∧ decode (disk ok_child) ("  " +:+ ok_json +:+ Str.nl) = inr ("  " +:+ ok_json +:+ Str.nl)
  ∧ decode (disk ok_child) ("warning: slow" +:+ Str.nl) = inr ("warning: slow" +:+ Str.nl)
  ∧ Str.replace_cr (Str.replace_crlf ("  " +:+ ok_json +:+ Str.nl))
      = "  " +:+ ok_json +:+ Str.nl
  ∧ launch ∅ ocr_cfg (disk ok_child) start
      = (Return tt, Streams (ok_json +:+ Str.nl) EmptyString [argv ocr_cfg]).
Proof.
  split; [reflexivity|]. split; [apply valid_disk|]. split; [reflexivity|].
  split; [reflexivity|]. split; [exact trimmed_ok_json|]. split; [reflexivity|].
  split; [reflexivity|]. split; [reflexivity|]. split; [reflexivity|].
  apply (capture_ignores_padding (disk ok_child) ∅ ocr_cfg
           ("  " +:+ ok_json +:+ Str.nl) ("warning: slow" +:+ Str.nl)
           ("  " +:+ ok_json +:+ Str.nl) ("warning: slow" +:+ Str.nl)
           "  " ok_json Str.nl);
    [reflexivity|apply valid_disk|reflexivity|reflexivity|exact trimmed_ok_json
    |reflexivity|reflexivity|reflexivity|reflexivity].
Defined.

(** The port given twice, with the files in place. *)
Lemma accepted_command_line_launches_witness :
  load_module chat_py (script_dir (disk ok_child)) port_env = Some port_module
  ∧ forallb (accepted (module_parser port_module)) port_cli = true
  ∧ ∃ cfg, resolve chat_py (script_dir (disk ok_child)) port_env port_cli = Some cfg
      ∧ run_script chat_py port_env port_cli (disk ok_child) start
          = launch port_env cfg (disk ok_child) start.
Proof.
  split; [reflexivity|]. split; [reflexivity|].
  apply (accepted_command_line_launches chat_py port_env port_cli (disk ok_child) port_module);
    reflexivity.
Defined.

(** The flag of chat.py that ocr_meta.py does not have. *)
Lemma rejected_command_line_exits_witness :
  load_module (ocr_py ocr.ocr_meta) (script_dir (disk ok_child)) ∅ = Some meta_module
  ∧ forallb (accepted (module_parser meta_module)) unknown_cli = false
  ∧ spawned (run_script (ocr_py ocr.ocr_meta) ∅ unknown_cli (disk ok_child) start).2 = []
  ∧ resolve (ocr_py ocr.ocr_meta) (script_dir (disk ok_child)) ∅ unknown_cli = None
  ∧ ((run_script (ocr_py ocr.ocr_meta) ∅ unknown_cli (disk ok_child) start).1 = SystemExit 2
     ∨ existsb (asks_help (module_parser meta_module)) unknown_cli = true
       ∧ ((run_script (ocr_py ocr.ocr_meta) ∅ unknown_cli (disk ok_child) start).1
            = SystemExit 0
          ∨ ∃ a h e,
              a ∈ module_parser meta_module ∧ help_text a = Some h
              ∧ help_error h = Some e
              ∧ (run_script (ocr_py ocr.ocr_meta) ∅ unknown_cli (disk ok_child) start).1
                  = Raise (Exception e))).
Proof.
  split; [reflexivity|]. split; [reflexivity|].
  apply (rejected_command_line_exits (ocr_py ocr.ocr_meta) ∅ unknown_cli (disk ok_child)
           meta_module);
    reflexivity.
Defined.

(** The help of chat.py: with the built-in texts the parser prints it
    and exits with status 0; with a percent sign in the path of the
    model the expansion of the help text of [--model] raises, and the
    script ends with that exception uncaught. *)
Example help_of_chat :
  (run_script chat_py ∅ help_cli (disk ok_child) start).1 = SystemExit 0
  ∧ (run_script chat_py percent_env help_cli (disk ok_child) start).1
      = Raise (Exception "must be real number, not dict")
  ∧ exit_status (run_script chat_py percent_env help_cli (disk ok_child) start).1 = 1
  ∧ (run_script (ocr_py ocr.ocr_meta) percent_env help_cli (disk ok_child) start).1
      = SystemExit 0.
Proof. repeat split; reflexivity. Qed.

(** A port that is not a number, with a good port on the command
    line. *)
Lemma bad_number_raises_value_error_witness :
  bad_number chat_py bad_port_env = true
  ∧ (run_script chat_py bad_port_env port_cli (disk ok_child) start).1 = Raise ValueError
  ∧ spawned (run_script chat_py bad_port_env port_cli (disk ok_child) start).2 = []
  ∧ exit_status (run_script chat_py bad_port_env port_cli (disk ok_child) start).1 = 1.
Proof.
  split; [reflexivity|].
  apply (bad_number_raises_value_error chat_py bad_port_env port_cli (disk ok_child));
    reflexivity.
Defined.

(** The same data directory for a script in [/srv/app] and for one in
    [/opt]. *)
Lemma data_dir_overrides_script_dir_witness :
  data_env !! "DATA_DIR" = Some "/models"
  ∧ resolve chat_py "/srv/app" data_env port_cli = resolve chat_py "/opt" data_env port_cli.
Proof.
  split; [reflexivity|].
  apply (data_dir_overrides_script_dir (H:=posix.lib) chat_py data_env port_cli "/models" "/srv/app" "/opt");
    reflexivity.
Defined.

(** The port of the command line, 9090, over that of the environment,
    8080: the fifth word of the argument vector is [9090]. *)
Lemma deciding_text_reaches_argv_witness :
  load_module chat_py "/srv/app" port_env = Some port_module
  ∧ resolve chat_py "/srv/app" port_env port_cli = Some port_cfg
  ∧ port_option ∈ cli_options chat_py
      (environ_get port_env "DATA_DIR" (str_of_path (joinpath "/srv/app" "data")))
  ∧ kind_of port_option = Typed type_int
  ∧ rendered chat_py !! holder port_option = Some 4%nat
  ∧ deciding_text (module_parser port_module) port_option port_env port_cli = "9090"
  ∧ ∃ v, convert type_int
           (deciding_text (module_parser port_module) port_option port_env port_cli) = Some v
      ∧ argv port_cfg !! 4%nat = Some (str_of_value v)
      ∧ (type_int = type_str →
         str_of_value v = deciding_text (module_parser port_module) port_option port_env port_cli)
      ∧ (∀ n, type_int = type_int →
           deciding_text (module_parser port_module) port_option port_env port_cli
             = Str.of_int n →
           str_of_value v = deciding_text (module_parser port_module) port_option port_env port_cli).
Proof.
  assert (port_option ∈ cli_options chat_py
            (environ_get port_env "DATA_DIR" (str_of_path (joinpath "/srv/app" "data"))))
    as Ho by (right; left).
  split; [reflexivity|]. split; [reflexivity|]. split; [exact Ho|].
  split; [reflexivity|]. split; [reflexivity|]. split; [reflexivity|].
  apply (deciding_text_reaches_argv (H:=posix.lib) chat_py "/srv/app" port_env port_cli port_module
           port_cfg port_option type_int 4%nat);
    [reflexivity|reflexivity|exact Ho|reflexivity|reflexivity].
Defined.

(** Flash attention turned on and then off on the command line: it is
    off, and the memory lock follows the environment. *)
Lemma chat_toggles_follow_last_word_witness :
  chat.load "/srv/app" ∅ = Some posix.chat_config
  ∧ resolve chat_py "/srv/app" ∅ on_off_cli = Some on_off_cfg
  ∧ flash_attention on_off_cfg = false
  ∧ memory_lock on_off_cfg = true
  ∧ flash_attention on_off_cfg
      = deciding_toggle (chat.parser posix.chat_config) "flash_attn" "FLASH_ATTN" ∅ on_off_cli
  ∧ memory_lock on_off_cfg
      = deciding_toggle (chat.parser posix.chat_config) "mlock" "MLOCK" ∅ on_off_cli
  ∧ option_strings_of (chat.parser posix.chat_config) "flash_attn" stores_true
      = ["-fa"; "--flash-attn"]
  ∧ option_strings_of (chat.parser posix.chat_config) "flash_attn" stores_false
      = ["--no-flash-attn"]
  ∧ option_strings_of (chat.parser posix.chat_config) "mlock" stores_true = ["--mlock"]
  ∧ option_strings_of (chat.parser posix.chat_config) "mlock" stores_false = ["--no-mlock"].
Proof.
  split; [reflexivity|]. split; [reflexivity|]. split; [reflexivity|]. split; [reflexivity|].
  apply (chat_toggles_follow_last_word (H:=posix.lib) "/srv/app" ∅ on_off_cli
           posix.chat_config on_off_cfg);
    reflexivity.
Defined.


(** The search path is not a variable of the module level, and it
    decides the spawn: where the programs are found through [PATH]
    alone, chat.py runs differently with and without it. *)
Example path_decides_the_spawn :
  (∀ name, name ∈ environment_variables chat_py → (∅ : environ) !! name = path_env !! name)
  ∧ (run_script chat_py ∅ [] path_disk start).1 = SystemExit 1
  ∧ (run_script chat_py path_env [] path_disk start).1 = SystemExit 0.
Proof.
  split; [|split; reflexivity].
  intros name Hin. rewrite lookup_empty. symmetry. apply lookup_singleton_None.
  intros <-. revert Hin. apply (bool_decide_unpack _). vm_compute. exact I.
Qed.

(** Two disks that differ in a file the server does not need. *)
Lemma looks_at_required_files_only_witness :
  Forall (λ f, regular_file (disk ok_child) f.2 = regular_file (model_disk ok_child) f.2)
    (required_files chat_cfg)
  ∧ execute (disk ok_child) ∅ (argv chat_cfg) = execute (model_disk ok_child) ∅ (argv chat_cfg)
  ∧ (∀ data, decode (disk ok_child) data = decode (model_disk ok_child) data)
  ∧ launch ∅ chat_cfg (disk ok_child) start = launch ∅ chat_cfg (model_disk ok_child) start.
Proof.
  assert (Forall (λ f, regular_file (disk ok_child) f.2
                       = regular_file (model_disk ok_child) f.2)
            (required_files chat_cfg)) as Hfiles
    by (repeat constructor).
  split; [exact Hfiles|]. split; [reflexivity|]. split; [reflexivity|].
  apply (looks_at_required_files_only (H:=posix.lib) chat_cfg ∅ (disk ok_child)
           (model_disk ok_child));
    [exact Hfiles|reflexivity|reflexivity].
Defined.

End closed_invocations.
